(** * Ottawa RAG chatbot: retrieval pipeline, embedded and verified

    A shallow embedding of the retrieval core of the repository:
    - [src/llm_interface.py]  (module [LLM]): retry loop and scripted fallback;
    - [src/embeddings.py]     (module [Embeddings]): cache key, cache load and
                              store, batched encoding, cosine similarity;
    - [src/data_processor.py] (module [Processor]): [create_chunks];
    - [src/rag_pipeline.py]   (module [Pipeline]): threshold filter, response
                              assembly and the query entry point; (module
                              [Orchestrator]): loading the corpus, building
                              the index, the query path on the components,
                              the system statistics;
    - [src/vector_store.py]   (module [VectorStore]): collections, batched
                              insertion, search;
    - [src/llm_interface.py]  (module [LLMStatus]): the availability probe;
    - [src/chatbot.py]        (module [Chatbot]): the question handler.

    Conventions.
    - Python [str] is [string]; the string methods used by the code
      ([lower], [strip], [in], [join]) are written out for ASCII text.
    - Python [int] is [Z]; loop counters that only count are [nat].
    - A Python exception is a value of [exn]; a computation that may raise
      returns [A + exn] ([inl] the value, [inr] the exception), and every
      [try]/[except] of the source is a [match] on that sum.
    - Objects mutated by the code (interface statistics, the cache directory,
      the record of calls made to external services) are threaded explicitly.
    - A binary64 score handled by the orchestrator or the store (a
      similarity, a distance, a threshold) is carried by its exact value, a
      rational [Q], on which the comparisons of the code are exact. The two
      places where the code computes with scores, [np.mean] and
      [1 - distance], are rounded operations of the runtime and are
      parameters of the model. The vector arithmetic of
      [compute_similarity] is binary64 ([float]). *)

From Stdlib Require Import String Ascii List ZArith QArith Bool Lia Lqa.
From Stdlib Require Import Floats DecimalString DecimalNat.
From stdpp Require Import gmap strings.
Import ListNotations.

Local Open Scope string_scope.

(** ** Python exceptions and [str] methods *)

Inductive exn : Type :=
| KeyError (key : string)
| AttributeError (msg : string)
| TypeError (msg : string)
| ValueError (msg : string)
| RuntimeError (msg : string).

(** [str(e)] *)
Definition str_of_exn (e : exn) : string :=
  match e with
  | KeyError k => String.append "'" (String.append k "'")
  | AttributeError m | TypeError m | ValueError m | RuntimeError m => m
  end.

Module Str.

Definition lower_char (c : ascii) : ascii :=
  let n := nat_of_ascii c in
  if (65 <=? n)%nat && (n <=? 90)%nat then ascii_of_nat (n + 32) else c.

(** [s.lower()] *)
Fixpoint lower (s : string) : string :=
  match s with
  | EmptyString => EmptyString
  | String c s' => String (lower_char c) (lower s')
  end.

(** [kw in s]: [kw] occurs in [s] as a contiguous substring. *)
Fixpoint contains (kw s : string) : bool :=
  match s with
  | EmptyString => String.prefix kw EmptyString
  | String _ s' => String.prefix kw s || contains kw s'
  end.

Definition is_space (c : ascii) : bool :=
  let n := nat_of_ascii c in
  ((9 <=? n)%nat && (n <=? 13)%nat) || ((28 <=? n)%nat && (n <=? 32)%nat).

Fixpoint lstrip (s : string) : string :=
  match s with
  | EmptyString => EmptyString
  | String c s' => if is_space c then lstrip s' else s
  end.

Fixpoint rstrip (s : string) : string :=
  match s with
  | EmptyString => EmptyString
  | String c s' =>
      match rstrip s' with
      | EmptyString => if is_space c then EmptyString else String c EmptyString
      | r => String c r
      end
  end.

(** [s.strip()] *)
Definition strip (s : string) : string := rstrip (lstrip s).

(** [sep.join(parts)] *)
Fixpoint join (sep : string) (parts : list string) : string :=
  match parts with
  | [] => EmptyString
  | [p] => p
  | p :: rest => String.append p (String.append sep (join sep rest))
  end.

(** [s[:n]] *)
Fixpoint take (n : nat) (s : string) : string :=
  match n, s with
  | S k, String c s' => String c (take k s')
  | _, _ => EmptyString
  end.

End Str.

(** ** [src/llm_interface.py] *)

Module LLM.

(** What one call of [client.chat.completions.create] does: it raises, or
    it returns a completion whose first choice has the given [content]
    ([None] in Python is [None] here) and, possibly, a token count. *)
Inductive outcome : Type :=
| Raises (e : exn)
| Completion (content : option string) (total_tokens : option Z).

(** The Groq client, seen from the interface: the outcome of a call is a
    function of how many calls were made before it and of the prompt. *)
Definition client_t : Type := nat -> string -> outcome.

(** The fields of [LLMInterface] that [generate_response] reads or writes,
    and the record of what it did to the outside: the prompts sent to the
    backend (oldest first) and the arguments of [time.sleep]. *)
Record t : Type := mk {
  api_key : option string;
  client : option client_t;
  total_requests : Z;
  total_tokens_used : Z;
  backend_calls : list string;
  sleeps : list Z
}.

(** [bool(s)] for an optional string: [None] and the empty string are falsy. *)
Definition truthy (s : option string) : bool :=
  match s with
  | Some (String _ _) => true
  | _ => false
  end.

(** [api_key or os.getenv("GROQ_API_KEY")] *)
Definition key_or_env (arg env : option string) : option string :=
  if truthy arg then arg else env.

(** [__init__] followed by [_initialize_client]. [groq] is the constructor
    [Groq(api_key=...)]; [inr] is the import or the constructor raising. *)
Definition init (groq : string -> client_t + exn)
    (arg env : option string) : t :=
  let key := key_or_env arg env in
  let cl :=
    if truthy key then
      match key with
      | Some k => match groq k with inl c => Some c | inr _ => None end
      | None => None
      end
    else None in
  {| api_key := key; client := cl;
     total_requests := 0; total_tokens_used := 0;
     backend_calls := []; sleeps := [] |}.

(** [fallback_responses], in insertion order (the order [items()] yields). *)
Definition fallback_responses : list (string * string) :=
  [ ("marriage", "For marriage license information, please visit ottawa.ca or call 311.");
    ("parking", "For parking information and regulations, please visit ottawa.ca or call 311.");
    ("garbage", "For waste collection information, please visit ottawa.ca or call 311.");
    ("fire", "For fire safety information, please visit ottawa.ca or contact Ottawa Fire Services.");
    ("business", "For business licensing information, please visit ottawa.ca or call 311.") ].

Definition technical_difficulties : string :=
  "I apologize, but I'm experiencing technical difficulties. ".

Definition generic_fallback : string :=
  "I apologize, but I'm unable to process your request at the moment. Please visit ottawa.ca or call 311 for assistance with Ottawa city services.".

(** The [for keyword, response in ...items()] loop of
    [_get_fallback_response]. *)
Fixpoint scan_table (table : list (string * string)) (query_lower : string)
    : string :=
  match table with
  | [] => generic_fallback
  | (keyword, response) :: rest =>
      if Str.contains keyword query_lower
      then String.append technical_difficulties response
      else scan_table rest query_lower
  end.

Definition _get_fallback_response (query : string) : string :=
  scan_table fallback_responses (Str.lower query).

(** [_update_statistics]: the request counter and the token total (the
    moving average of wall-clock response times is not kept here). *)
Definition _update_statistics (total_tokens : option Z) (self : t) : t :=
  {| api_key := api_key self; client := client self;
     total_requests := total_requests self + 1;
     total_tokens_used :=
       match total_tokens with
       | Some n => total_tokens_used self + n
       | None => total_tokens_used self
       end;
     backend_calls := backend_calls self; sleeps := sleeps self |}.

Definition record_call (prompt : string) (self : t) : t :=
  {| api_key := api_key self; client := client self;
     total_requests := total_requests self;
     total_tokens_used := total_tokens_used self;
     backend_calls := backend_calls self ++ [prompt];
     sleeps := sleeps self |}.

Definition sleep (seconds : Z) (self : t) : t :=
  {| api_key := api_key self; client := client self;
     total_requests := total_requests self;
     total_tokens_used := total_tokens_used self;
     backend_calls := backend_calls self;
     sleeps := sleeps self ++ [seconds] |}.

Definition _build_ottawa_prompt (query context : string) : string :=
  Str.join EmptyString [
    "Based on the following official Ottawa city information, please answer the user's question accurately and helpfully.

CONTEXT FROM OTTAWA.CA:
"; context; "

USER QUESTION: "; query; "

INSTRUCTIONS:
1. Provide a clear, accurate answer based on the context above
2. If the context contains specific procedures, list them step by step
3. Include relevant fees, locations, or contact information when available
4. If the context doesn't fully answer the question, say so clearly
5. Always prioritize official Ottawa information over general knowledge
6. Be helpful and conversational while remaining factual
7. If mentioning fees or procedures, note that information should be verified on ottawa.ca as it may change

RESPONSE:" ].

Definition _build_generic_prompt (query context : string) : string :=
  Str.join EmptyString [
    "Context: "; context; "

Question: "; query; "

Please provide a helpful and accurate answer based on the context above. If the context doesn't contain enough information to answer the question, please say so clearly.

Answer:" ].

Section GenerateResponse.

(** [template.format(query=..., context=...)] of the Python runtime;
    [inr] when the template names another field or is malformed. *)
Variable str_format : string -> string -> string -> string + exn.

Definition build_prompt (query context : string)
    (use_ottawa_prompt : bool) (custom_prompt : option string)
    : string + exn :=
  if truthy custom_prompt then
    match custom_prompt with
    | Some template => str_format template query context
    | None => inl EmptyString
    end
  else if use_ottawa_prompt then inl (_build_ottawa_prompt query context)
  else inl (_build_generic_prompt query context).

(** The body of [for attempt in range(max_retries)], for the [remaining]
    iterations from [attempt] on. The result is [None] when the loop runs
    out without a [return] (the function then falls off its end). *)
Fixpoint attempts (c : client_t) (query prompt : string) (max_retries : Z)
    (remaining : nat) (attempt : Z) (self : t) : option string * t :=
  match remaining with
  | O => (None, self)
  | S k =>
      let called := record_call prompt self in
      let failed (s : t) :=
        if (attempt =? max_retries - 1)%Z
        then (Some (_get_fallback_response query), s)
        else attempts c query prompt max_retries k (attempt + 1)
               (sleep (2 ^ attempt) s) in
      match c (List.length (backend_calls self)) prompt with
      | Raises _ => failed called
      | Completion content total_tokens =>
          let counted := _update_statistics total_tokens called in
          match content with
          | Some response => (Some (Str.strip response), counted)
          | None => failed counted
          end
      end
  end.

Definition generate_response (query context : string)
    (use_ottawa_prompt : bool) (custom_prompt : option string)
    (max_retries : Z) (self : t) : option string * t :=
  match client self with
  | None => (Some (_get_fallback_response query), self)
  | Some c =>
      match build_prompt query context use_ottawa_prompt custom_prompt with
      | inr _ => (Some (_get_fallback_response query), self)
      | inl prompt =>
          attempts c query prompt max_retries (Z.to_nat max_retries) 0 self
      end
  end.

End GenerateResponse.

(** The call as [rag_pipeline.py] makes it: every optional argument at its
    default ([use_ottawa_prompt=True], [custom_prompt=None],
    [max_retries=3]); no template is formatted on this path. *)
Definition default_max_retries : Z := 3.

Definition generate_response_default (query context : string) (self : t)
    : option string * t :=
  generate_response (fun _ _ _ => inr (ValueError "format"))
    query context true None default_max_retries self.

End LLM.

(** ** [src/rag_pipeline.py] *)

Module Pipeline.

(** The value stored under ['metadata'] in a search result. *)
Inductive metadata_t : Type :=
| MetaNone
| MetaDict (url source_file : option string).

(** A search result, a Python [dict]: a key that may be absent is an
    [option] field. [VectorStore.search] always sets ['document'] and
    ['metadata'], and sets ['similarity'] when distances were returned. *)
Record result : Type := mk_result {
  document : option string;
  metadata : option metadata_t;
  similarity : option Q
}.

Record source : Type := mk_source {
  src_url : string;
  src_source_file : string;
  src_similarity : Q
}.

(** The response [dict]; a key that a branch does not set is [None].
    ["answer"] holds the value returned by the LLM interface, which is a
    Python [None] when that function falls off its end. *)
Record response : Type := mk_response {
  answer : option string;
  sources : list source;
  confidence : Q;
  chunks_used : option Z;
  error : option string;
  query : option string;
  timestamp : option string;
  pipeline_version : option string;
  total_documents : option Z;
  total_chunks : option Z
}.

(** [self.documents] and [self.chunks] come from [json.load(...).get(...)]:
    a value with a length (list, dict, string) or one without. *)
Inductive corpus_t : Type :=
| Sized (len : Z)
| Unsized (type_name : string).

(** [len(x)] *)
Definition py_len (x : corpus_t) : Z + exn :=
  match x with
  | Sized n => inl n
  | Unsized ty =>
      inr (TypeError (String.append "object of type '"
                       (String.append ty "' has no len()")))
  end.

Record t : Type := mk {
  is_initialized : bool;
  documents : corpus_t;
  chunks : corpus_t;
  llm_interface : LLM.t
}.

Definition set_llm (l : LLM.t) (self : t) : t :=
  {| is_initialized := is_initialized self; documents := documents self;
     chunks := chunks self; llm_interface := l |}.

(** [result.get('similarity', default)] *)
Definition get_similarity (default : Q) (r : result) : Q :=
  match similarity r with
  | Some s => s
  | None => default
  end.

(** The [for result in results] loop of [search_relevant_context];
    [relevant_chunks] is the list built so far. *)
Fixpoint threshold_filter (results : list result) (similarity_threshold : Q)
    (relevant_chunks : list result) : list result :=
  match results with
  | [] => relevant_chunks
  | r :: rest =>
      threshold_filter rest similarity_threshold
        (if Qle_bool similarity_threshold (get_similarity 0%Q r)
         then relevant_chunks ++ [r]
         else relevant_chunks)
  end.

(** [f"Source {i+1}: {chunk['document']}"] for the chunks from index [i]
    on; the first chunk without a ['document'] key raises. *)
Fixpoint format_sources (i : nat) (context_chunks : list result)
    : list string + exn :=
  match context_chunks with
  | [] => inl []
  | chunk :: rest =>
      match document chunk with
      | None => inr (KeyError "document")
      | Some doc =>
          match format_sources (S i) rest with
          | inr e => inr e
          | inl lines =>
              inl (Str.join EmptyString
                     ["Source "; NilEmpty.string_of_uint (Nat.to_uint (S i));
                      ": "; doc] :: lines)
          end
      end
  end.

(** [d.get(key, '')] on a metadata dict field. *)
Definition get_or_empty (field : option string) : string :=
  match field with
  | Some s => s
  | None => EmptyString
  end.

(** The [for chunk in context_chunks] loop that extracts the sources;
    [metadata.get] raises when the stored metadata is [None]. *)
Fixpoint extract_sources (context_chunks : list result)
    (acc : list source) : list source + exn :=
  match context_chunks with
  | [] => inl acc
  | chunk :: rest =>
      let entry url file :=
        {| src_url := get_or_empty url;
           src_source_file := get_or_empty file;
           src_similarity := get_similarity 0%Q chunk |} in
      match metadata chunk with
      | Some MetaNone =>
          inr (AttributeError "'NoneType' object has no attribute 'get'")
      | Some (MetaDict url file) =>
          extract_sources rest (acc ++ [entry url file])
      | None => extract_sources rest (acc ++ [entry None None])
      end
  end.

Definition bare_response (a : string) : response :=
  {| answer := Some a; sources := []; confidence := 0%Q;
     chunks_used := None; error := None; query := None; timestamp := None;
     pipeline_version := None; total_documents := None;
     total_chunks := None |}.

Definition no_information : string :=
  "I couldn't find relevant information about that topic in my Ottawa database.".

Definition error_answer (e : exn) : string :=
  String.append "I encountered an error processing your question: "
    (str_of_exn e).

Definition unexpected_error : string :=
  "I encountered an unexpected error. Please try rephrasing your question.".

Section Respond.

(** [np.mean] on a Python list of binary64 numbers, as NumPy computes it:
    the sum of the list and its quotient by the length are rounded. The
    code calls it on a non-empty list only. *)
Variable np_mean : list Q -> Q.

(** [generate_response]: the response and the LLM interface afterwards. *)
Definition generate_response (question : string)
    (context_chunks : list result) (llm : LLM.t) : response * LLM.t :=
  match context_chunks with
  | [] => (bare_response no_information, llm)
  | _ :: _ =>
      match format_sources 0 context_chunks with
      | inr e => (bare_response (error_answer e), llm)
      | inl lines =>
          let context_text :=
            Str.join (String "010" (String "010" EmptyString)) lines in
          let '(reply, llm') :=
            LLM.generate_response_default question context_text llm in
          match extract_sources context_chunks [] with
          | inr e => (bare_response (error_answer e), llm')
          | inl srcs =>
              ({| answer := reply; sources := srcs;
                  confidence :=
                    np_mean (map (get_similarity 0%Q) context_chunks);
                  chunks_used :=
                    Some (Z.of_nat (List.length context_chunks));
                  error := None; query := None; timestamp := None;
                  pipeline_version := None; total_documents := None;
                  total_chunks := None |}, llm')
          end
      end
  end.

End Respond.

Section Orchestrator.

(** The collaborators the orchestrator calls into.
    - [embed_query q] is [embedding_manager.generate_embeddings([q])[0]],
      which raises when the model fails;
    - [vector_search v k] is [vector_store.search(v, top_k=k)], whose own
      handler turns every failure into an empty list;
    - [now] is [pd.Timestamp.now().isoformat()];
    - [np_mean] is [np.mean], as for [generate_response]. *)
Variable vector : Type.
Variable embed_query : string -> vector + exn.
Variable vector_search : vector -> Z -> list result.
Variable now : string.
Variable np_mean : list Q -> Q.

Definition search_relevant_context (question : string) (top_k : Z)
    (similarity_threshold : Q) (self : t) : list result :=
  if negb (is_initialized self) then []
  else
    match embed_query question with
    | inr _ => []
    | inl query_embedding =>
        threshold_filter (vector_search query_embedding top_k)
          similarity_threshold []
    end.

Definition default_top_k : Z := 5.
Definition default_similarity_threshold : Q := 1 # 10.

(** [response.update({...})]: the values are computed in the order of the
    literal, so [len(self.documents)] raises before [len(self.chunks)]. *)
Definition add_metadata (question : string) (self : t) (r : response)
    : response + exn :=
  match py_len (documents self) with
  | inr e => inr e
  | inl n_documents =>
      match py_len (chunks self) with
      | inr e => inr e
      | inl n_chunks =>
          inl {| answer := answer r; sources := sources r;
                 confidence := confidence r;
                 chunks_used := chunks_used r; error := error r;
                 query := Some question; timestamp := Some now;
                 pipeline_version := Some "1.0.0";
                 total_documents := Some n_documents;
                 total_chunks := Some n_chunks |}
      end
  end.

Definition answer_question (question : string) (self : t) : response * t :=
  let relevant_chunks :=
    search_relevant_context question default_top_k
      default_similarity_threshold self in
  let '(r, llm') :=
    generate_response np_mean question relevant_chunks
      (llm_interface self) in
  match add_metadata question self r with
  | inl r' => (r', set_llm llm' self)
  | inr e =>
      ({| answer := Some unexpected_error; sources := [];
          confidence := 0%Q; chunks_used := None;
          error := Some (str_of_exn e); query := None; timestamp := None;
          pipeline_version := None; total_documents := None;
          total_chunks := None |}, set_llm llm' self)
  end.

End Orchestrator.

End Pipeline.

(** ** [src/embeddings.py] *)

Module Embeddings.

(** A NumPy array of embeddings: one row of binary64 numbers per text. *)
Definition matrix : Type := list (list float).

(** The [dict] stored in a cache file; [d.get(k)] is [None] for an
    absent key. *)
Record cache_data : Type := mk_cache_data {
  cd_model_name : option string;
  cd_text_count : option Z;
  cd_embeddings : option matrix;
  cd_embedding_dimension : option Z
}.

(** What [pickle.load] finds in a file: something it cannot load (or an
    object without [get]), or a dictionary. *)
Inductive cache_file : Type :=
| Corrupt
| Pickled (d : cache_data).

(** What the manager does to the outside, oldest first. *)
Inductive event : Type :=
| Exists (path : string)
| Load (path : string)
| Dump (path : string)
| Encode (batch : list string).

(** The manager's fields, the files of the disk it caches on (by path)
    and the record of its calls to the disk and to the model. *)
Record t : Type := mk {
  model_name : string;
  batch_size : Z;
  cache_dir : option string;
  embedding_dimension : Z;
  disk : gmap string cache_file;
  disk_writable : bool;
  events : list event
}.

Definition log (e : event) (self : t) : t :=
  {| model_name := model_name self; batch_size := batch_size self;
     cache_dir := cache_dir self;
     embedding_dimension := embedding_dimension self;
     disk := disk self; disk_writable := disk_writable self;
     events := events self ++ [e] |}.

Definition write_file (path : string) (f : cache_file) (self : t) : t :=
  {| model_name := model_name self; batch_size := batch_size self;
     cache_dir := cache_dir self;
     embedding_dimension := embedding_dimension self;
     disk := <[path := f]> (disk self);
     disk_writable := disk_writable self;
     events := events self |}.

(** [==] on optional strings and integers ([None == x] is false). *)
Definition opt_string_eqb (o : option string) (s : string) : bool :=
  match o with
  | Some s' => String.eqb s' s
  | None => false
  end.

Definition opt_Z_eqb (o : option Z) (n : Z) : bool :=
  match o with
  | Some n' => Z.eqb n' n
  | None => false
  end.

Section Manager.

(** [hashlib.sha256(s.encode()).hexdigest()] and [self.model.encode]. *)
Variable sha256_hexdigest : string -> string.
Variable encode : list string -> matrix + exn.

Definition combined_text (texts : list string) (self : t) : string :=
  String.append (Str.join "|" texts)
    (String.append "|" (model_name self)).

Definition _generate_cache_key (texts : list string) (self : t) : string :=
  Str.take 16 (sha256_hexdigest (combined_text texts self)).

(** [self.cache_dir / f"embeddings_{cache_key}.pkl"] *)
Definition cache_path (dir : string) (texts : list string) (self : t)
    : string :=
  Str.join EmptyString
    [dir; "/"; "embeddings_"; _generate_cache_key texts self; ".pkl"].

(** [_load_from_cache]; the caller has checked that [cache_dir] is set
    (with no directory the path expression raises, and the handler
    returns [None]). *)
Definition _load_from_cache (texts : list string) (self : t)
    : option matrix * t :=
  match cache_dir self with
  | None => (None, self)
  | Some dir =>
      let path := cache_path dir texts self in
      let probed := log (Exists path) self in
      match disk self !! path with
      | None => (None, probed)
      | Some file =>
          let loaded := log (Load path) probed in
          match file with
          | Corrupt => (None, loaded)
          | Pickled cached_data =>
              if opt_string_eqb (cd_model_name cached_data)
                   (model_name self)
                 && opt_Z_eqb (cd_text_count cached_data)
                      (Z.of_nat (List.length texts))
              then (cd_embeddings cached_data, loaded)
              else (None, loaded)
          end
      end
  end.

(** [_save_to_cache]; a failing [open] or [dump] is logged and dropped. *)
Definition _save_to_cache (texts : list string) (embeddings : matrix)
    (self : t) : t :=
  match cache_dir self with
  | None => self
  | Some dir =>
      let path := cache_path dir texts self in
      let cache_data :=
        {| cd_model_name := Some (model_name self);
           cd_text_count := Some (Z.of_nat (List.length texts));
           cd_embeddings := Some embeddings;
           cd_embedding_dimension := Some (embedding_dimension self) |} in
      let tried := log (Dump path) self in
      if disk_writable self
      then write_file path (Pickled cache_data) tried
      else tried
  end.

(** The [for i in range(0, len(texts), batch_size)] loop; [fuel] bounds
    the number of batches. *)
Fixpoint encode_batches (fuel size : nat) (texts : list string)
    (all_embeddings : list matrix) (self : t) : (list matrix + exn) * t :=
  match fuel, texts with
  | O, _ | _, [] => (inl all_embeddings, self)
  | S fuel', _ :: _ =>
      let batch_texts := firstn size texts in
      let called := log (Encode batch_texts) self in
      match encode batch_texts with
      | inr e => (inr e, called)
      | inl batch_embeddings =>
          encode_batches fuel' size (skipn size texts)
            (all_embeddings ++ [batch_embeddings]) called
      end
  end.

(** [np.vstack]: needs at least one array. *)
Definition vstack (arrays : list matrix) : matrix + exn :=
  match arrays with
  | [] => inr (ValueError "need at least one array to concatenate")
  | _ :: _ => inl (concat arrays)
  end.

(** [generate_embeddings]; [inr] is the exception it re-raises. *)
Definition generate_embeddings (texts : list string) (use_cache : bool)
    (self : t) : (matrix + exn) * t :=
  match texts with
  | [] => (inl [], self)
  | _ :: _ =>
      let caching :=
        use_cache && match cache_dir self with Some _ => true | None => false end in
      let '(cached, self1) :=
        if caching then _load_from_cache texts self else (None, self) in
      match cached with
      | Some cached_embeddings => (inl cached_embeddings, self1)
      | None =>
          if (batch_size self =? 0)%Z
          then (inr (ValueError "range() arg 3 must not be zero"), self1)
          else
            let '(batches, self2) :=
              if (batch_size self <? 0)%Z then (inl [], self1)
              else encode_batches (List.length texts)
                     (Z.to_nat (batch_size self)) texts [] self1 in
            match batches with
            | inr e => (inr e, self2)
            | inl all_embeddings =>
                match vstack all_embeddings with
                | inr e => (inr e, self2)
                | inl embeddings =>
                    (inl embeddings,
                     if caching then _save_to_cache texts embeddings self2
                     else self2)
                end
            end
      end
  end.

End Manager.

(** *** Cosine similarity *)

(** Sum of the products of paired entries, accumulated left to right. *)
Definition dot (u v : list float) : float :=
  fold_left (fun acc p => (acc + fst p * snd p)%float) (combine u v)
    0%float.

(** [np.linalg.norm] of one vector. *)
Definition norm (v : list float) : float := PrimFloat.sqrt (dot v v).

(** [v / np.linalg.norm(v)] *)
Definition normalize (v : list float) : list float :=
  map (fun x => (x / norm v)%float) v.

(** [compute_similarity]; NumPy raises when the rows of the matrix do not
    have the dimension of the query. A division by a zero norm does not
    raise in NumPy (it warns): the quotient is the IEEE 754 one. *)
Definition compute_similarity (query_embedding : list float)
    (document_embeddings : matrix) : list float + exn :=
  let query_norm := normalize query_embedding in
  let doc_norms := map normalize document_embeddings in
  if forallb (fun row => Nat.eqb (List.length row) (List.length query_embedding))
       doc_norms
  then inl (map (fun row => dot row query_norm) doc_norms)
  else inr (ValueError "shapes not aligned").

End Embeddings.

(** ** [src/data_processor.py] *)

Module Processor.

(** The value under ["content"] of a raw document. *)
Inductive content_t : Type :=
| Absent
| NotText
| Text (s : string).

(** A raw document, a Python [dict]; the other keys are read with
    [get(key, "")]. *)
Record document : Type := mk_document {
  doc_content : content_t;
  doc_url : option string;
  doc_title : option string;
  doc_description : option string;
  doc_source_file : option string;
  doc_scraped_at : option string
}.

Record chunk : Type := mk_chunk {
  id : string;
  document_id : string;
  chunk_index : Z;
  content : string;
  content_length : Z;
  url : string;
  title : string;
  description : string;
  source_file : string;
  keywords : list string;
  timestamp : string;
  processed_at : string
}.

(** [processing_stats], the integer counters. *)
Record stats : Type := mk_stats {
  documents_processed : Z;
  chunks_created : Z;
  total_characters : Z;
  processing_errors : Z
}.

Definition get_or_empty (field : option string) : string :=
  match field with
  | Some s => s
  | None => EmptyString
  end.

(** [len(s)] *)
Definition len (s : string) : Z := Z.of_nat (String.length s).

Fixpoint zeros (n : nat) : string :=
  match n with
  | O => EmptyString
  | S k => String "0" (zeros k)
  end.

(** [f"{n:06d}"] for a counter: at least six digits, zero-padded. *)
Definition fmt06d (n : nat) : string :=
  let digits := NilZero.string_of_uint (Nat.to_uint n) in
  String.append (zeros (6 - String.length digits)) digits.

Section CreateChunks.

(** The text-level collaborators:
    - [scrub] is the chain of [re.sub] calls and the final [strip] of
      [clean_text];
    - [split_text] is [RecursiveCharacterTextSplitter.split_text],
      configured with [chunk_size] and [chunk_overlap];
    - [extract_keywords] is the method of that name, which returns [[]]
      from its own handler when tokenizing fails;
    - [now] is [datetime.now().isoformat()]. *)
Variable scrub : string -> string.
Variable split_text : string -> list string + exn.
Variable extract_keywords : string -> list string.
Variable now : string.

Variable min_chunk_length : Z.

(** [clean_text], applied to [document["content"]]. *)
Definition clean_text (c : content_t) : string :=
  match c with
  | Text (String a s) => scrub (String a s)
  | _ => EmptyString
  end.

Definition make_chunk (doc : document) (doc_idx chunk_id_counter : nat)
    (chunk_idx : nat) (chunk_text : string) : chunk :=
  {| id := String.append "chunk_" (fmt06d chunk_id_counter);
     document_id := String.append "doc_" (fmt06d doc_idx);
     chunk_index := Z.of_nat chunk_idx;
     content := chunk_text;
     content_length := len chunk_text;
     url := get_or_empty (doc_url doc);
     title := get_or_empty (doc_title doc);
     description := get_or_empty (doc_description doc);
     source_file := get_or_empty (doc_source_file doc);
     keywords := extract_keywords chunk_text;
     timestamp := get_or_empty (doc_scraped_at doc);
     processed_at := now |}.

(** The [for chunk_idx, chunk_text in enumerate(text_chunks)] loop, from
    position [chunk_idx] on: the chunks appended so far and the id
    counter. *)
Fixpoint chunk_loop (doc : document) (doc_idx : nat)
    (text_chunks : list string) (chunk_idx : nat)
    (all_chunks : list chunk) (chunk_id_counter : nat)
    : list chunk * nat :=
  match text_chunks with
  | [] => (all_chunks, chunk_id_counter)
  | chunk_text :: rest =>
      if (min_chunk_length <=? len chunk_text)%Z
      then chunk_loop doc doc_idx rest (S chunk_idx)
             (all_chunks ++
                [make_chunk doc doc_idx chunk_id_counter chunk_idx
                   chunk_text])
             (S chunk_id_counter)
      else chunk_loop doc doc_idx rest (S chunk_idx) all_chunks
             chunk_id_counter
  end.

Definition count_document (s : stats) : stats :=
  {| documents_processed := documents_processed s + 1;
     chunks_created := chunks_created s;
     total_characters := total_characters s;
     processing_errors := processing_errors s |}.

Definition count_error (s : stats) : stats :=
  {| documents_processed := documents_processed s;
     chunks_created := chunks_created s;
     total_characters := total_characters s;
     processing_errors := processing_errors s + 1 |}.

(** The [for doc_idx, document in enumerate(documents)] loop, with its
    per-document handler. *)
Fixpoint document_loop (documents : list document) (doc_idx : nat)
    (all_chunks : list chunk) (chunk_id_counter : nat) (s : stats)
    : list chunk * stats :=
  match documents with
  | [] => (all_chunks, s)
  | doc :: rest =>
      match doc_content doc with
      | Absent =>
          document_loop rest (S doc_idx) all_chunks chunk_id_counter
            (count_error s)
      | c =>
          let cleaned_content := clean_text c in
          if (len cleaned_content <? min_chunk_length)%Z
          then document_loop rest (S doc_idx) all_chunks
                 chunk_id_counter s
          else
            match split_text cleaned_content with
            | inr _ =>
                document_loop rest (S doc_idx) all_chunks
                  chunk_id_counter (count_error s)
            | inl text_chunks =>
                let '(chunks', counter') :=
                  chunk_loop doc doc_idx text_chunks 0 all_chunks
                    chunk_id_counter in
                document_loop rest (S doc_idx) chunks' counter'
                  (count_document s)
            end
      end
  end.

(** [create_chunks]: the chunks and the statistics afterwards. *)
Definition create_chunks (documents : list document) (s : stats)
    : list chunk * stats :=
  let '(all_chunks, s') := document_loop documents 0 [] 0 s in
  (all_chunks,
   {| documents_processed := documents_processed s';
      chunks_created := Z.of_nat (List.length all_chunks);
      total_characters :=
        fold_left Z.add (map content_length all_chunks) 0%Z;
      processing_errors := processing_errors s' |}).

(** The ordinal positions recorded for the chunks of one document. *)
Definition indices_of (doc_id : string) (chunks : list chunk) : list Z :=
  map chunk_index
    (List.filter (fun c => String.eqb (document_id c) doc_id) chunks).

End CreateChunks.

End Processor.

(** ** [src/llm_interface.py]: the availability probe *)

Module LLMStatus.

(** The content of the one message of the probe. *)
Definition probe : string := "Test".

(** [bool(content)] for the content of a completion. *)
Definition content_truthy (content : option string) : bool :=
  match content with
  | Some (String _ _) => true
  | _ => false
  end.

(** [is_available]: the answer and the interface afterwards. Without a
    client nothing is sent; with one, a single request is, and an exception
    of the backend is answered by [False]. *)
Definition is_available (self : LLM.t) : bool * LLM.t :=
  match LLM.client self with
  | None => (false, self)
  | Some c =>
      let called := LLM.record_call probe self in
      match c (List.length (LLM.backend_calls self)) probe with
      | LLM.Raises _ => (false, called)
      | LLM.Completion content _ => (content_truthy content, called)
      end
  end.

(** [get_model_info]: the fields that are not configuration constants. *)
Record model_info : Type := mk_model_info {
  api_available : bool;
  info_total_requests : Z;
  info_total_tokens_used : Z
}.

Definition get_model_info (self : LLM.t) : model_info * LLM.t :=
  let '(available, self') := is_available self in
  ({| api_available := available;
      info_total_requests := LLM.total_requests self';
      info_total_tokens_used := LLM.total_tokens_used self' |}, self').

End LLMStatus.

(** ** [src/vector_store.py] *)

Module VectorStore.

(** What [collection.query] returns for the one query embedding sent: under
    each key a list with one inner list per query. A key that is absent,
    [None] or empty is the empty list here (the code tests truthiness). *)
Record query_result : Type := mk_query_result {
  qr_documents : list (list string);
  qr_metadatas : list (list Pipeline.metadata_t);
  qr_distances : list (list Q)
}.

(** A search result as [search] builds it. *)
Record hit : Type := mk_hit {
  hit_document : string;
  hit_metadata : Pipeline.metadata_t;
  hit_similarity : option Q;
  hit_distance : option Q
}.

(** The result as the orchestrator reads it (it never reads ['distance']). *)
Definition to_result (h : hit) : Pipeline.result :=
  {| Pipeline.document := Some (hit_document h);
     Pipeline.metadata := Some (hit_metadata h);
     Pipeline.similarity := hit_similarity h |}.

(** [xs[0] if xs else []] *)
Definition first_or_empty {A : Type} (xs : list (list A)) : list A :=
  match xs with
  | [] => []
  | first :: _ => first
  end.

Section Binary64.

(** [x - y] on binary64 numbers, as the runtime computes it: the exact
    difference, rounded. The numbers are carried by their exact values. *)
Variable float_sub : Q -> Q -> Q.

(** The [for i, doc in enumerate(documents)] loop of [search], from
    position [i] on. *)
Fixpoint format_results (cosine : bool) (i : nat) (documents : list string)
    (metadatas : list Pipeline.metadata_t) (distances : list Q)
    : list hit :=
  match documents with
  | [] => []
  | doc :: rest =>
      {| hit_document := doc;
         hit_metadata :=
           match nth_error metadatas i with
           | Some m => m
           | None => Pipeline.MetaDict None None
           end;
         hit_similarity :=
           match nth_error distances i with
           | Some d => Some (if cosine then float_sub 1 d else d)
           | None => None
           end;
         hit_distance := nth_error distances i |}
      :: format_results cosine (S i) rest metadatas distances
  end.

Section Store.

(** The types the store only passes on: query vectors, [where] filters,
    the metadata of a record and of a collection; and the two defaults the
    code supplies. *)
Variable vector : Type.
Variable where_t : Type.
Variable meta : Type.
Variable col_meta : Type.
Variable source_ottawa : meta.
Variable ottawa_description : col_meta.

(** The arguments of one [collection.add]. *)
Record batch : Type := mk_batch {
  b_ids : list string;
  b_documents : list string;
  b_embeddings : Embeddings.matrix;
  b_metadatas : list meta
}.

(** The requests the store sends to ChromaDB. *)
Inductive request : Type :=
| CreateCollection (name : string) (metadata : col_meta)
| GetCollection (name : string)
| DeleteCollection (name : string)
| AddBatch (name : string) (b : batch)
| QueryCollection (name : string) (query_embedding : vector) (n_results : Z)
    (where_filter : option where_t) (include_distances : bool)
| DeleteIds (name : string) (ids : list string).

Inductive reply : Type :=
| Done
| Found (results : query_result)
| Raised (e : exn).

(** ChromaDB: its reply to a request is a function of the requests it
    received before. *)
Variable chroma : list request -> request -> reply.

(** The fields of [VectorStore] (the collection object is held by its
    name) and the requests sent so far, oldest first. *)
Record t : Type := mk {
  collection_name : string;
  distance_metric : string;
  current_collection : option string;
  requests : list request
}.

Definition send (r : request) (self : t) : t :=
  {| collection_name := collection_name self;
     distance_metric := distance_metric self;
     current_collection := current_collection self;
     requests := requests self ++ [r] |}.

Definition select (name : string) (self : t) : t :=
  {| collection_name := collection_name self;
     distance_metric := distance_metric self;
     current_collection := Some name;
     requests := requests self |}.

Definition deselect (self : t) : t :=
  {| collection_name := collection_name self;
     distance_metric := distance_metric self;
     current_collection := None;
     requests := requests self |}.

Definition rename (name : string) (self : t) : t :=
  {| collection_name := name;
     distance_metric := distance_metric self;
     current_collection := current_collection self;
     requests := requests self |}.

Definition raised (r : reply) : bool :=
  match r with
  | Raised _ => true
  | _ => false
  end.

(** [collection_name or self.collection_name] *)
Definition name_or_default (collection_name_arg : option string) (self : t)
    : string :=
  match collection_name_arg with
  | Some (String a s) => String a s
  | _ => collection_name self
  end.

(** [create_collection] *)
Definition create_collection (collection_name_arg : option string)
    (metadata : option col_meta) (overwrite : bool) (self : t) : bool * t :=
  let name := name_or_default collection_name_arg self in
  let self1 :=
    if overwrite then send (DeleteCollection name) self else self in
  let create :=
    CreateCollection name
      (match metadata with Some m => m | None => ottawa_description end) in
  let self2 := send create self1 in
  if raised (chroma (requests self1) create)
  then
    let self3 := send (GetCollection name) self2 in
    if raised (chroma (requests self2) (GetCollection name))
    then (false, self3)
    else (true, rename name (select name self3))
  else (true, rename name (select name self2)).

(** [delete_collection] *)
Definition delete_collection (collection_name_arg : option string)
    (self : t) : bool * t :=
  let name := name_or_default collection_name_arg self in
  let sent := send (DeleteCollection name) self in
  if raised (chroma (requests self) (DeleteCollection name))
  then (false, sent)
  else (true,
        if String.eqb name (collection_name self) then deselect sent
        else sent).

(** [xs[i:j]] *)
Definition slice {A : Type} (i j : nat) (xs : list A) : list A :=
  firstn (j - i) (skipn i xs).

(** The [for i in range(0, len(documents), batch_size)] loop of
    [add_documents] from index [i] on; [fuel] bounds the number of
    iterations. The result tells whether an exception ended the loop. *)
Fixpoint add_batches (fuel : nat) (name : string) (batch_size i : nat)
    (ids documents : list string) (embeddings : Embeddings.matrix)
    (metadatas : list meta) (self : t) : bool * t :=
  match fuel with
  | O => (true, self)
  | S fuel' =>
      if (List.length documents <=? i)%nat then (true, self)
      else
        let end_idx := Nat.min (i + batch_size) (List.length documents) in
        let add :=
          AddBatch name
            {| b_ids := slice i end_idx ids;
               b_documents := slice i end_idx documents;
               b_embeddings := slice i end_idx embeddings;
               b_metadatas := slice i end_idx metadatas |} in
        if raised (chroma (requests self) add)
        then (false, send add self)
        else add_batches fuel' name batch_size (i + batch_size) ids documents
               embeddings metadatas (send add self)
  end.

(** [add_documents] *)
Definition add_documents (ids documents : list string)
    (embeddings : Embeddings.matrix) (metadatas : option (list meta))
    (batch_size : Z) (self : t) : bool * t :=
  match current_collection self with
  | None => (false, self)
  | Some name =>
      let metadatas :=
        match metadatas with
        | Some ms => ms
        | None => map (fun _ => source_ottawa) ids
        end in
      if negb (Nat.eqb (List.length ids) (List.length documents)
               && Nat.eqb (List.length documents) (List.length embeddings)
               && Nat.eqb (List.length embeddings) (List.length metadatas))
      then (false, self)
      else if (batch_size =? 0)%Z then (false, self)
      else if (batch_size <? 0)%Z then (true, self)
      else add_batches (List.length documents) name (Z.to_nat batch_size) 0
             ids documents embeddings metadatas self
  end.

(** [delete_documents] *)
Definition delete_documents (doc_ids : list string) (self : t) : bool * t :=
  match current_collection self with
  | None => (false, self)
  | Some name =>
      (negb (raised (chroma (requests self) (DeleteIds name doc_ids))),
       send (DeleteIds name doc_ids) self)
  end.

(** [search]; a reply that is not a query result makes the formatting
    raise, which the handler answers like any other failure. *)
Definition search (query_embedding : vector) (top_k : Z)
    (where_filter : option where_t) (include_distances : bool) (self : t)
    : list hit * t :=
  match current_collection self with
  | None => ([], self)
  | Some name =>
      let query :=
        QueryCollection name query_embedding top_k where_filter
          include_distances in
      match chroma (requests self) query with
      | Found results =>
          (format_results (String.eqb (distance_metric self) "cosine") 0
             (first_or_empty (qr_documents results))
             (first_or_empty (qr_metadatas results))
             (if include_distances
              then first_or_empty (qr_distances results) else []),
           send query self)
      | Done | Raised _ => ([], send query self)
      end
  end.

(** [search_by_text]: no embedding function is configured. *)
Definition search_by_text (query_text : string) (top_k : Z)
    (where_filter : option where_t) (self : t) : list hit :=
  [].

End Store.

End Binary64.

Arguments b_ids {meta} _.
Arguments b_documents {meta} _.
Arguments b_embeddings {meta} _.
Arguments b_metadatas {meta} _.
Arguments CreateCollection {vector where_t meta col_meta} _ _.
Arguments GetCollection {vector where_t meta col_meta} _.
Arguments DeleteCollection {vector where_t meta col_meta} _.
Arguments AddBatch {vector where_t meta col_meta} _ _.
Arguments QueryCollection {vector where_t meta col_meta} _ _ _ _ _.
Arguments DeleteIds {vector where_t meta col_meta} _ _.
Arguments collection_name {vector where_t meta col_meta} _.
Arguments distance_metric {vector where_t meta col_meta} _.
Arguments current_collection {vector where_t meta col_meta} _.
Arguments requests {vector where_t meta col_meta} _.
Arguments send {vector where_t meta col_meta} _ _.
Arguments create_collection {vector where_t meta col_meta} _ _ _ _ _ _.
Arguments delete_collection {vector where_t meta col_meta} _ _ _.
Arguments add_batches {vector where_t meta col_meta} _ _ _ _ _ _ _ _ _ _.
Arguments add_documents {vector where_t meta col_meta} _ _ _ _ _ _ _ _.
Arguments delete_documents {vector where_t meta col_meta} _ _ _.
Arguments search _ {vector where_t meta col_meta} _ _ _ _ _ _.

End VectorStore.

(** ** [src/rag_pipeline.py]: loading the corpus and building the index *)

Module Orchestrator.

(** A chunk of the corpus file, a Python [dict]: the keys that
    [initialize_vector_database] reads, each possibly absent. *)
Record chunk_record : Type := mk_chunk_record {
  ck_content : option string;
  ck_id : option string;
  ck_url : option string;
  ck_source_file : option string;
  ck_chunk_index : option Z
}.

(** The value of [self.chunks]: a list of chunk dictionaries, or any other
    JSON value, of which the code sees the truth value and [len]. *)
Inductive chunks_value : Type :=
| ChunkList (records : list chunk_record)
| OtherValue (seen : Pipeline.corpus_t) (truthy : bool).

(** The metadata stored with a record, and with a collection. *)
Inductive record_meta : Type :=
| SourceOttawa
| ChunkMeta (url source_file : string) (chunk_index : Z).

Inductive collection_meta : Type :=
| OttawaDescription
| Description (text : string).

(** What [json.load] finds in the corpus file: nothing it can read, a value
    that is not an object, or an object with its ['documents'] and
    ['chunks'] values when it has them. *)
Inductive corpus_file : Type :=
| Unreadable (e : exn)
| NotAnObject
| Object (documents : option Pipeline.corpus_t) (chunks : option chunks_value).

Abbreviation store_t :=
  (VectorStore.t (list float) unit record_meta collection_meta).
Abbreviation request_t :=
  (VectorStore.request (list float) unit record_meta collection_meta).

(** The fields of [OttawaRAGPipeline]. *)
Record t : Type := mk {
  is_initialized : bool;
  documents : Pipeline.corpus_t;
  chunks : chunks_value;
  embedding_manager : Embeddings.t;
  vector_store : store_t;
  llm_interface : LLM.t
}.

(** [len(self.chunks)] sees a list by its length. *)
Definition seen_chunks (c : chunks_value) : Pipeline.corpus_t :=
  match c with
  | ChunkList records => Pipeline.Sized (Z.of_nat (List.length records))
  | OtherValue seen _ => seen
  end.

(** The pipeline as the query path reads it. *)
Definition serving (self : t) : Pipeline.t :=
  {| Pipeline.is_initialized := is_initialized self;
     Pipeline.documents := documents self;
     Pipeline.chunks := seen_chunks (chunks self);
     Pipeline.llm_interface := llm_interface self |}.

(** [load_full_dataset]; the two attributes are assigned before their
    lengths are logged, and a value without a length makes the log line
    raise. *)
Definition load_full_dataset (file : corpus_file) (self : t) : bool * t :=
  match file with
  | Unreadable _ | NotAnObject => (false, self)
  | Object file_documents file_chunks =>
      let loaded :=
        {| is_initialized := is_initialized self;
           documents :=
             match file_documents with
             | Some d => d
             | None => Pipeline.Sized 0
             end;
           chunks :=
             match file_chunks with
             | Some c => c
             | None => ChunkList []
             end;
           embedding_manager := embedding_manager self;
           vector_store := vector_store self;
           llm_interface := llm_interface self |} in
      match Pipeline.py_len (documents loaded),
            Pipeline.py_len (seen_chunks (chunks loaded)) with
      | inl _, inl _ => (true, loaded)
      | _, _ => (false, loaded)
      end
  end.

(** [[chunk[key] for chunk in self.chunks]]: [None] when a chunk lacks the
    key. *)
Fixpoint collect {A : Type} (field : chunk_record -> option A)
    (records : list chunk_record) : option (list A) :=
  match records with
  | [] => Some []
  | r :: rest =>
      match field r, collect field rest with
      | Some x, Some xs => Some (x :: xs)
      | _, _ => None
      end
  end.

(** [{'url': chunk['url'], 'source_file': ..., 'chunk_index': ...}] *)
Definition metadata_of (r : chunk_record) : option record_meta :=
  match ck_url r, ck_source_file r, ck_chunk_index r with
  | Some url, Some file, Some index => Some (ChunkMeta url file index)
  | _, _, _ => None
  end.

Definition with_components (initialized : bool) (em : Embeddings.t)
    (vs : store_t) (self : t) : t :=
  {| is_initialized := initialized;
     documents := documents self;
     chunks := chunks self;
     embedding_manager := em;
     vector_store := vs;
     llm_interface := llm_interface self |}.

(** [OttawaRAGPipeline.__init__] on components just constructed; the
    store is [VectorStore(db_path=...)] with its default collection name
    and metric and no collection selected. *)
Definition init (em : Embeddings.t) (llm : LLM.t) : t :=
  {| is_initialized := false;
     documents := Pipeline.Sized 0;
     chunks := ChunkList [];
     embedding_manager := em;
     vector_store :=
       {| VectorStore.collection_name := "ottawa_complete";
          VectorStore.distance_metric := "cosine";
          VectorStore.current_collection := None;
          VectorStore.requests := [] |};
     llm_interface := llm |}.

Definition collection : string := "ottawa_complete".

Definition add_batch_size : Z := 1000.

Section Build.

Variable sha256_hexdigest : string -> string.
Variable encode : list string -> Embeddings.matrix + exn.
Variable chroma : list request_t -> request_t -> VectorStore.reply.

(** [initialize_vector_database]; what [create_collection] and
    [add_documents] return is not looked at. *)
Definition initialize_vector_database (self : t) : bool * t :=
  match chunks self with
  | OtherValue _ _ | ChunkList [] => (false, self)
  | ChunkList records =>
      match collect ck_content records with
      | None => (false, self)
      | Some chunk_texts =>
          let '(embedded, em) :=
            Embeddings.generate_embeddings sha256_hexdigest encode
              chunk_texts true (embedding_manager self) in
          match embedded with
          | inr _ =>
              (false,
               with_components (is_initialized self) em (vector_store self)
                 self)
          | inl embeddings =>
              let created :=
                snd (VectorStore.create_collection OttawaDescription chroma
                       (Some collection) None false (vector_store self)) in
              match collect ck_id records, collect metadata_of records with
              | Some chunk_ids, Some metadatas =>
                  let added :=
                    snd (VectorStore.add_documents SourceOttawa chroma
                           chunk_ids chunk_texts embeddings (Some metadatas)
                           add_batch_size created) in
                  (true, with_components true em added self)
              | _, _ =>
                  (false,
                   with_components (is_initialized self) em created self)
              end
          end
      end
  end.

End Build.

Section Answer.

(** The rounded operations of the runtime: [x - y] and [np.mean]. *)
Variable float_sub : Q -> Q -> Q.
Variable np_mean : list Q -> Q.

Variable sha256_hexdigest : string -> string.
Variable encode : list string -> Embeddings.matrix + exn.
Variable chroma : list request_t -> request_t -> VectorStore.reply.

(** [pd.Timestamp.now().isoformat()] *)
Variable now : string.

(** [search_relevant_context] on the components of the pipeline: the query
    is embedded as a batch of one text (with the cache on), the first row
    of the array is the query vector, and the store is searched with its
    default filter and with distances. Every exception ends in the
    handler that returns the empty list. *)
Definition search_relevant_context (query : string) (top_k : Z)
    (similarity_threshold : Q) (self : t) : list Pipeline.result * t :=
  if negb (is_initialized self) then ([], self)
  else
    let '(embedded, em) :=
      Embeddings.generate_embeddings sha256_hexdigest encode [query] true
        (embedding_manager self) in
    match embedded with
    | inr _ | inl [] =>
        ([], with_components (is_initialized self) em (vector_store self)
               self)
    | inl (query_embedding :: _) =>
        let '(results, vs) :=
          VectorStore.search float_sub chroma query_embedding top_k None
            true (vector_store self) in
        (Pipeline.threshold_filter (map VectorStore.to_result results)
           similarity_threshold [],
         with_components (is_initialized self) em vs self)
    end.

Definition set_llm (llm : LLM.t) (self : t) : t :=
  {| is_initialized := is_initialized self;
     documents := documents self;
     chunks := chunks self;
     embedding_manager := embedding_manager self;
     vector_store := vector_store self;
     llm_interface := llm |}.

(** [answer_question] on the components of the pipeline. *)
Definition answer_question (question : string) (self : t)
    : Pipeline.response * t :=
  let '(relevant_chunks, searched) :=
    search_relevant_context question Pipeline.default_top_k
      Pipeline.default_similarity_threshold self in
  let '(r, llm) :=
    Pipeline.generate_response np_mean question relevant_chunks
      (llm_interface searched) in
  let answered := set_llm llm searched in
  match Pipeline.add_metadata now question (serving answered) r with
  | inl r' => (r', answered)
  | inr e =>
      ({| Pipeline.answer := Some Pipeline.unexpected_error;
          Pipeline.sources := [];
          Pipeline.confidence := 0%Q;
          Pipeline.chunks_used := None;
          Pipeline.error := Some (str_of_exn e);
          Pipeline.query := None;
          Pipeline.timestamp := None;
          Pipeline.pipeline_version := None;
          Pipeline.total_documents := None;
          Pipeline.total_chunks := None |}, answered)
  end.

End Answer.

(** [get_system_stats], the fields that are computed. It has no handler:
    a corpus value without a length makes it raise. *)
Record system_stats : Type := mk_system_stats {
  documents_loaded : Z;
  chunks_available : Z;
  embedding_model : string;
  embedding_dimension : Z;
  vector_db_initialized : bool;
  llm_available : bool
}.

Definition get_system_stats (self : t) : (system_stats + exn) * t :=
  match Pipeline.py_len (documents self) with
  | inr e => (inr e, self)
  | inl n_documents =>
      match Pipeline.py_len (seen_chunks (chunks self)) with
      | inr e => (inr e, self)
      | inl n_chunks =>
          let '(available, llm) := LLMStatus.is_available (llm_interface self) in
          (inl {| documents_loaded := n_documents;
                  chunks_available := n_chunks;
                  embedding_model :=
                    Embeddings.model_name (embedding_manager self);
                  embedding_dimension :=
                    Embeddings.embedding_dimension (embedding_manager self);
                  vector_db_initialized := is_initialized self;
                  llm_available := available |},
           {| is_initialized := is_initialized self;
              documents := documents self;
              chunks := chunks self;
              embedding_manager := embedding_manager self;
              vector_store := vector_store self;
              llm_interface := llm |})
      end
  end.

End Orchestrator.

(** ** [src/chatbot.py]: the question handler and its bookkeeping *)

Module Chatbot.

(** An entry of [session_history]. *)
Record session_entry : Type := mk_session_entry {
  se_timestamp : string;
  se_question : string;
  se_confidence : Q;
  se_sources_count : Z;
  se_response_length : Z;
  se_success : bool
}.

(** The three panels are HTML built from a few values; the panels are
    modelled by those values. The confidence panel shows a colour class
    and the score. *)
Inductive confidence_class : Type :=
| confidence_high
| confidence_medium
| confidence_low.

(** One citation of the sources panel. *)
Record citation : Type := mk_citation {
  ct_number : nat;
  ct_url : string;
  ct_display_url : string;
  ct_relevance : Q
}.

Inductive sources_panel : Type :=
| NoSourcesAvailable
| Sources (citations : list citation).

(** The status panel: not ready, or ready with the two corpus counts and
    the two counters. *)
Inductive status : Type :=
| SystemNotReady
| SystemReady (documents chunks successful_responses total_questions : Z).

(** What [process_question] returns beside the history; an empty string
    is [None]. *)
Record panels : Type := mk_panels {
  confidence_html : option (confidence_class * Q);
  sources_html : option sources_panel;
  status_html : status
}.

(** The fields of [OttawaChatbot] that the handler reads or writes. *)
Record t : Type := mk {
  pipeline : option Orchestrator.t;
  pipeline_initialized : bool;
  enable_analytics : bool;
  session_history : list session_entry;
  total_questions : Z;
  successful_responses : Z
}.

Definition set_pipeline (p : option Orchestrator.t) (self : t) : t :=
  {| pipeline := p;
     pipeline_initialized := pipeline_initialized self;
     enable_analytics := enable_analytics self;
     session_history := session_history self;
     total_questions := total_questions self;
     successful_responses := successful_responses self |}.

Definition set_initialized (b : bool) (self : t) : t :=
  {| pipeline := pipeline self;
     pipeline_initialized := b;
     enable_analytics := enable_analytics self;
     session_history := session_history self;
     total_questions := total_questions self;
     successful_responses := successful_responses self |}.

Definition set_session_history (h : list session_entry) (self : t) : t :=
  {| pipeline := pipeline self;
     pipeline_initialized := pipeline_initialized self;
     enable_analytics := enable_analytics self;
     session_history := h;
     total_questions := total_questions self;
     successful_responses := successful_responses self |}.

Definition count_question (self : t) : t :=
  {| pipeline := pipeline self;
     pipeline_initialized := pipeline_initialized self;
     enable_analytics := enable_analytics self;
     session_history := session_history self;
     total_questions := total_questions self + 1;
     successful_responses := successful_responses self |}.

Definition count_success (self : t) : t :=
  {| pipeline := pipeline self;
     pipeline_initialized := pipeline_initialized self;
     enable_analytics := enable_analytics self;
     session_history := session_history self;
     total_questions := total_questions self;
     successful_responses := successful_responses self + 1 |}.

(** [_format_confidence]: the class shown with the score. *)
Definition _format_confidence (confidence : Q) : confidence_class * Q :=
  (if Qle_bool (8 # 10) confidence then confidence_high
   else if Qle_bool (5 # 10) confidence then confidence_medium
   else confidence_low,
   confidence).

(** [s.replace(old, '')] for a non-empty [old]: the occurrences are found
    from the left and do not overlap; [skip] counts the characters of an
    occurrence still to drop. *)
Fixpoint remove_from (old : string) (skip : nat) (s : string) : string :=
  match s with
  | EmptyString => EmptyString
  | String c rest =>
      match skip with
      | S k => remove_from old k rest
      | O =>
          if String.prefix old s
          then remove_from old (String.length old - 1) rest
          else String c (remove_from old 0 rest)
      end
  end.

Definition remove (old s : string) : string := remove_from old 0 s.

(** The URL as the citation displays it. *)
Definition display (url : string) : string :=
  let display_url := remove "https://" (remove "https://ottawa.ca/" url) in
  if (50 <? String.length display_url)%nat
  then String.append (Str.take 47 display_url) "..."
  else display_url.

(** The [for i, source in enumerate(sources[:3])] loop of
    [_format_sources], from position [i] on. *)
Fixpoint cite (i : nat) (sources : list Pipeline.source) : list citation :=
  match sources with
  | [] => []
  | source :: rest =>
      match Pipeline.src_url source with
      | EmptyString => cite (S i) rest
      | url =>
          {| ct_number := S i;
             ct_url := url;
             ct_display_url := display url;
             ct_relevance := Pipeline.src_similarity source |}
          :: cite (S i) rest
      end
  end.

(** [_format_sources] *)
Definition _format_sources (sources : list Pipeline.source)
    : sources_panel :=
  match sources with
  | [] => NoSourcesAvailable
  | _ :: _ => Sources (cite 0 (firstn 3 sources))
  end.

(** [xs[-n:]] for a positive [n]. *)
Definition last_n {A : Type} (n : nat) (xs : list A) : list A :=
  skipn (List.length xs - n) xs.

(** [_get_status_html]; [get_system_stats] has no handler, so its
    exception is this function's. *)
Definition _get_status_html (self : t) : (status + exn) * t :=
  if negb (pipeline_initialized self) then (inl SystemNotReady, self)
  else
    match pipeline self with
    | None =>
        (inl (SystemReady 0 0 (successful_responses self)
                (total_questions self)), self)
    | Some p =>
        let '(stats, p') := Orchestrator.get_system_stats p in
        (match stats with
         | inl s =>
             inl (SystemReady (Orchestrator.documents_loaded s)
                    (Orchestrator.chunks_available s)
                    (successful_responses self) (total_questions self))
         | inr e => inr e
         end,
         set_pipeline (Some p') self)
    end.

Section Handler.

(** The rounded operations of the runtime: [x - y] and [np.mean]. *)
Variable float_sub : Q -> Q -> Q.
Variable np_mean : list Q -> Q.

Variable sha256_hexdigest : string -> string.
Variable encode : list string -> Embeddings.matrix + exn.
Variable chroma :
  list Orchestrator.request_t -> Orchestrator.request_t -> VectorStore.reply.

(** [pd.Timestamp.now().isoformat()] and [datetime.now().isoformat()]. *)
Variable now : string.
Variable clock : string.

(** [_track_session]; [len] of an answer that is [None] raises. *)
Definition _track_session (question : string)
    (response_data : Pipeline.response) (self : t) : t + exn :=
  if enable_analytics self then
    match Pipeline.answer response_data with
    | None => inr (TypeError "object of type 'NoneType' has no len()")
    | Some answer =>
        let session_entry :=
          {| se_timestamp := clock;
             se_question := question;
             se_confidence := Pipeline.confidence response_data;
             se_sources_count :=
               Z.of_nat (List.length (Pipeline.sources response_data));
             se_response_length := Z.of_nat (String.length answer);
             se_success := LLM.truthy (Some answer) |} in
        let appended := (session_history self ++ [session_entry])%list in
        inl (set_session_history
               (if (100 <? List.length appended)%nat
                then last_n 100 appended
                else appended)
               self)
    end
  else inl self.

(** The replies of the handler (a character outside ASCII is held as its
    UTF-8 bytes). *)
Definition not_ready : string :=
  "⚠️ System not ready. Please check the system status.".

Definition no_relevant_information : string :=
  "I'm sorry, I couldn't find relevant information about that topic. Please try rephrasing your question or ask about other Ottawa city services.".

Definition error_processing : string :=
  "I encountered an error processing your question. Please try again.".

(** [return history, confidence, sources, self._get_status_html()] *)
Definition finish (confidence : option (confidence_class * Q))
    (sources : option sources_panel) (history : list (string * string))
    (self : t) : (panels + exn) * list (string * string) * t :=
  let '(shown, self') := _get_status_html self in
  (match shown with
   | inl s =>
       inl {| confidence_html := confidence; sources_html := sources;
              status_html := s |}
   | inr e => inr e
   end, history, self').

(** The [try] block of [process_question]. The history is a list that
    the handler appends to in place, so what was appended before an
    exception stays. *)
Definition attempt_question (question : string)
    (history : list (string * string)) (self : t)
    : (panels + exn) * list (string * string) * t :=
  match Str.strip question with
  | EmptyString => finish None None history self
  | String _ _ =>
      if negb (pipeline_initialized self)
      then finish None None (history ++ [(question, not_ready)])%list self
      else
        let counted := count_question self in
        match pipeline counted with
        | None =>
            (inr (AttributeError
                    "'NoneType' object has no attribute 'answer_question'"),
             history, counted)
        | Some p =>
            let '(response_data, p') :=
              Orchestrator.answer_question float_sub np_mean
                sha256_hexdigest encode chroma now question p in
            let answered := set_pipeline (Some p') counted in
            match Pipeline.answer response_data with
            | Some (String a s) =>
                let succeeded := count_success answered in
                let history' :=
                  (history ++ [(question, String a s)])%list in
                match _track_session question response_data succeeded with
                | inr e => (inr e, history', succeeded)
                | inl tracked =>
                    finish
                      (Some (_format_confidence
                               (Pipeline.confidence response_data)))
                      (Some (_format_sources
                               (Pipeline.sources response_data)))
                      history' tracked
                end
            | _ =>
                finish None None
                  (history ++ [(question, no_relevant_information)])%list
                  answered
            end
        end
  end.

(** [process_question]: the [try] block and its handler, which appends
    the error reply and asks for the status again. *)
Definition process_question (question : string)
    (history : list (string * string)) (self : t)
    : (panels + exn) * list (string * string) * t :=
  match attempt_question question history self with
  | (inl shown, history', self') => (inl shown, history', self')
  | (inr _, history', self') =>
      finish None None (history' ++ [(question, error_processing)])%list
        self'
  end.

(** [_initialize_pipeline]; [constructed] is the outcome of
    [OttawaRAGPipeline(...)] and [file] what the corpus file holds. *)
Definition _initialize_pipeline (constructed : Orchestrator.t + exn)
    (file : Orchestrator.corpus_file) (self : t) : t :=
  match constructed with
  | inr _ => set_initialized false self
  | inl p =>
      let '(loaded, p1) := Orchestrator.load_full_dataset file p in
      if loaded then
        let '(built, p2) :=
          Orchestrator.initialize_vector_database sha256_hexdigest encode
            chroma p1 in
        if built then set_initialized true (set_pipeline (Some p2) self)
        else set_pipeline (Some p2) self
      else set_pipeline (Some p1) self
  end.

(** [__init__], up to the construction of the interface. *)
Definition init (constructed : Orchestrator.t + exn)
    (file : Orchestrator.corpus_file) (enable_analytics : bool) : t :=
  _initialize_pipeline constructed file
    {| pipeline := None;
       pipeline_initialized := false;
       enable_analytics := enable_analytics;
       session_history := [];
       total_questions := 0;
       successful_responses := 0 |}.

End Handler.

End Chatbot.

(** * Properties *)

(** ** Strings *)

(** [kw] occurs in [s]: [s] is some text, then [kw], then some text. *)
Definition occurs (kw s : string) : Prop :=
  exists before after, s = String.append before (String.append kw after).

Lemma append_cons (c : ascii) (a b : string) :
  String.append (String c a) b = String c (String.append a b).
Proof. reflexivity. Qed.

Lemma prefix_true_iff (p s : string) :
  String.prefix p s = true <-> exists rest, s = String.append p rest.
Proof.
  revert s. induction p as [|a p IH]; intros s; simpl.
  - split; [intros _; now exists s | intros _; now destruct s].
  - destruct s as [|b s]; simpl.
    + split; [discriminate | intros [rest H]; discriminate].
    + destruct (Ascii.ascii_dec a b) as [->|Hne].
      * rewrite IH. split; intros [rest H]; exists rest;
          rewrite append_cons in *; congruence.
      * split; [discriminate | intros [rest H]; rewrite append_cons in H; congruence].
Qed.

Lemma contains_true_iff (kw s : string) :
  Str.contains kw s = true <-> occurs kw s.
Proof.
  induction s as [|c s IH]; cbn [Str.contains].
  - rewrite prefix_true_iff. split.
    + intros [rest H]. exists EmptyString, rest. exact H.
    + intros [[|b before] [after H]];
        [now exists after | rewrite append_cons in H; discriminate].
  - rewrite orb_true_iff, prefix_true_iff, IH. split.
    + intros [[rest H] | [before [after H]]].
      * exists EmptyString, rest. exact H.
      * exists (String c before), after. rewrite append_cons. now rewrite H.
    + intros [[|b before] [after H]].
      * left. now exists after.
      * right. exists before, after. rewrite append_cons in H. congruence.
Qed.

Lemma contains_false_iff (kw s : string) :
  Str.contains kw s = false <-> ~ occurs kw s.
Proof.
  rewrite <- contains_true_iff. destruct (Str.contains kw s); split; congruence.
Qed.

(** ** The LLM interface *)

(** The interface after [calls] further backend calls and [naps] further
    sleeps, its own fields untouched. *)
Definition llm_after (calls : list string) (naps : list Z) (self : LLM.t)
    : LLM.t :=
  {| LLM.api_key := LLM.api_key self; LLM.client := LLM.client self;
     LLM.total_requests := LLM.total_requests self;
     LLM.total_tokens_used := LLM.total_tokens_used self;
     LLM.backend_calls := LLM.backend_calls self ++ calls;
     LLM.sleeps := LLM.sleeps self ++ naps |}.

(** The delays [2 ** attempt] for [n] consecutive attempts from [attempt]. *)
Fixpoint backoff (attempt : Z) (n : nat) : list Z :=
  match n with
  | O => []
  | S k => (2 ^ attempt)%Z :: backoff (attempt + 1) k
  end.

Definition always_raises (c : LLM.client_t) : Prop :=
  forall n prompt, exists e, c n prompt = LLM.Raises e.

Lemma llm_after_step (prompt : string) (nap : Z) calls naps (self : LLM.t) :
  llm_after calls naps (LLM.sleep nap (LLM.record_call prompt self))
  = llm_after (prompt :: calls) (nap :: naps) self.
Proof. unfold llm_after. simpl. now rewrite <- !app_assoc. Qed.

(** One iteration of the retry loop whose backend call raises. *)
Lemma attempts_raise (c : LLM.client_t) (query prompt : string)
    (max_retries : Z) (k : nat) (attempt : Z) (self : LLM.t) (e : exn) :
  c (List.length (LLM.backend_calls self)) prompt = LLM.Raises e ->
  LLM.attempts c query prompt max_retries (S k) attempt self
  = if (attempt =? max_retries - 1)%Z
    then (Some (LLM._get_fallback_response query),
          LLM.record_call prompt self)
    else LLM.attempts c query prompt max_retries k (attempt + 1)
           (LLM.sleep (2 ^ attempt) (LLM.record_call prompt self)).
Proof. intros H. cbn [LLM.attempts]. now rewrite H. Qed.

(** A backend that always raises is called once per remaining attempt; the
    loop sleeps after every attempt but the last and ends in the fallback. *)
Lemma attempts_all_fail (c : LLM.client_t) (query prompt : string)
    (max_retries : Z) :
  always_raises c ->
  forall (remaining : nat) (attempt : Z) (self : LLM.t),
    (attempt + Z.of_nat (S remaining) = max_retries)%Z ->
    LLM.attempts c query prompt max_retries (S remaining) attempt self
    = (Some (LLM._get_fallback_response query),
       llm_after (repeat prompt (S remaining)) (backoff attempt remaining) self).
Proof.
  intros Hc remaining. induction remaining as [|k IH]; intros attempt self Hsum.
  - destruct (Hc (List.length (LLM.backend_calls self)) prompt) as [e He].
    rewrite (attempts_raise _ _ _ _ _ _ _ _ He).
    replace (attempt =? max_retries - 1)%Z with true by (symmetry; apply Z.eqb_eq; lia).
    unfold llm_after, LLM.record_call. simpl. now rewrite app_nil_r.
  - destruct (Hc (List.length (LLM.backend_calls self)) prompt) as [e He].
    rewrite (attempts_raise _ _ _ _ _ _ _ _ He).
    replace (attempt =? max_retries - 1)%Z with false by (symmetry; apply Z.eqb_neq; lia).
    rewrite IH by lia. now rewrite llm_after_step.
Qed.

Lemma backoff_powers (n : nat) (attempt : Z) :
  backoff attempt n = map (fun k => (2 ^ (attempt + Z.of_nat k))%Z) (seq 0 n).
Proof.
  revert attempt. induction n as [|n IH]; intros attempt; [reflexivity|].
  cbn [backoff seq map]. rewrite IH, <- seq_shift, map_map.
  f_equal; [f_equal; lia|]. apply map_ext. intros k. f_equal. lia.
Qed.

Lemma scan_table_nonempty (table : list (string * string)) (q : string) :
  LLM.scan_table table q <> EmptyString.
Proof.
  induction table as [|[kw resp] rest IH]; simpl; [discriminate|].
  destruct (Str.contains kw q); [discriminate | exact IH].
Qed.

(** The loop over the table returns the text of the first keyword that
    occurs in the lowered query, and the generic text when none does. *)
Lemma scan_table_selects (table : list (string * string)) (q : string) :
  ((forall kw resp, In (kw, resp) table -> ~ occurs kw q)
   /\ LLM.scan_table table q = LLM.generic_fallback)
  \/ (exists earlier kw resp later,
        table = (earlier ++ (kw, resp) :: later)%list
        /\ (forall kw' resp', In (kw', resp') earlier -> ~ occurs kw' q)
        /\ occurs kw q
        /\ LLM.scan_table table q
           = String.append LLM.technical_difficulties resp).
Proof.
  induction table as [|[kw resp] rest IH]; simpl.
  - left. split; [intros ? ? [] | reflexivity].
  - destruct (Str.contains kw q) eqn:Hkw.
    + right. exists [], kw, resp, rest. repeat split.
      * intros ? ? [].
      * now apply contains_true_iff.
    + apply contains_false_iff in Hkw.
      destruct IH as [[Hnone ->] | (earlier & kw1 & resp1 & later & -> & Hearlier & Hocc & ->)].
      * left. split; [|reflexivity].
        intros kw' resp' [Heq | Hin]; [congruence | eauto].
      * right. exists ((kw, resp) :: earlier), kw1, resp1, later. repeat split; auto.
        intros kw' resp' [Heq | Hin]; [congruence | eauto].
Qed.

Lemma generate_response_without_client
    (str_format : string -> string -> string -> string + exn)
    (query context : string) (use_ottawa_prompt : bool)
    (custom_prompt : option string) (max_retries : Z) (self : LLM.t) :
  LLM.client self = None ->
  LLM.generate_response str_format query context use_ottawa_prompt
    custom_prompt max_retries self
  = (Some (LLM._get_fallback_response query), self).
Proof. intros H. unfold LLM.generate_response. now rewrite H. Qed.

Lemma init_without_key (groq : string -> LLM.client_t + exn)
    (arg env : option string) :
  LLM.truthy arg = false -> LLM.truthy env = false ->
  LLM.client (LLM.init groq arg env) = None.
Proof.
  intros Harg Henv. unfold LLM.init, LLM.key_or_env.
  rewrite Harg. simpl. now rewrite Henv.
Qed.

(** C5. When the backend raises on every attempt, [generate_response] calls
    it exactly [max_retries] times (three with the default), sleeps
    [2 ** attempt] seconds after every attempt but the last, and returns the
    fallback text: a non-empty string, the entry of the first keyword of
    the table that occurs in the lowered query, or the generic
    contact message when no keyword occurs. *)
Theorem C5_fallback_after_exhausted_retries
    (str_format : string -> string -> string -> string + exn)
    (c : LLM.client_t) (query context prompt : string)
    (use_ottawa_prompt : bool) (custom_prompt : option string)
    (max_retries : Z) (self : LLM.t) :
  LLM.client self = Some c ->
  always_raises c ->
  LLM.build_prompt str_format query context use_ottawa_prompt custom_prompt
  = inl prompt ->
  (1 <= max_retries)%Z ->
  let out :=
    LLM.generate_response str_format query context use_ottawa_prompt
      custom_prompt max_retries self in
  let reply := LLM._get_fallback_response query in
  fst out = Some reply
  /\ LLM.backend_calls (snd out)
     = (LLM.backend_calls self ++ repeat prompt (Z.to_nat max_retries))%list
  /\ LLM.sleeps (snd out)
     = (LLM.sleeps self
        ++ map (fun k => (2 ^ Z.of_nat k)%Z)
             (seq 0 (Z.to_nat max_retries - 1)))%list
  /\ LLM.default_max_retries = 3%Z
  /\ reply <> EmptyString
  /\ (((forall kw resp,
          In (kw, resp) LLM.fallback_responses ->
          ~ occurs kw (Str.lower query))
       /\ reply = LLM.generic_fallback)
      \/ (exists earlier kw resp later,
            LLM.fallback_responses = (earlier ++ (kw, resp) :: later)%list
            /\ (forall kw' resp',
                  In (kw', resp') earlier -> ~ occurs kw' (Str.lower query))
            /\ occurs kw (Str.lower query)
            /\ reply = String.append LLM.technical_difficulties resp)).
Proof.
  intros Hclient Hraises Hprompt Hbound out reply.
  assert (Hout : out = (Some reply,
                        llm_after (repeat prompt (Z.to_nat max_retries))
                          (backoff 0 (Z.to_nat max_retries - 1)) self)).
  { subst out. unfold LLM.generate_response. rewrite Hclient, Hprompt.
    destruct (Z.to_nat max_retries) as [|k] eqn:Hk; [lia|].
    rewrite (attempts_all_fail c query prompt max_retries Hraises k 0 self)
      by lia.
    now replace (S k - 1)%nat with k by lia. }
  rewrite Hout. cbn [fst snd llm_after LLM.backend_calls LLM.sleeps].
  repeat split.
  - now rewrite backoff_powers.
  - apply scan_table_nonempty.
  - apply scan_table_selects.
Qed.

(** C9. Built without an API key (none passed, none in the environment),
    the interface has no client, and [generate_response] returns the
    fallback text at once: the interface is left as it was, with no backend
    call and no sleep recorded. *)
Theorem C9_no_key_no_backend_call
    (groq : string -> LLM.client_t + exn) (arg env : option string)
    (str_format : string -> string -> string -> string + exn)
    (query context : string) (use_ottawa_prompt : bool)
    (custom_prompt : option string) (max_retries : Z) :
  LLM.truthy arg = false ->
  LLM.truthy env = false ->
  let self := LLM.init groq arg env in
  LLM.client self = None
  /\ LLM.generate_response str_format query context use_ottawa_prompt
       custom_prompt max_retries self
     = (Some (LLM.scan_table LLM.fallback_responses (Str.lower query)), self)
  /\ LLM.backend_calls self = []
  /\ LLM.sleeps self = [].
Proof.
  intros Harg Henv self.
  assert (Hnone : LLM.client self = None) by now apply init_without_key.
  repeat split; auto.
  now apply generate_response_without_client.
Qed.

(** ** The orchestrator *)

Definition keeps (similarity_threshold : Q) (r : Pipeline.result) : bool :=
  Qle_bool similarity_threshold (Pipeline.get_similarity 0%Q r).

Lemma threshold_filter_acc (results : list Pipeline.result) (th : Q)
    (acc : list Pipeline.result) :
  Pipeline.threshold_filter results th acc
  = (acc ++ List.filter (keeps th) results)%list.
Proof.
  revert acc. induction results as [|r rest IH]; intros acc; simpl.
  - now rewrite app_nil_r.
  - rewrite IH. unfold keeps at 2.
    destruct (Qle_bool th (Pipeline.get_similarity 0%Q r)); [|reflexivity].
    now rewrite <- app_assoc.
Qed.

Lemma keeps_iff_not_below (th : Q) (r : Pipeline.result) :
  keeps th r = true <-> ~ (Pipeline.get_similarity 0%Q r < th)%Q.
Proof.
  unfold keeps. rewrite Qle_bool_iff. split.
  - apply Qle_not_lt.
  - apply Qnot_lt_le.
Qed.

Lemma filter_sublist {A : Type} (f : A -> bool) (l : list A) :
  sublist (List.filter f l) l.
Proof.
  induction l as [|x l IH]; simpl; [constructor|].
  destruct (f x); now constructor.
Qed.

(** The three results of the specification's example. *)
Definition scored (name : string) (s : Q) : Pipeline.result :=
  {| Pipeline.document := Some name;
     Pipeline.metadata := Some (Pipeline.MetaDict None None);
     Pipeline.similarity := Some s |}.

(** C2. The threshold filter keeps exactly the results whose similarity is
    not below the threshold, in their order (it is the order-preserving
    selection of those results); with similarities 0.05, 0.3, 0.6 and
    threshold 0.1 it keeps the results scored 0.3 and 0.6. *)
Theorem C2_threshold_filter_exact
    (results : list Pipeline.result) (similarity_threshold : Q) :
  let kept := Pipeline.threshold_filter results similarity_threshold [] in
  (forall r, In r kept <->
             In r results
             /\ ~ (Pipeline.get_similarity 0%Q r < similarity_threshold)%Q)
  /\ sublist kept results
  /\ kept = List.filter (keeps similarity_threshold) results
  /\ Pipeline.threshold_filter
       [scored "a" (5 # 100); scored "b" (3 # 10); scored "c" (6 # 10)]
       (1 # 10) []
     = [scored "b" (3 # 10); scored "c" (6 # 10)].
Proof.
  intros kept.
  assert (Hkept : kept = List.filter (keeps similarity_threshold) results).
  { subst kept. now rewrite threshold_filter_acc. }
  rewrite Hkept. split; [|split; [|split]].
  - intros r. rewrite filter_In, keeps_iff_not_below. reflexivity.
  - apply filter_sublist.
  - reflexivity.
  - reflexivity.
Qed.

(** X4. On an initialised pipeline whose query embedding succeeds,
    [search_relevant_context] returns the results of the vector search whose
    similarity is at least the threshold, in the order of the search. *)
Theorem X4_search_keeps_results_at_or_above_threshold (vector : Type)
    (embed_query : string -> vector + exn)
    (vector_search : vector -> Z -> list Pipeline.result)
    (question : string) (top_k : Z) (th : Q) (self : Pipeline.t)
    (v : vector) :
  Pipeline.is_initialized self = true ->
  embed_query question = inl v ->
  Pipeline.search_relevant_context vector embed_query vector_search
    question top_k th self
  = List.filter (keeps th) (vector_search v top_k).
Proof.
  intros Hinit Hembed. unfold Pipeline.search_relevant_context.
  rewrite Hinit, Hembed. simpl. now rewrite threshold_filter_acc.
Qed.

(** A chunk as [VectorStore.search] builds it from stored records: it has
    its text, and its metadata, when present, is a dictionary. *)
Definition well_formed (chunk : Pipeline.result) : Prop :=
  Pipeline.document chunk <> None
  /\ Pipeline.metadata chunk <> Some Pipeline.MetaNone.

Lemma format_sources_total (chunks : list Pipeline.result) (i : nat) :
  Forall well_formed chunks ->
  exists lines, Pipeline.format_sources i chunks = inl lines.
Proof.
  intros Hwf. revert i. induction Hwf as [|chunk rest [Hdoc _] _ IH]; intros i.
  - now exists [].
  - cbn [Pipeline.format_sources].
    destruct (Pipeline.document chunk) as [doc|]; [|congruence].
    destruct (IH (S i)) as [lines ->]. eauto.
Qed.

Lemma extract_sources_total (chunks : list Pipeline.result)
    (acc : list Pipeline.source) :
  Forall well_formed chunks ->
  exists srcs, Pipeline.extract_sources chunks acc = inl srcs.
Proof.
  intros Hwf. revert acc.
  induction Hwf as [|chunk rest [_ Hmeta] _ IH]; intros acc.
  - now exists acc.
  - cbn [Pipeline.extract_sources].
    destruct (Pipeline.metadata chunk) as [[|url file]|]; [congruence| |]; apply IH.
Qed.



(** The response of [generate_response] for a list of chunks that is not
    empty, by the outcome of its two loops over the chunks. *)
Lemma generate_response_cases (np_mean : list Q -> Q) (question : string)
    (chunks : list Pipeline.result) (llm : LLM.t) :
  chunks <> [] ->
  let out := Pipeline.generate_response np_mean question chunks llm in
  match Pipeline.format_sources 0 chunks with
  | inr e => out = (Pipeline.bare_response (Pipeline.error_answer e), llm)
  | inl lines =>
      let asked :=
        LLM.generate_response_default question
          (Str.join (String "010" (String "010" EmptyString)) lines) llm in
      snd out = snd asked
      /\ match Pipeline.extract_sources chunks [] with
         | inr e =>
             fst out = Pipeline.bare_response (Pipeline.error_answer e)
         | inl srcs =>
             Pipeline.answer (fst out) = fst asked
             /\ Pipeline.sources (fst out) = srcs
             /\ Pipeline.confidence (fst out)
                = np_mean (map (Pipeline.get_similarity 0%Q) chunks)
             /\ Pipeline.chunks_used (fst out)
                = Some (Z.of_nat (List.length chunks))
             /\ Pipeline.error (fst out) = None
         end
  end.
Proof.
  intros Hne out. subst out. unfold Pipeline.generate_response.
  destruct chunks as [|chunk rest]; [congruence|].
  destruct (Pipeline.format_sources 0 (chunk :: rest)) as [lines|e];
    [|reflexivity].
  cbv zeta. destruct (LLM.generate_response_default _ _ llm) as [reply llm'].
  destruct (Pipeline.extract_sources (chunk :: rest) []) as [srcs|e];
    cbn [fst snd]; repeat split.
Qed.

Lemma confidence_of_well_formed (np_mean : list Q -> Q) (question : string)
    (chunks : list Pipeline.result) (llm : LLM.t) :
  chunks <> [] ->
  Forall well_formed chunks ->
  Pipeline.confidence
    (fst (Pipeline.generate_response np_mean question chunks llm))
  = np_mean (map (Pipeline.get_similarity 0%Q) chunks).
Proof.
  intros Hne Hwf.
  pose proof (generate_response_cases np_mean question chunks llm Hne)
    as Hcases.
  cbv zeta in Hcases.
  destruct (format_sources_total chunks 0 Hwf) as [lines Hlines].
  destruct (extract_sources_total chunks [] Hwf) as [srcs Hsrcs].
  rewrite Hlines, Hsrcs in Hcases. apply Hcases.
Qed.


(** C4. With no context chunk, [generate_response] answers with the fixed
    no-information text, no sources and confidence 0.0, and hands the LLM
    interface back untouched: no backend call is made. *)
Theorem C4_no_context_no_backend (np_mean : list Q -> Q)
    (question : string) (llm : LLM.t) :
  let out := Pipeline.generate_response np_mean question [] llm in
  Pipeline.answer (fst out) = Some Pipeline.no_information
  /\ Pipeline.sources (fst out) = []
  /\ Pipeline.confidence (fst out) = 0%Q
  /\ snd out = llm
  /\ LLM.backend_calls (snd out) = LLM.backend_calls llm.
Proof. repeat split. Qed.

(** With a positive number of attempts left and the last one numbered
    [max_retries - 1], the retry loop ends in a [return]. *)
Lemma attempts_returns (c : LLM.client_t) (query prompt : string)
    (max_retries : Z) (remaining : nat) :
  forall (attempt : Z) (self : LLM.t),
    (attempt + Z.of_nat (S remaining) = max_retries)%Z ->
    exists text,
      fst (LLM.attempts c query prompt max_retries (S remaining) attempt self)
      = Some text.
Proof.
  induction remaining as [|k IH]; intros attempt self Hsum;
    cbn [LLM.attempts];
    destruct (c (List.length (LLM.backend_calls self)) prompt)
      as [e | [response|] tokens]; cbv beta iota zeta.
  1, 3: replace (attempt =? max_retries - 1)%Z with true
          by (symmetry; apply Z.eqb_eq; lia); eauto.
  1, 3: now eauto.
  1, 2: replace (attempt =? max_retries - 1)%Z with false
          by (symmetry; apply Z.eqb_neq; lia); apply IH; lia.
Qed.

Lemma generate_response_default_returns (query context : string)
    (self : LLM.t) :
  exists text, fst (LLM.generate_response_default query context self)
               = Some text.
Proof.
  unfold LLM.generate_response_default, LLM.generate_response.
  destruct (LLM.client self) as [c|]; [|simpl; eauto].
  cbn [LLM.build_prompt LLM.truthy].
  apply (attempts_returns c query _ LLM.default_max_retries 2 0%Z self).
  reflexivity.
Qed.

Lemma generate_response_answers (np_mean : list Q -> Q) (question : string)
    (chunks : list Pipeline.result) (llm : LLM.t) :
  exists text,
    Pipeline.answer
      (fst (Pipeline.generate_response np_mean question chunks llm))
    = Some text.
Proof.
  unfold Pipeline.generate_response.
  destruct chunks as [|chunk rest]; [simpl; eauto|].
  destruct (Pipeline.format_sources 0 (chunk :: rest)) as [lines|e];
    [|simpl; eauto].
  destruct (generate_response_default_returns question
              (Str.join (String "010" (String "010" EmptyString)) lines) llm)
    as [text Htext].
  destruct (LLM.generate_response_default _ _ llm) as [reply llm'].
  simpl in Htext. subst reply.
  destruct (Pipeline.extract_sources (chunk :: rest) []); simpl; eauto.
Qed.

Lemma generate_response_no_error_key (np_mean : list Q -> Q)
    (question : string) (chunks : list Pipeline.result) (llm : LLM.t) :
  Pipeline.error
    (fst (Pipeline.generate_response np_mean question chunks llm))
  = None.
Proof.
  unfold Pipeline.generate_response.
  destruct chunks as [|chunk rest]; [reflexivity|].
  destruct (Pipeline.format_sources 0 (chunk :: rest)); [|reflexivity].
  destruct (LLM.generate_response_default _ _ llm).
  destruct (Pipeline.extract_sources (chunk :: rest) []); reflexivity.
Qed.

(** The first [len()] that raises while the pipeline metadata is built. *)
Definition metadata_failure (self : Pipeline.t) : option exn :=
  match Pipeline.py_len (Pipeline.documents self) with
  | inr e => Some e
  | inl _ =>
      match Pipeline.py_len (Pipeline.chunks self) with
      | inr e => Some e
      | inl _ => None
      end
  end.

Lemma add_metadata_failure (now question : string) (self : Pipeline.t)
    (r : Pipeline.response) :
  match metadata_failure self with
  | Some e => Pipeline.add_metadata now question self r = inr e
  | None =>
      exists r', Pipeline.add_metadata now question self r = inl r'
                 /\ Pipeline.answer r' = Pipeline.answer r
                 /\ Pipeline.sources r' = Pipeline.sources r
                 /\ Pipeline.confidence r' = Pipeline.confidence r
                 /\ Pipeline.error r' = Pipeline.error r
                 /\ Pipeline.query r' = Some question
  end.
Proof.
  unfold metadata_failure, Pipeline.add_metadata.
  destruct (Pipeline.py_len (Pipeline.documents self)); [|reflexivity].
  destruct (Pipeline.py_len (Pipeline.chunks self)); [|reflexivity].
  eexists. repeat split.
Qed.

(** C1, as the code has it. [answer_question] returns a response with an
    answer text for every query and never raises. An exception that reaches
    its own handler (raised while the pipeline metadata is attached) gives
    the response an error description and confidence 0.0; a response has an
    error description only then. Otherwise the response has no error
    description and is decided by the chunks the search returns.
    - A retrieval that fails (pipeline not initialised, query embedding
      raising) returns no chunk; with no chunk the response is the
      no-information one, confidence 0.0, and the LLM interface is not
      used.
    - A chunk without text makes the formatting raise: the answer text
      describes the error, there is no source, the confidence is 0.0, and
      the LLM interface is not used.
    - A chunk whose metadata is [None] makes the extraction of the sources
      raise, after the LLM interface was called: the answer text describes
      the error, there is no source and the confidence is 0.0.
    - In every other case the answer is the text of the LLM interface
      (its fallback text when the backend raises) and the confidence is
      [np.mean] of the similarities of the chunks. *)
Theorem C1_answer_question_degrades (vector : Type)
    (embed_query : string -> vector + exn)
    (vector_search : vector -> Z -> list Pipeline.result)
    (np_mean : list Q -> Q) (now question : string) (self : Pipeline.t) :
  let out :=
    Pipeline.answer_question vector embed_query vector_search now np_mean
      question self in
  let r := fst out in
  let llm := Pipeline.llm_interface self in
  let llm' := Pipeline.llm_interface (snd out) in
  let found :=
    Pipeline.search_relevant_context vector embed_query vector_search
      question Pipeline.default_top_k Pipeline.default_similarity_threshold
      self in
  let asked (lines : list string) :=
    LLM.generate_response_default question
      (Str.join (String "010" (String "010" EmptyString)) lines) llm in
  (exists text, Pipeline.answer r = Some text)
  /\ (forall e, metadata_failure self = Some e ->
        Pipeline.error r = Some (str_of_exn e)
        /\ Pipeline.confidence r = 0%Q
        /\ Pipeline.sources r = []
        /\ Pipeline.answer r = Some Pipeline.unexpected_error)
  /\ (forall msg, Pipeline.error r = Some msg ->
        Pipeline.confidence r = 0%Q
        /\ exists e, metadata_failure self = Some e /\ msg = str_of_exn e)
  /\ (Pipeline.is_initialized self = false
      \/ (exists e, embed_query question = inr e) ->
      found = [])
  /\ (metadata_failure self = None ->
      found = [] ->
        Pipeline.answer r = Some Pipeline.no_information
        /\ Pipeline.sources r = []
        /\ Pipeline.confidence r = 0%Q
        /\ Pipeline.error r = None
        /\ llm' = llm)
  /\ (metadata_failure self = None ->
      forall e,
        Pipeline.format_sources 0 found = inr e ->
        Pipeline.answer r = Some (Pipeline.error_answer e)
        /\ Pipeline.sources r = []
        /\ Pipeline.confidence r = 0%Q
        /\ Pipeline.error r = None
        /\ llm' = llm)
  /\ (metadata_failure self = None ->
      found <> [] ->
      forall lines e,
        Pipeline.format_sources 0 found = inl lines ->
        Pipeline.extract_sources found [] = inr e ->
        Pipeline.answer r = Some (Pipeline.error_answer e)
        /\ Pipeline.sources r = []
        /\ Pipeline.confidence r = 0%Q
        /\ Pipeline.error r = None
        /\ llm' = snd (asked lines))
  /\ (metadata_failure self = None ->
      found <> [] ->
      forall lines srcs,
        Pipeline.format_sources 0 found = inl lines ->
        Pipeline.extract_sources found [] = inl srcs ->
        Pipeline.answer r = fst (asked lines)
        /\ Pipeline.sources r = srcs
        /\ Pipeline.confidence r
           = np_mean (map (Pipeline.get_similarity 0%Q) found)
        /\ Pipeline.error r = None
        /\ llm' = snd (asked lines)).
Proof.
  intros out r llm llm' found asked. subst r llm' out asked.
  unfold Pipeline.answer_question. fold found. fold llm.
  pose proof (generate_response_answers np_mean question found llm)
    as Hanswer.
  pose proof (generate_response_no_error_key np_mean question found llm)
    as Hnoerr.
  assert (Hempty : Pipeline.is_initialized self = false
                   \/ (exists e, embed_query question = inr e) ->
                   found = []).
  { subst found. unfold Pipeline.search_relevant_context.
    intros [-> | [e ->]]; [reflexivity|].
    now destruct (Pipeline.is_initialized self). }
  assert (Hnone : found = [] ->
            Pipeline.generate_response np_mean question found llm
            = (Pipeline.bare_response Pipeline.no_information, llm))
    by now intros ->.
  assert (Hformat : forall e, Pipeline.format_sources 0 found = inr e ->
            Pipeline.generate_response np_mean question found llm
            = (Pipeline.bare_response (Pipeline.error_answer e), llm)).
  { intros e He. unfold Pipeline.generate_response. rewrite He.
    destruct found; [discriminate | reflexivity]. }
  pose proof (generate_response_cases np_mean question found llm) as Hcases.
  cbv zeta in Hcases.
  destruct (Pipeline.generate_response np_mean question found llm)
    as [r llm1] eqn:Hgen.
  cbn [fst snd] in Hanswer, Hnoerr, Hcases.
  pose proof (add_metadata_failure now question self r) as Hmeta.
  destruct (metadata_failure self) as [e0|].
  - rewrite Hmeta. cbn [fst snd Pipeline.set_llm Pipeline.llm_interface].
    split; [eauto|].
    split; [intros e [= <-]; repeat split|].
    split; [intros msg [= <-]; split; [reflexivity | eauto]|].
    split; [exact Hempty|].
    split; [discriminate|]. split; [discriminate|].
    split; discriminate.
  - destruct Hmeta as (r' & -> & Ha & Hs & Hc & He & _).
    cbn [fst snd Pipeline.set_llm Pipeline.llm_interface].
    rewrite Ha, Hs, Hc, He. split; [exact Hanswer|].
    split; [discriminate|].
    split; [intros msg Hmsg; congruence|].
    split; [exact Hempty|].
    split.
    { intros _ Hnil. injection (Hnone Hnil) as -> ->. repeat split. }
    split.
    { intros _ e He'. injection (Hformat e He') as -> ->. repeat split. }
    split.
    + intros _ Hne lines e Hlines Hsrcs. specialize (Hcases Hne).
      rewrite Hlines, Hsrcs in Hcases. destruct Hcases as [-> ->].
      repeat split.
    + intros _ Hne lines srcs Hlines Hsrcs. specialize (Hcases Hne).
      rewrite Hlines, Hsrcs in Hcases.
      destruct Hcases as (-> & Hans & Hsources & Hmean & _ & _).
      auto.
Qed.

(** The mean without rounding. On a single score, and on scores whose sum
    and mean are binary64 numbers, it is what [np.mean] returns. *)
Definition exact_mean (xs : list Q) : Q :=
  (fold_left Qplus xs 0 / inject_Z (Z.of_nat (List.length xs)))%Q.

(** An initialised pipeline over a two-document corpus whose backend is
    down, and a search that finds one passage scored 0.5. *)
Definition backend_down : LLM.client_t :=
  fun _ _ => LLM.Raises (RuntimeError "503 Service Unavailable").

Definition pipeline_backend_down : Pipeline.t :=
  {| Pipeline.is_initialized := true;
     Pipeline.documents := Pipeline.Sized 2;
     Pipeline.chunks := Pipeline.Sized 7;
     Pipeline.llm_interface :=
       LLM.init (fun _ => inl backend_down) (Some "gsk-key") None |}.

Definition one_passage : list Pipeline.result :=
  [ {| Pipeline.document := Some "Marriage license fee is $145.";
       Pipeline.metadata :=
         Some (Pipeline.MetaDict (Some "https://ottawa.ca/marriage")
                 (Some "marriage.json"));
       Pipeline.similarity := Some (1 # 2) |} ].

(** C1 as stated fails: the generation stage fails (the backend raises on
    each of the three attempts made), and the response carries no error
    description and has confidence 0.5; and when the query embedding raises
    the response carries no error description either. *)
Lemma C1_stage_failure_without_error_field :
  let out :=
    Pipeline.answer_question unit (fun _ => inl tt) (fun _ _ => one_passage)
      "2026-01-01T00:00:00" exact_mean "How much is a marriage license?"
      pipeline_backend_down in
  List.length (LLM.backend_calls (Pipeline.llm_interface (snd out))) = 3%nat
  /\ Pipeline.error (fst out) = None
  /\ Pipeline.confidence (fst out) = (1 # 2)%Q
  /\ Qeq_bool (Pipeline.confidence (fst out)) 0 = false
  /\ Pipeline.error
       (fst (Pipeline.answer_question unit
               (fun _ => inr (RuntimeError "model unavailable"))
               (fun _ _ => one_passage) "2026-01-01T00:00:00" exact_mean
               "How much is a marriage license?" pipeline_backend_down))
     = None.
Proof. vm_compute. repeat split. Qed.

(** ** The embedding manager *)

(** C10. For the empty batch [generate_embeddings] returns the empty array
    and leaves the manager as it was: nothing is encoded, no cache file is
    probed, loaded or written. *)
Theorem C10_empty_batch_is_inert (sha256_hexdigest : string -> string)
    (encode : list string -> Embeddings.matrix + exn)
    (use_cache : bool) (self : Embeddings.t) :
  let out :=
    Embeddings.generate_embeddings sha256_hexdigest encode [] use_cache
      self in
  fst out = inl []
  /\ snd out = self
  /\ Embeddings.events (snd out) = Embeddings.events self
  /\ Embeddings.disk (snd out) = Embeddings.disk self.
Proof. repeat split. Qed.

Lemma opt_string_eqb_true (o : option string) (s : string) :
  Embeddings.opt_string_eqb o s = true <-> o = Some s.
Proof.
  destruct o as [s'|]; simpl; [|split; discriminate].
  rewrite String.eqb_eq. split; congruence.
Qed.

Lemma opt_Z_eqb_true (o : option Z) (n : Z) :
  Embeddings.opt_Z_eqb o n = true <-> o = Some n.
Proof.
  destruct o as [n'|]; simpl; [|split; discriminate].
  rewrite Z.eqb_eq. split; congruence.
Qed.

(** C6, as the code has it. The cache key is the first 16 hexadecimal digits
    of the SHA-256 of the texts joined by a bar, in their order, followed by
    a bar and the model name. A stored entry is returned exactly when its
    file exists under that key, holds a dictionary, and the stored model
    name and the stored text count equal the manager's model name and the
    size of the batch; the stored dimension plays no part. *)
Theorem C6_cache_hit_checks_model_and_count
    (sha256_hexdigest : string -> string)
    (texts : list string) (self : Embeddings.t) (dir : string) :
  Embeddings.cache_dir self = Some dir ->
  Embeddings._generate_cache_key sha256_hexdigest texts self
  = Str.take 16
      (sha256_hexdigest
         (String.append (Str.join "|" texts)
            (String.append "|" (Embeddings.model_name self))))
  /\ Embeddings.combined_text ["a"; "b"] self
     <> Embeddings.combined_text ["b"; "a"] self
  /\ (forall embeddings,
        fst (Embeddings._load_from_cache sha256_hexdigest texts self)
        = Some embeddings
        <-> exists d,
              Embeddings.disk self
                !! Embeddings.cache_path sha256_hexdigest dir texts self
              = Some (Embeddings.Pickled d)
              /\ Embeddings.cd_model_name d
                 = Some (Embeddings.model_name self)
              /\ Embeddings.cd_text_count d
                 = Some (Z.of_nat (List.length texts))
              /\ Embeddings.cd_embeddings d = Some embeddings).
Proof.
  intros Hdir. split; [reflexivity|]. split.
  { unfold Embeddings.combined_text. cbn [Str.join].
    rewrite !append_cons. discriminate. }
  intros embeddings. unfold Embeddings._load_from_cache. rewrite Hdir.
  destruct (Embeddings.disk self
              !! Embeddings.cache_path sha256_hexdigest dir texts self)
    as [[|d]|] eqn:Hfile; cbn [fst].
  - split; [discriminate | intros (d & [=] & _)].
  - destruct (Embeddings.opt_string_eqb _ _) eqn:Hname;
      [destruct (Embeddings.opt_Z_eqb _ _) eqn:Hcount|]; cbn [andb fst].
    + apply opt_string_eqb_true in Hname. apply opt_Z_eqb_true in Hcount.
      split; [intros Hemb; exists d; auto|].
      intros (d' & [= <-] & _ & _ & Hemb). exact Hemb.
    + split; [discriminate|]. intros (d' & [= <-] & _ & Hc & _).
      apply opt_Z_eqb_true in Hc. congruence.
    + split; [discriminate|]. intros (d' & [= <-] & Hn & _).
      apply opt_string_eqb_true in Hn. congruence.
  - split; [discriminate | intros (d & [=] & _)].
Qed.

(** A 384-dimensional model, and a cache file left under the key of the
    batch by a run that recorded dimension 768 for the same model name. *)
Definition sha_stub (s : string) : string := s.

Definition stale_vectors : Embeddings.matrix := [[1%float; 0%float]].

Definition stale_entry : Embeddings.cache_data :=
  {| Embeddings.cd_model_name := Some "all-MiniLM-L6-v2";
     Embeddings.cd_text_count := Some 1%Z;
     Embeddings.cd_embeddings := Some stale_vectors;
     Embeddings.cd_embedding_dimension := Some 768%Z |}.

Definition manager_384 : Embeddings.t :=
  {| Embeddings.model_name := "all-MiniLM-L6-v2";
     Embeddings.batch_size := 32;
     Embeddings.cache_dir := Some "cache";
     Embeddings.embedding_dimension := 384;
     Embeddings.disk :=
       {[ "cache/embeddings_fee|all-MiniLM-L.pkl" := Embeddings.Pickled stale_entry ]};
     Embeddings.disk_writable := true;
     Embeddings.events := [] |}.

(** C6 as stated fails: an entry whose stored dimension (768) differs from
    the manager's (384) is returned as a hit. *)
Lemma C6_dimension_mismatch_is_a_hit :
  Embeddings.cache_path sha_stub "cache" ["fee"] manager_384
  = "cache/embeddings_fee|all-MiniLM-L.pkl"
  /\ fst (Embeddings._load_from_cache sha_stub ["fee"] manager_384)
     = Some stale_vectors
  /\ Embeddings.cd_embedding_dimension stale_entry = Some 768%Z
  /\ Embeddings.embedding_dimension manager_384 = 384%Z.
Proof.
  split; [reflexivity|]. split; [|split; reflexivity].
  unfold Embeddings._load_from_cache. cbn [Embeddings.cache_dir manager_384].
  change (Embeddings.cache_path sha_stub "cache" ["fee"] manager_384)
    with "cache/embeddings_fee|all-MiniLM-L.pkl".
  cbn [Embeddings.disk manager_384]. rewrite lookup_singleton_eq.
  reflexivity.
Qed.

Lemma C6_cache_hit_witness :
  Embeddings._generate_cache_key sha_stub ["fee"] manager_384
  = Str.take 16
      (sha_stub
         (String.append (Str.join "|" ["fee"])
            (String.append "|" (Embeddings.model_name manager_384)))).
Proof.
  exact (proj1 (C6_cache_hit_checks_model_and_count sha_stub ["fee"]
                  manager_384 "cache" eq_refl)).
Defined.

(** *** Cosine similarity on binary64 *)

Lemma is_nan_iff (x : float) :
  PrimFloat.is_nan x = true <-> Prim2SF x = S754_nan.
Proof.
  unfold PrimFloat.is_nan. rewrite FloatAxioms.eqb_spec.
  destruct (Prim2SF x) as [s|s| |s m e]; unfold SFeqb; simpl.
  - split; discriminate.
  - destruct s; split; discriminate.
  - split; reflexivity.
  - rewrite Z.compare_refl, Pos.compare_cont_refl.
    destruct s; split; discriminate.
Qed.

Lemma mul_nan_r (x y : float) :
  PrimFloat.is_nan y = true -> PrimFloat.is_nan (x * y) = true.
Proof.
  rewrite !is_nan_iff, mul_spec. intros ->.
  now destruct (Prim2SF x).
Qed.

Lemma mul_nan_l (x y : float) :
  PrimFloat.is_nan x = true -> PrimFloat.is_nan (x * y) = true.
Proof.
  rewrite !is_nan_iff, mul_spec. intros ->. reflexivity.
Qed.

Lemma add_nan_r (x y : float) :
  PrimFloat.is_nan y = true -> PrimFloat.is_nan (x + y) = true.
Proof.
  rewrite !is_nan_iff, add_spec. intros ->.
  now destruct (Prim2SF x).
Qed.

Lemma add_nan_l (x y : float) :
  PrimFloat.is_nan x = true -> PrimFloat.is_nan (x + y) = true.
Proof.
  rewrite !is_nan_iff, add_spec. intros ->. reflexivity.
Qed.

(** Every entry is a zero of binary64, positive or negative. *)
Definition zero_vector (v : list float) : Prop :=
  Forall (fun x => x = 0%float \/ x = (-0)%float) v.

Definition all_nan (v : list float) : Prop :=
  Forall (fun x => PrimFloat.is_nan x = true) v.

Definition dot_step (acc : float) (p : float * float) : float :=
  (acc + fst p * snd p)%float.

Lemma dot_unfold (u v : list float) :
  Embeddings.dot u v = fold_left dot_step (combine u v) 0%float.
Proof. reflexivity. Qed.

Lemma fold_dot_nan (ps : list (float * float)) (acc : float) :
  PrimFloat.is_nan acc = true ->
  PrimFloat.is_nan (fold_left dot_step ps acc) = true.
Proof.
  revert acc. induction ps as [|p ps IH]; intros acc Hacc; simpl; [exact Hacc|].
  apply IH. unfold dot_step. now apply add_nan_l.
Qed.

(** The norm of a zero vector is zero. *)
Lemma norm_zero_vector (v : list float) :
  zero_vector v -> Embeddings.norm v = 0%float.
Proof.
  intros Hz. unfold Embeddings.norm. rewrite dot_unfold.
  assert (H : fold_left dot_step (combine v v) 0%float = 0%float).
  { induction Hz as [|x v Hx _ IH]; [reflexivity|].
    cbn [combine fold_left]. unfold dot_step at 2. cbn [fst snd].
    destruct Hx as [-> | ->]; exact IH. }
  now rewrite H.
Qed.

(** Dividing a zero vector by its norm gives NaN in every entry. *)
Lemma normalize_zero_vector (v : list float) :
  zero_vector v -> all_nan (Embeddings.normalize v).
Proof.
  intros Hz. unfold Embeddings.normalize. rewrite (norm_zero_vector v Hz).
  unfold all_nan. induction Hz as [|x v Hx _ IH]; simpl; constructor; auto.
  destruct Hx as [-> | ->]; reflexivity.
Qed.

Lemma length_normalize (v : list float) :
  List.length (Embeddings.normalize v) = List.length v.
Proof. unfold Embeddings.normalize. apply length_map. Qed.

Lemma dot_nan_r (u v : list float) :
  u <> [] -> List.length u = List.length v -> all_nan v ->
  PrimFloat.is_nan (Embeddings.dot u v) = true.
Proof.
  intros Hu Hlen Hv. rewrite dot_unfold.
  destruct u as [|a u]; [congruence|].
  destruct v as [|b v]; [discriminate|].
  cbn [combine fold_left]. apply fold_dot_nan.
  unfold dot_step. cbn [fst snd]. apply add_nan_r, mul_nan_r.
  now inversion Hv.
Qed.

Lemma dot_nan_l (u v : list float) :
  u <> [] -> List.length u = List.length v -> all_nan u ->
  PrimFloat.is_nan (Embeddings.dot u v) = true.
Proof.
  intros Hu Hlen Hnan. rewrite dot_unfold.
  destruct u as [|a u]; [congruence|].
  destruct v as [|b v]; [discriminate|].
  cbn [combine fold_left]. apply fold_dot_nan.
  unfold dot_step. cbn [fst snd]. apply add_nan_r, mul_nan_l.
  now inversion Hnan.
Qed.

Lemma rows_aligned (q : list float) (docs : Embeddings.matrix) :
  Forall (fun row => List.length row = List.length q) docs ->
  forallb (fun row => Nat.eqb (List.length row) (List.length q))
    (map Embeddings.normalize docs) = true.
Proof.
  intros H. induction H as [|row docs Hrow _ IH]; [reflexivity|].
  cbn [map forallb]. rewrite length_normalize, Hrow, Nat.eqb_refl. exact IH.
Qed.

(** C7, as the code has it. For a query and a matrix of the same dimension,
    [compute_similarity] returns, without raising, the dot product of each
    row divided by its norm with the query divided by its norm. There is no
    guard for a zero norm: for a zero query every score is NaN, and for a
    zero row the score of that row is NaN. *)
Theorem C7_cosine_without_zero_guard (query_embedding : list float)
    (document_embeddings : Embeddings.matrix) :
  query_embedding <> [] ->
  Forall (fun row => List.length row = List.length query_embedding)
    document_embeddings ->
  let scores :=
    map (fun row => Embeddings.dot (Embeddings.normalize row)
                      (Embeddings.normalize query_embedding))
      document_embeddings in
  Embeddings.compute_similarity query_embedding document_embeddings
  = inl scores
  /\ (zero_vector query_embedding -> all_nan scores)
  /\ (forall i row,
        nth_error document_embeddings i = Some row ->
        zero_vector row ->
        exists s, nth_error scores i = Some s
                  /\ PrimFloat.is_nan s = true).
Proof.
  intros Hq Hrows scores. split; [|split].
  - unfold Embeddings.compute_similarity.
    rewrite (rows_aligned _ _ Hrows). subst scores. now rewrite map_map.
  - intros Hz. subst scores. unfold all_nan. rewrite Forall_map.
    rewrite List.Forall_forall in Hrows |- *. intros row Hin.
    apply dot_nan_r.
    + intros Hnil. apply Hq.
      apply (f_equal (@List.length float)) in Hnil.
      rewrite length_normalize, (Hrows row Hin) in Hnil.
      now destruct query_embedding.
    + now rewrite !length_normalize, (Hrows row Hin).
    + now apply normalize_zero_vector.
  - intros i row Hrow Hz. subst scores.
    rewrite nth_error_map, Hrow. cbn [option_map]. eexists. split; [reflexivity|].
    assert (Hlen : List.length row = List.length query_embedding).
    { rewrite List.Forall_forall in Hrows. apply Hrows.
      eapply nth_error_In; eauto. }
    apply dot_nan_l.
    + intros Hnil. apply Hq.
      apply (f_equal (@List.length float)) in Hnil.
      rewrite length_normalize, Hlen in Hnil.
      now destruct query_embedding.
    + now rewrite !length_normalize.
    + now apply normalize_zero_vector.
Qed.

(** C7 as stated fails: the zero query against the unit vectors scores NaN,
    not 0, for each pair; so does the zero row against a unit query. *)
Lemma C7_zero_vector_scores_nan :
  Embeddings.compute_similarity [0%float; 0%float]
    [[1%float; 0%float]; [0%float; 1%float]]
  = inl [nan; nan]
  /\ Embeddings.compute_similarity [1%float; 0%float]
       [[0%float; 0%float]; [1%float; 0%float]]
     = inl [nan; 1%float]
  /\ PrimFloat.eqb nan 0%float = false.
Proof. vm_compute. repeat split. Qed.

Lemma C7_cosine_witness :
  Embeddings.compute_similarity [0%float; 0%float]
    [[1%float; 0%float]; [0%float; 1%float]]
  = inl
      (map (fun row => Embeddings.dot (Embeddings.normalize row)
                         (Embeddings.normalize [0%float; 0%float]))
         [[1%float; 0%float]; [0%float; 1%float]]).
Proof.
  refine (proj1 (C7_cosine_without_zero_guard [0%float; 0%float]
                   [[1%float; 0%float]; [0%float; 1%float]] _ _)).
  - discriminate.
  - repeat constructor.
Defined.

(** ** The data processor *)

(** The positions, counted from [i], of the candidates long enough to be
    kept. *)
Fixpoint kept_positions (min_chunk_length : Z) (text_chunks : list string)
    (i : nat) : list Z :=
  match text_chunks with
  | [] => []
  | chunk_text :: rest =>
      if (min_chunk_length <=? Processor.len chunk_text)%Z
      then Z.of_nat i :: kept_positions min_chunk_length rest (S i)
      else kept_positions min_chunk_length rest (S i)
  end.

(** X3. The ordinal recorded on a kept chunk is the position of its
    candidate among all the candidates of the splitter, kept or not: the
    ordinals of a document are the positions of its long-enough candidates. *)
Theorem X3_chunk_index_is_candidate_position (extract_keywords : string -> list string)
    (now : string) (min_chunk_length : Z) (doc : Processor.document)
    (doc_idx : nat) (text_chunks : list string) :
  forall (i : nat) (all_chunks : list Processor.chunk) (counter : nat),
    map Processor.chunk_index
      (fst (Processor.chunk_loop extract_keywords now min_chunk_length doc
              doc_idx text_chunks i all_chunks counter))
    = (map Processor.chunk_index all_chunks
       ++ kept_positions min_chunk_length text_chunks i)%list.
Proof.
  induction text_chunks as [|chunk_text rest IH]; intros i all_chunks counter;
    cbn [Processor.chunk_loop kept_positions fst].
  - now rewrite app_nil_r.
  - destruct (min_chunk_length <=? Processor.len chunk_text)%Z.
    + rewrite IH, map_app, <- app_assoc. reflexivity.
    + apply IH.
Qed.

(** [n] times the word "word", separated by single spaces. *)
Fixpoint words (n : nat) : string :=
  match n with
  | O => EmptyString
  | S O => "word"
  | S k => String.append "word " (words k)
  end.

(** A page whose text opens with a two-letter sentence: "Hi. " and then
    180 words, 903 characters, nothing for [clean_text] to change. *)
Definition short_opening : Processor.document :=
  {| Processor.doc_content := Processor.Text (String.append "Hi. " (words 180));
     Processor.doc_url := Some "https://ottawa.ca/en/hi";
     Processor.doc_title := Some "Hi";
     Processor.doc_description := None;
     Processor.doc_source_file := Some "hi.json";
     Processor.doc_scraped_at := None |}.

(** What the splitter, set to 800 characters with an overlap of 100, makes
    of that text: the opening sentence alone, then 796 characters, then the
    last 204. *)
Definition split_short_opening (text : string) : list string + exn :=
  inl ["Hi"; String.append ". " (words 159); words 41].

Definition no_stats : Processor.stats :=
  {| Processor.documents_processed := 0; Processor.chunks_created := 0;
     Processor.total_characters := 0; Processor.processing_errors := 0 |}.

(** C8, at a failing input. With the default minimum length of 50 the
    two-character candidate at position 0 is discarded, and the two chunks
    kept for the document carry the ordinals 1 and 2: the sequence does not
    start at 0. *)
Theorem C8_chunk_index_skips_discarded :
  let chunks :=
    fst (Processor.create_chunks (fun text => text) split_short_opening
           (fun _ => []) "2026-01-01T00:00:00" 50 [short_opening] no_stats) in
  map Processor.content_length chunks = [796%Z; 204%Z]
  /\ map Processor.id chunks = ["chunk_000000"; "chunk_000001"]
  /\ Processor.indices_of "doc_000000" chunks = [1%Z; 2%Z].
Proof. vm_compute. repeat split. Qed.

(** ** The theorems at concrete inputs *)

Definition no_format (template query context : string) : string + exn :=
  inr (ValueError "unused").

Definition llm_backend_down : LLM.t :=
  LLM.init (fun _ => inl backend_down) (Some "gsk-key") None.

Lemma backend_down_always_raises : always_raises backend_down.
Proof. intros n prompt. eexists. reflexivity. Defined.

Lemma C5_fallback_witness :
  let query := "Where can I pay a PARKING ticket?" in
  let out :=
    LLM.generate_response no_format query "Source 1: Parking tickets." true
      None 3 llm_backend_down in
  fst out = Some (LLM._get_fallback_response query)
  /\ List.length (LLM.backend_calls (snd out)) = 3%nat
  /\ LLM.sleeps (snd out) = [1%Z; 2%Z].
Proof.
  intros query out.
  destruct (C5_fallback_after_exhausted_retries no_format backend_down query
              "Source 1: Parking tickets."
              (LLM._build_ottawa_prompt query "Source 1: Parking tickets.")
              true None 3 llm_backend_down eq_refl
              backend_down_always_raises eq_refl ltac:(lia))
    as (Hreply & Hcalls & Hsleeps & _).
  split; [exact Hreply|]. split; [|exact Hsleeps].
  fold out in Hcalls. rewrite Hcalls. reflexivity.
Defined.

Lemma C9_no_key_witness :
  LLM.client (LLM.init (fun _ => inl backend_down) None (Some EmptyString))
  = None.
Proof.
  exact (proj1 (C9_no_key_no_backend_call (fun _ => inl backend_down) None
                  (Some EmptyString) no_format "Is there a fire ban?"
                  "Source 1: Open air fires." true None 3 eq_refl eq_refl)).
Defined.






(** ** Further properties of the embedding cache *)

(** Two managers that agree on everything but the record of events. *)
Definition same_store (a b : Embeddings.t) : Prop :=
  Embeddings.model_name a = Embeddings.model_name b
  /\ Embeddings.cache_dir a = Embeddings.cache_dir b
  /\ Embeddings.disk a = Embeddings.disk b
  /\ Embeddings.disk_writable a = Embeddings.disk_writable b
  /\ Embeddings.embedding_dimension a = Embeddings.embedding_dimension b.

Lemma same_store_refl (a : Embeddings.t) : same_store a a.
Proof. repeat split. Qed.

Lemma encode_batches_same_store
    (encode : list string -> Embeddings.matrix + exn) (size : nat) :
  forall (fuel : nat) (texts : list string) (acc : list Embeddings.matrix)
         (self : Embeddings.t),
    same_store
      (snd (Embeddings.encode_batches encode fuel size texts acc self)) self.
Proof.
  induction fuel as [|fuel IH]; intros texts acc self;
    cbn [Embeddings.encode_batches].
  - destruct texts; apply same_store_refl.
  - destruct texts as [|t ts]; [apply same_store_refl|].
    destruct (encode (firstn size (t :: ts))) as [batch|e].
    + apply (IH (skipn size (t :: ts)) (acc ++ [batch])%list
               (Embeddings.log (Embeddings.Encode (firstn size (t :: ts))) self)).
    + cbn [snd]. repeat split.
Qed.

Lemma cache_path_same_model (sha256_hexdigest : string -> string)
    (dir : string) (texts : list string) (a b : Embeddings.t) :
  Embeddings.model_name a = Embeddings.model_name b ->
  Embeddings.cache_path sha256_hexdigest dir texts a
  = Embeddings.cache_path sha256_hexdigest dir texts b.
Proof.
  intros H. unfold Embeddings.cache_path, Embeddings._generate_cache_key,
    Embeddings.combined_text. now rewrite H.
Qed.

(** The state after a cache file was probed and loaded. *)
Definition after_load (path : string) (self : Embeddings.t) : Embeddings.t :=
  Embeddings.log (Embeddings.Load path)
    (Embeddings.log (Embeddings.Exists path) self).

Lemma load_hit (sha256_hexdigest : string -> string) (texts : list string)
    (self : Embeddings.t) (dir : string) (d : Embeddings.cache_data) :
  Embeddings.cache_dir self = Some dir ->
  Embeddings.disk self
    !! Embeddings.cache_path sha256_hexdigest dir texts self
  = Some (Embeddings.Pickled d) ->
  Embeddings.cd_model_name d = Some (Embeddings.model_name self) ->
  Embeddings.cd_text_count d = Some (Z.of_nat (List.length texts)) ->
  Embeddings._load_from_cache sha256_hexdigest texts self
  = (Embeddings.cd_embeddings d,
     after_load (Embeddings.cache_path sha256_hexdigest dir texts self) self).
Proof.
  intros Hdir Hfile Hname Hcount. unfold Embeddings._load_from_cache.
  rewrite Hdir, Hfile.
  apply opt_string_eqb_true in Hname. apply opt_Z_eqb_true in Hcount.
  now rewrite Hname, Hcount.
Qed.

Lemma load_some_inv (sha256_hexdigest : string -> string)
    (texts : list string) (self self1 : Embeddings.t)
    (m : Embeddings.matrix) :
  Embeddings._load_from_cache sha256_hexdigest texts self = (Some m, self1) ->
  exists dir d,
    Embeddings.cache_dir self = Some dir
    /\ Embeddings.disk self
         !! Embeddings.cache_path sha256_hexdigest dir texts self
       = Some (Embeddings.Pickled d)
    /\ Embeddings.cd_model_name d = Some (Embeddings.model_name self)
    /\ Embeddings.cd_text_count d = Some (Z.of_nat (List.length texts))
    /\ Embeddings.cd_embeddings d = Some m
    /\ self1
       = after_load (Embeddings.cache_path sha256_hexdigest dir texts self)
           self.
Proof.
  unfold Embeddings._load_from_cache.
  destruct (Embeddings.cache_dir self) as [dir|]; [|discriminate].
  destruct (Embeddings.disk self
              !! Embeddings.cache_path sha256_hexdigest dir texts self)
    as [[|d]|] eqn:Hfile; try discriminate.
  destruct (Embeddings.opt_string_eqb _ _) eqn:Hname; [|discriminate].
  destruct (Embeddings.opt_Z_eqb _ _) eqn:Hcount; [|discriminate].
  cbn [andb]. intros [= Hemb <-].
  apply opt_string_eqb_true in Hname. apply opt_Z_eqb_true in Hcount.
  exists dir, d. repeat split; auto.
Qed.

(** A batch whose entry is on disk is answered from the cache. *)
Lemma generate_embeddings_hit (sha256_hexdigest : string -> string)
    (encode : list string -> Embeddings.matrix + exn)
    (texts : list string) (self : Embeddings.t) (dir : string)
    (d : Embeddings.cache_data) (m : Embeddings.matrix) :
  texts <> [] ->
  Embeddings.cache_dir self = Some dir ->
  Embeddings.disk self
    !! Embeddings.cache_path sha256_hexdigest dir texts self
  = Some (Embeddings.Pickled d) ->
  Embeddings.cd_model_name d = Some (Embeddings.model_name self) ->
  Embeddings.cd_text_count d = Some (Z.of_nat (List.length texts)) ->
  Embeddings.cd_embeddings d = Some m ->
  Embeddings.generate_embeddings sha256_hexdigest encode texts true self
  = (inl m,
     after_load (Embeddings.cache_path sha256_hexdigest dir texts self) self).
Proof.
  intros Hne Hdir Hfile Hname Hcount Hemb.
  unfold Embeddings.generate_embeddings.
  destruct texts as [|t ts]; [congruence|].
  rewrite Hdir. cbn [andb].
  rewrite (load_hit _ _ _ _ _ Hdir Hfile Hname Hcount), Hemb. reflexivity.
Qed.

(** X1. Cache determinism. When a call of [generate_embeddings] on a
    non-empty batch succeeds with caching on and a writable disk, the next
    call on the same batch returns the same array from the cache: it probes
    and loads the cache file and neither encodes nor writes. *)
Theorem X1_second_call_served_from_cache
    (sha256_hexdigest : string -> string)
    (encode : list string -> Embeddings.matrix + exn)
    (texts : list string) (self self' : Embeddings.t) (dir : string)
    (embeddings : Embeddings.matrix) :
  texts <> [] ->
  Embeddings.cache_dir self = Some dir ->
  Embeddings.disk_writable self = true ->
  Embeddings.generate_embeddings sha256_hexdigest encode texts true self
  = (inl embeddings, self') ->
  Embeddings.generate_embeddings sha256_hexdigest encode texts true self'
  = (inl embeddings,
     after_load (Embeddings.cache_path sha256_hexdigest dir texts self)
       self').
Proof.
  intros Hne Hdir Hwritable Hfirst.
  unfold Embeddings.generate_embeddings in Hfirst.
  destruct texts as [|t ts] eqn:Htexts; [congruence|]. rewrite <- Htexts in *.
  rewrite Hdir in Hfirst. cbn [andb] in Hfirst.
  destruct (Embeddings._load_from_cache sha256_hexdigest texts self)
    as [[cached|] self1] eqn:Hload.
  - injection Hfirst as <- <-.
    destruct (load_some_inv _ _ _ _ _ Hload)
      as (dir' & d & Hdir' & Hfile & Hname & Hcount & Hemb & ->).
    assert (dir' = dir) as -> by congruence.
    rewrite (cache_path_same_model sha256_hexdigest dir texts self
               (after_load (Embeddings.cache_path sha256_hexdigest dir
                              texts self) self) eq_refl) at 2.
    apply (generate_embeddings_hit _ _ _ _ dir d); auto.
  - assert (Hstore1 : same_store self1 self).
    { unfold Embeddings._load_from_cache in Hload. rewrite Hdir in Hload.
      destruct (Embeddings.disk self !! _) as [[|d]|];
        [| destruct (_ && _) |]; inversion Hload; repeat split. }
    destruct (Embeddings.batch_size self =? 0)%Z; [discriminate|].
    destruct (Embeddings.batch_size self <? 0)%Z; [discriminate|].
    pose proof (encode_batches_same_store encode
                  (Z.to_nat (Embeddings.batch_size self))
                  (List.length texts) texts [] self1) as Hstore2.
    destruct (Embeddings.encode_batches encode (List.length texts)
                (Z.to_nat (Embeddings.batch_size self)) texts [] self1)
      as [[all_embeddings|e] self2]; [|discriminate].
    cbn [snd] in Hstore2.
    destruct (Embeddings.vstack all_embeddings) as [stacked|e];
      [|discriminate].
    injection Hfirst as <- <-.
    destruct Hstore2 as (Hm2 & Hd2 & Hk2 & Hw2 & He2).
    destruct Hstore1 as (Hm1 & Hd1 & Hk1 & Hw1 & He1).
    assert (Hdir2 : Embeddings.cache_dir self2 = Some dir) by congruence.
    assert (Hw : Embeddings.disk_writable self2 = true) by congruence.
    assert (Hpath : Embeddings.cache_path sha256_hexdigest dir texts self2
                    = Embeddings.cache_path sha256_hexdigest dir texts self)
      by (apply cache_path_same_model; congruence).
    unfold Embeddings._save_to_cache. rewrite Hdir2, Hw, Hpath.
    set (path := Embeddings.cache_path sha256_hexdigest dir texts self).
    set (saved := Embeddings.write_file path _ _).
    assert (Hpath' : Embeddings.cache_path sha256_hexdigest dir texts saved
                     = path)
      by (apply cache_path_same_model; subst saved; cbn; congruence).
    rewrite <- Hpath'.
    eapply (generate_embeddings_hit _ _ _ _ dir).
    + exact Hne.
    + subst saved. exact Hdir2.
    + rewrite Hpath'. subst saved.
      cbn [Embeddings.disk Embeddings.write_file Embeddings.log].
      apply lookup_insert_eq.
    + reflexivity.
    + reflexivity.
    + reflexivity.
Qed.

(** A manager with an empty cache directory and a model of two dimensions. *)
Definition fresh_manager : Embeddings.t :=
  {| Embeddings.model_name := "all-MiniLM-L6-v2";
     Embeddings.batch_size := 32;
     Embeddings.cache_dir := Some "cache";
     Embeddings.embedding_dimension := 2;
     Embeddings.disk := ∅;
     Embeddings.disk_writable := true;
     Embeddings.events := [] |}.

Definition encode_stub (batch : list string) : Embeddings.matrix + exn :=
  inl (map (fun _ => [1%float; 0%float]) batch).

Lemma X1_second_call_witness :
  let first :=
    Embeddings.generate_embeddings sha_stub encode_stub ["fee"] true
      fresh_manager in
  Embeddings.generate_embeddings sha_stub encode_stub ["fee"] true (snd first)
  = (inl [[1%float; 0%float]],
     after_load (Embeddings.cache_path sha_stub "cache" ["fee"] fresh_manager)
       (snd first)).
Proof.
  intros first.
  refine (X1_second_call_served_from_cache sha_stub encode_stub ["fee"]
            fresh_manager (snd first) "cache" [[1%float; 0%float]] _
            eq_refl eq_refl _).
  - discriminate.
  - reflexivity.
Defined.

(** ** Further properties of the retry loop *)

Lemma attempts_success (c : LLM.client_t) (query prompt : string)
    (max_retries : Z) (k : nat) (attempt : Z) (self : LLM.t) (text : string)
    (tokens : option Z) :
  c (List.length (LLM.backend_calls self)) prompt
  = LLM.Completion (Some text) tokens ->
  LLM.attempts c query prompt max_retries (S k) attempt self
  = (Some (Str.strip text),
     LLM._update_statistics tokens (LLM.record_call prompt self)).
Proof. intros H. cbn [LLM.attempts]. now rewrite H. Qed.

Lemma attempts_fail_then_succeed (c : LLM.client_t) (query prompt : string)
    (max_retries : Z) (text : string) (tokens : option Z) :
  forall (failures remaining : nat) (attempt : Z) (self : LLM.t),
    (failures < remaining)%nat ->
    (attempt + Z.of_nat remaining = max_retries)%Z ->
    (forall i, (i < failures)%nat ->
       exists e, c (List.length (LLM.backend_calls self) + i)%nat prompt
                 = LLM.Raises e) ->
    c (List.length (LLM.backend_calls self) + failures)%nat prompt
    = LLM.Completion (Some text) tokens ->
    LLM.attempts c query prompt max_retries remaining attempt self
    = (Some (Str.strip text),
       LLM._update_statistics tokens
         (llm_after (repeat prompt (S failures)) (backoff attempt failures)
            self)).
Proof.
  induction failures as [|k IH]; intros remaining attempt self Hlt Hsum Hfail Hok;
    (destruct remaining as [|r]; [lia|]).
  - rewrite Nat.add_0_r in Hok. rewrite (attempts_success _ _ _ _ _ _ _ _ _ Hok).
    do 2 f_equal. unfold llm_after, LLM.record_call. cbn [repeat backoff].
    now rewrite app_nil_r.
  - destruct (Hfail 0%nat ltac:(lia)) as [e He]. rewrite Nat.add_0_r in He.
    rewrite (attempts_raise _ _ _ _ _ _ _ _ He).
    replace (attempt =? max_retries - 1)%Z with false
      by (symmetry; apply Z.eqb_neq; lia).
    rewrite (IH r (attempt + 1)%Z
               (LLM.sleep (2 ^ attempt) (LLM.record_call prompt self))).
    + now rewrite llm_after_step.
    + lia.
    + lia.
    + intros i Hi. cbn [LLM.backend_calls LLM.sleep LLM.record_call].
      rewrite length_app. cbn [List.length].
      replace (List.length (LLM.backend_calls self) + 1 + i)%nat
        with (List.length (LLM.backend_calls self) + S i)%nat by lia.
      apply Hfail. lia.
    + cbn [LLM.backend_calls LLM.sleep LLM.record_call].
      rewrite length_app. cbn [List.length].
      replace (List.length (LLM.backend_calls self) + 1 + k)%nat
        with (List.length (LLM.backend_calls self) + S k)%nat by lia.
      exact Hok.
Qed.

(** X2. Retry until success. When the backend raises on the first
    [failures] calls and then returns a text, with [failures] below the
    retry bound, [generate_response] returns that text stripped, after
    [failures + 1] backend calls and a sleep of [2 ** attempt] seconds after
    each failed attempt; the request statistics are updated once. *)
Theorem X2_retry_until_success
    (str_format : string -> string -> string -> string + exn)
    (c : LLM.client_t) (query context prompt : string)
    (use_ottawa_prompt : bool) (custom_prompt : option string)
    (max_retries : Z) (self : LLM.t) (failures : nat) (text : string)
    (tokens : option Z) :
  LLM.client self = Some c ->
  LLM.build_prompt str_format query context use_ottawa_prompt custom_prompt
  = inl prompt ->
  (Z.of_nat failures < max_retries)%Z ->
  (forall i, (i < failures)%nat ->
     exists e, c (List.length (LLM.backend_calls self) + i)%nat prompt
               = LLM.Raises e) ->
  c (List.length (LLM.backend_calls self) + failures)%nat prompt
  = LLM.Completion (Some text) tokens ->
  let out :=
    LLM.generate_response str_format query context use_ottawa_prompt
      custom_prompt max_retries self in
  fst out = Some (Str.strip text)
  /\ LLM.backend_calls (snd out)
     = (LLM.backend_calls self ++ repeat prompt (S failures))%list
  /\ LLM.sleeps (snd out)
     = (LLM.sleeps self
        ++ map (fun k => (2 ^ Z.of_nat k)%Z) (seq 0 failures))%list
  /\ LLM.total_requests (snd out) = (LLM.total_requests self + 1)%Z.
Proof.
  intros Hclient Hprompt Hbound Hfail Hok out. subst out.
  unfold LLM.generate_response. rewrite Hclient, Hprompt.
  rewrite (attempts_fail_then_succeed c query prompt max_retries text tokens
             failures (Z.to_nat max_retries) 0%Z self); [|lia|lia|auto|auto].
  cbn [fst snd llm_after LLM._update_statistics LLM.backend_calls LLM.sleeps
       LLM.total_requests].
  rewrite backoff_powers. repeat split.
Qed.

(** A backend that is down for its first call and answers the second. *)
Definition backend_flaky : LLM.client_t :=
  fun n _ =>
    match n with
    | O => LLM.Raises (RuntimeError "429 Too Many Requests")
    | _ => LLM.Completion (Some " The fee is $145. ") (Some 42%Z)
    end.

Lemma X2_retry_witness :
  let out :=
    LLM.generate_response no_format "How much is a marriage license?"
      "Source 1: Marriage license fee is $145." true None 3
      (LLM.init (fun _ => inl backend_flaky) (Some "gsk-key") None) in
  fst out = Some "The fee is $145."
  /\ List.length (LLM.backend_calls (snd out)) = 2%nat
  /\ LLM.sleeps (snd out) = [1%Z].
Proof.
  intros out.
  destruct (X2_retry_until_success no_format backend_flaky
              "How much is a marriage license?"
              "Source 1: Marriage license fee is $145."
              (LLM._build_ottawa_prompt "How much is a marriage license?"
                 "Source 1: Marriage license fee is $145.")
              true None 3
              (LLM.init (fun _ => inl backend_flaky) (Some "gsk-key") None)
              1 " The fee is $145. " (Some 42%Z) eq_refl eq_refl
              ltac:(lia)
              ltac:(intros [|i] Hi; [eexists; reflexivity | lia])
              eq_refl)
    as (Hreply & Hcalls & Hsleeps & _).
  split; [exact Hreply|]. split; [|exact Hsleeps].
  fold out in Hcalls. rewrite Hcalls. reflexivity.
Defined.

(** ** Further properties of the data processor and of the search *)

Lemma X4_search_witness :
  Pipeline.search_relevant_context unit (fun _ => inl tt)
    (fun _ _ => [scored "a" (5 # 100); scored "b" (3 # 10)]) "fee" 5
    (1 # 10) pipeline_backend_down
  = List.filter (keeps (1 # 10)) [scored "a" (5 # 100); scored "b" (3 # 10)].
Proof.
  exact (X4_search_keeps_results_at_or_above_threshold unit (fun _ => inl tt)
           (fun _ _ => [scored "a" (5 # 100); scored "b" (3 # 10)]) "fee" 5
           (1 # 10) pipeline_backend_down tt eq_refl eq_refl).
Defined.

(** ** Further properties of [create_chunks] *)

Section ChunkInvariants.

Variable scrub : string -> string.
Variable split_text : string -> list string + exn.
Variable extract_keywords : string -> list string.
Variable now : string.
Variable min_chunk_length : Z.

Lemma chunk_loop_Forall (P : Processor.chunk -> Prop)
    (doc : Processor.document) (doc_idx : nat) :
  forall (rest : list string) (i : nat) (acc : list Processor.chunk)
         (counter : nat),
    Forall P acc ->
    (forall j t counter',
       nth_error rest j = Some t ->
       (min_chunk_length <= Processor.len t)%Z ->
       P (Processor.make_chunk extract_keywords now doc doc_idx counter'
            (i + j) t)) ->
    Forall P
      (fst (Processor.chunk_loop extract_keywords now min_chunk_length doc
              doc_idx rest i acc counter)).
Proof.
  induction rest as [|t rest IH]; intros i acc counter Hacc Hnew;
    cbn [Processor.chunk_loop]; [exact Hacc|].
  assert (Hrest : forall j t' counter',
            nth_error rest j = Some t' ->
            (min_chunk_length <= Processor.len t')%Z ->
            P (Processor.make_chunk extract_keywords now doc doc_idx counter'
                 (S i + j) t')).
  { intros j t' counter' Hj Hlen.
    replace (S i + j)%nat with (i + S j)%nat by lia. now apply Hnew. }
  destruct (min_chunk_length <=? Processor.len t)%Z eqn:Hlen.
  - apply IH; [|exact Hrest]. apply Forall_app. split; [exact Hacc|].
    constructor; [|constructor].
    replace i with (i + 0)%nat at 1 by lia.
    apply Hnew; [reflexivity | now apply Z.leb_le].
  - now apply IH.
Qed.

Lemma document_loop_Forall (P : Processor.chunk -> Prop) :
  forall (documents : list Processor.document) (doc_idx : nat)
         (acc : list Processor.chunk) (counter : nat) (s : Processor.stats),
    Forall P acc ->
    (forall j doc text_chunks i t counter',
       nth_error documents j = Some doc ->
       split_text (Processor.clean_text scrub (Processor.doc_content doc))
       = inl text_chunks ->
       nth_error text_chunks i = Some t ->
       (min_chunk_length <= Processor.len t)%Z ->
       P (Processor.make_chunk extract_keywords now doc (doc_idx + j)
            counter' i t)) ->
    Forall P
      (fst (Processor.document_loop scrub split_text extract_keywords now
              min_chunk_length documents doc_idx acc counter s)).
Proof.
  induction documents as [|doc rest IH]; intros doc_idx acc counter s Hacc Hnew;
    cbn [Processor.document_loop]; [exact Hacc|].
  assert (Hrest : forall j doc' text_chunks i t counter',
            nth_error rest j = Some doc' ->
            split_text (Processor.clean_text scrub (Processor.doc_content doc'))
            = inl text_chunks ->
            nth_error text_chunks i = Some t ->
            (min_chunk_length <= Processor.len t)%Z ->
            P (Processor.make_chunk extract_keywords now doc' (S doc_idx + j)
                 counter' i t)).
  { intros j doc' text_chunks i t counter' Hj.
    replace (S doc_idx + j)%nat with (doc_idx + S j)%nat by lia.
    now apply Hnew. }
  assert (Hsplit : forall c,
            Processor.doc_content doc = c ->
            Forall P
              (fst (if (Processor.len (Processor.clean_text scrub c)
                        <? min_chunk_length)%Z
                    then Processor.document_loop scrub split_text
                           extract_keywords now min_chunk_length rest
                           (S doc_idx) acc counter s
                    else
                      match split_text (Processor.clean_text scrub c) with
                      | inr _ =>
                          Processor.document_loop scrub split_text
                            extract_keywords now min_chunk_length rest
                            (S doc_idx) acc counter (Processor.count_error s)
                      | inl text_chunks =>
                          let '(chunks', counter') :=
                            Processor.chunk_loop extract_keywords now
                              min_chunk_length doc doc_idx text_chunks 0 acc
                              counter in
                          Processor.document_loop scrub split_text
                            extract_keywords now min_chunk_length rest
                            (S doc_idx) chunks' counter'
                            (Processor.count_document s)
                      end))).
  { intros c Hc.
    destruct (Processor.len (Processor.clean_text scrub c) <? min_chunk_length)%Z;
      [now apply IH|].
    destruct (split_text (Processor.clean_text scrub c)) as [text_chunks|e]
      eqn:Hsp; [|now apply IH].
    pose proof (chunk_loop_Forall P doc doc_idx text_chunks 0 acc counter
                  Hacc) as Hloop.
    destruct (Processor.chunk_loop extract_keywords now min_chunk_length doc
                doc_idx text_chunks 0 acc counter) as [chunks' counter'].
    apply IH; [|exact Hrest]. apply Hloop.
    intros j t counter'' Hj Hlen. cbn [Nat.add].
    replace doc_idx with (doc_idx + 0)%nat by lia.
    apply (Hnew 0%nat doc text_chunks j t counter''); auto.
    now rewrite Hc. }
  destruct (Processor.doc_content doc) as [| |text] eqn:Hc.
  - now apply IH.
  - now apply (Hsplit Processor.NotText).
  - now apply (Hsplit (Processor.Text text)).
Qed.

(** X5. Every chunk returned by [create_chunks] is one candidate of the
    splitter for one of the documents: its content is the candidate at the
    position recorded as [chunk_index], it carries the document's ordinal
    and the document's url, title, description and source file, and its
    recorded length is the length of its content, at least the minimum. *)
Theorem X5_chunks_are_long_enough_candidates
    (documents : list Processor.document) (s : Processor.stats) :
  Forall
    (fun c =>
       Processor.content_length c = Processor.len (Processor.content c)
       /\ (min_chunk_length <= Processor.content_length c)%Z
       /\ exists doc_idx doc text_chunks i,
            nth_error documents doc_idx = Some doc
            /\ split_text
                 (Processor.clean_text scrub (Processor.doc_content doc))
               = inl text_chunks
            /\ nth_error text_chunks i = Some (Processor.content c)
            /\ Processor.chunk_index c = Z.of_nat i
            /\ Processor.document_id c
               = String.append "doc_" (Processor.fmt06d doc_idx)
            /\ Processor.url c = Processor.get_or_empty (Processor.doc_url doc)
            /\ Processor.title c
               = Processor.get_or_empty (Processor.doc_title doc)
            /\ Processor.description c
               = Processor.get_or_empty (Processor.doc_description doc)
            /\ Processor.source_file c
               = Processor.get_or_empty (Processor.doc_source_file doc))
    (fst (Processor.create_chunks scrub split_text extract_keywords now
            min_chunk_length documents s)).
Proof.
  unfold Processor.create_chunks.
  pose proof (document_loop_Forall
                (fun c =>
                   Processor.content_length c
                   = Processor.len (Processor.content c)
                   /\ (min_chunk_length <= Processor.content_length c)%Z
                   /\ exists doc_idx doc text_chunks i,
                        nth_error documents doc_idx = Some doc
                        /\ split_text
                             (Processor.clean_text scrub
                                (Processor.doc_content doc))
                           = inl text_chunks
                        /\ nth_error text_chunks i
                           = Some (Processor.content c)
                        /\ Processor.chunk_index c = Z.of_nat i
                        /\ Processor.document_id c
                           = String.append "doc_" (Processor.fmt06d doc_idx)
                        /\ Processor.url c
                           = Processor.get_or_empty (Processor.doc_url doc)
                        /\ Processor.title c
                           = Processor.get_or_empty (Processor.doc_title doc)
                        /\ Processor.description c
                           = Processor.get_or_empty
                               (Processor.doc_description doc)
                        /\ Processor.source_file c
                           = Processor.get_or_empty
                               (Processor.doc_source_file doc))
                documents 0 [] 0 s (List.Forall_nil _)) as H.
  destruct (Processor.document_loop scrub split_text extract_keywords now
              min_chunk_length documents 0 [] 0 s) as [all_chunks s'].
  cbn [fst] in *. apply H.
  intros j doc text_chunks i t counter' Hj Hsplit Hi Hlen. cbn [Nat.add].
  split; [reflexivity|]. split; [exact Hlen|].
  exists j, doc, text_chunks, i. repeat split; auto.
Qed.

End ChunkInvariants.

(** *** Chunk identifiers *)

(** [f"chunk_{k:06d}"] and its inverse: the number after the prefix. *)
Definition chunk_id (k : nat) : string :=
  String.append "chunk_" (Processor.fmt06d k).

Fixpoint drop (n : nat) (s : string) : string :=
  match n, s with
  | S k, String _ s' => drop k s'
  | _, _ => s
  end.

Definition id_number (s : string) : option nat :=
  if String.prefix "chunk_" s
  then option_map Nat.of_uint (NilEmpty.uint_of_string (drop 6 s))
  else None.

Lemma uint_of_zeros (n : nat) (s : string) (d : Decimal.uint) :
  NilEmpty.uint_of_string s = Some d ->
  exists d', NilEmpty.uint_of_string (String.append (Processor.zeros n) s)
             = Some d'
             /\ Nat.of_uint d' = Nat.of_uint d.
Proof.
  intros Hs. induction n as [|n [d' [Hd' Hof]]]; [now exists d|].
  exists (Decimal.D0 d'). cbn [Processor.zeros]. rewrite append_cons.
  cbn [NilEmpty.uint_of_string]. rewrite Hd'. split; [reflexivity|].
  rewrite <- Hof. reflexivity.
Qed.

Lemma to_uint_not_nil (k : nat) : Nat.to_uint k <> Decimal.Nil.
Proof.
  intros H. pose proof (DecimalNat.Unsigned.of_to k) as Hk.
  rewrite H in Hk. cbn in Hk. subst k. discriminate.
Qed.

Lemma id_number_chunk_id (k : nat) : id_number (chunk_id k) = Some k.
Proof.
  unfold id_number, chunk_id.
  replace (String.prefix "chunk_"
             (String.append "chunk_" (Processor.fmt06d k))) with true
    by (symmetry; apply prefix_true_iff; now eexists).
  change (drop 6 (String.append "chunk_" (Processor.fmt06d k)))
    with (Processor.fmt06d k).
  unfold Processor.fmt06d, NilZero.string_of_uint.
  destruct (Nat.to_uint k) as [|d|d|d|d|d|d|d|d|d|d] eqn:Hk;
    [now apply to_uint_not_nil in Hk|..];
    rewrite <- Hk;
    (destruct (uint_of_zeros
                 (6 - String.length (NilEmpty.string_of_uint (Nat.to_uint k)))
                 _ _ (NilEmpty.usu (Nat.to_uint k))) as [d' [-> Hof]]);
    cbn [option_map]; now rewrite Hof, DecimalNat.Unsigned.of_to.
Qed.

Lemma chunk_id_inj (j k : nat) : chunk_id j = chunk_id k -> j = k.
Proof.
  intros H. apply (f_equal id_number) in H.
  rewrite !id_number_chunk_id in H. congruence.
Qed.

Section ChunkIds.

Variable scrub : string -> string.
Variable split_text : string -> list string + exn.
Variable extract_keywords : string -> list string.
Variable now : string.
Variable min_chunk_length : Z.

(** The chunks so far are numbered in their order, and the counter is
    their number. *)
Definition numbered (chunks : list Processor.chunk) (counter : nat) : Prop :=
  counter = List.length chunks
  /\ forall k c, nth_error chunks k = Some c -> Processor.id c = chunk_id k.

Lemma numbered_snoc (chunks : list Processor.chunk) (counter : nat)
    (c : Processor.chunk) :
  numbered chunks counter ->
  Processor.id c = chunk_id counter ->
  numbered (chunks ++ [c]) (S counter).
Proof.
  intros [-> Hids] Hc. split.
  - rewrite length_app. cbn. lia.
  - intros k c' Hk.
    destruct (Nat.lt_ge_cases k (List.length chunks)) as [Hlt | Hge].
    + rewrite nth_error_app1 in Hk by exact Hlt. now apply Hids.
    + rewrite nth_error_app2 in Hk by exact Hge.
      destruct (k - List.length chunks)%nat as [|m] eqn:Hm.
      * injection Hk as <-. rewrite Hc. f_equal. lia.
      * destruct m; discriminate.
Qed.

Lemma chunk_loop_numbered (doc : Processor.document) (doc_idx : nat) :
  forall (rest : list string) (i : nat) (acc : list Processor.chunk)
         (counter : nat),
    numbered acc counter ->
    numbered
      (fst (Processor.chunk_loop extract_keywords now min_chunk_length doc
              doc_idx rest i acc counter))
      (snd (Processor.chunk_loop extract_keywords now min_chunk_length doc
              doc_idx rest i acc counter)).
Proof.
  induction rest as [|t rest IH]; intros i acc counter Hacc;
    cbn [Processor.chunk_loop]; [exact Hacc|].
  destruct (min_chunk_length <=? Processor.len t)%Z; [|now apply IH].
  apply IH. now apply numbered_snoc.
Qed.

Lemma document_loop_numbered :
  forall (documents : list Processor.document) (doc_idx : nat)
         (acc : list Processor.chunk) (counter : nat) (s : Processor.stats),
    numbered acc counter ->
    exists counter',
      numbered
        (fst (Processor.document_loop scrub split_text extract_keywords now
                min_chunk_length documents doc_idx acc counter s))
        counter'.
Proof.
  induction documents as [|doc rest IH]; intros doc_idx acc counter s Hacc;
    cbn [Processor.document_loop]; [now exists counter|].
  assert (Hsplit : forall c,
            exists counter',
              numbered
                (fst (if (Processor.len (Processor.clean_text scrub c)
                          <? min_chunk_length)%Z
                      then Processor.document_loop scrub split_text
                             extract_keywords now min_chunk_length rest
                             (S doc_idx) acc counter s
                      else
                        match split_text (Processor.clean_text scrub c) with
                        | inr _ =>
                            Processor.document_loop scrub split_text
                              extract_keywords now min_chunk_length rest
                              (S doc_idx) acc counter
                              (Processor.count_error s)
                        | inl text_chunks =>
                            let '(chunks', counter') :=
                              Processor.chunk_loop extract_keywords now
                                min_chunk_length doc doc_idx text_chunks 0
                                acc counter in
                            Processor.document_loop scrub split_text
                              extract_keywords now min_chunk_length rest
                              (S doc_idx) chunks' counter'
                              (Processor.count_document s)
                        end)) counter').
  { intros c.
    destruct (Processor.len (Processor.clean_text scrub c) <? min_chunk_length)%Z;
      [now apply IH|].
    destruct (split_text (Processor.clean_text scrub c)) as [text_chunks|e];
      [|now apply IH].
    pose proof (chunk_loop_numbered doc doc_idx text_chunks 0 acc counter
                  Hacc) as Hloop.
    destruct (Processor.chunk_loop extract_keywords now min_chunk_length doc
                doc_idx text_chunks 0 acc counter) as [chunks' counter'].
    now apply IH. }
  destruct (Processor.doc_content doc) as [| |text].
  - now apply IH.
  - apply (Hsplit Processor.NotText).
  - apply (Hsplit (Processor.Text text)).
Qed.

(** X6. The chunks returned by [create_chunks] are numbered in their
    order across all documents: the chunk at position [k] has the id
    [chunk_] followed by [k] on six digits, from which [k] is read back, so
    that no two chunks share an id. *)
Theorem X6_chunk_ids_number_the_chunks
    (documents : list Processor.document) (s : Processor.stats) :
  let chunks :=
    fst (Processor.create_chunks scrub split_text extract_keywords now
           min_chunk_length documents s) in
  (forall k c, nth_error chunks k = Some c ->
     Processor.id c = chunk_id k /\ id_number (Processor.id c) = Some k)
  /\ List.NoDup (map Processor.id chunks).
Proof.
  intros chunks.
  assert (Hids : forall k c, nth_error chunks k = Some c ->
                             Processor.id c = chunk_id k).
  { subst chunks. unfold Processor.create_chunks.
    destruct (document_loop_numbered documents 0 [] 0 s) as [counter' [_ H]].
    - split; [reflexivity|]. intros [|k] c; discriminate.
    - destruct (Processor.document_loop scrub split_text extract_keywords now
                  min_chunk_length documents 0 [] 0 s). exact H. }
  split.
  - intros k c Hk. rewrite (Hids k c Hk). split; [reflexivity|].
    apply id_number_chunk_id.
  - apply List.NoDup_nth_error. intros i j Hi Heq.
    rewrite length_map in Hi.
    destruct (nth_error chunks i) as [ci|] eqn:Hci;
      [|apply nth_error_None in Hci; lia].
    rewrite (nth_error_map Processor.id i), Hci in Heq. cbn in Heq.
    destruct (nth_error chunks j) as [cj|] eqn:Hcj.
    + rewrite (nth_error_map Processor.id j), Hcj in Heq. cbn in Heq.
      injection Heq as Heq.
      rewrite (Hids i ci Hci), (Hids j cj Hcj) in Heq.
      now apply chunk_id_inj.
    + rewrite (nth_error_map Processor.id j), Hcj in Heq. discriminate.
Qed.

End ChunkIds.

(** *** What becomes of each document *)

(** A document is split into candidates, skipped for being too short, or
    fails (no content key, or the splitter raises). *)
Inductive fate : Type :=
| Split (text_chunks : list string)
| Skipped
| Failed.

Section Fates.

Variable scrub : string -> string.
Variable split_text : string -> list string + exn.
Variable extract_keywords : string -> list string.
Variable now : string.
Variable min_chunk_length : Z.

Definition fate_of (doc : Processor.document) : fate :=
  match Processor.doc_content doc with
  | Processor.Absent => Failed
  | c =>
      if (Processor.len (Processor.clean_text scrub c) <? min_chunk_length)%Z
      then Skipped
      else
        match split_text (Processor.clean_text scrub c) with
        | inl text_chunks => Split text_chunks
        | inr _ => Failed
        end
  end.

Definition long_enough (t : string) : bool :=
  (min_chunk_length <=? Processor.len t)%Z.

Definition kept (f : fate) : list string :=
  match f with
  | Split text_chunks => List.filter long_enough text_chunks
  | Skipped | Failed => []
  end.

Definition is_split (f : fate) : bool :=
  match f with Split _ => true | _ => false end.

Definition is_failed (f : fate) : bool :=
  match f with Failed => true | _ => false end.

Lemma document_loop_cons (doc : Processor.document)
    (rest : list Processor.document) (doc_idx : nat)
    (acc : list Processor.chunk) (counter : nat) (s : Processor.stats) :
  Processor.document_loop scrub split_text extract_keywords now
    min_chunk_length (doc :: rest) doc_idx acc counter s
  = match fate_of doc with
    | Failed =>
        Processor.document_loop scrub split_text extract_keywords now
          min_chunk_length rest (S doc_idx) acc counter
          (Processor.count_error s)
    | Skipped =>
        Processor.document_loop scrub split_text extract_keywords now
          min_chunk_length rest (S doc_idx) acc counter s
    | Split text_chunks =>
        Processor.document_loop scrub split_text extract_keywords now
          min_chunk_length rest (S doc_idx)
          (fst (Processor.chunk_loop extract_keywords now min_chunk_length
                  doc doc_idx text_chunks 0 acc counter))
          (snd (Processor.chunk_loop extract_keywords now min_chunk_length
                  doc doc_idx text_chunks 0 acc counter))
          (Processor.count_document s)
    end.
Proof.
  cbn [Processor.document_loop]. unfold fate_of.
  destruct (Processor.doc_content doc) as [| |text]; [reflexivity| |];
    (destruct (_ <? _)%Z; [reflexivity|]);
    (destruct (split_text _); [|reflexivity]);
    now destruct (Processor.chunk_loop _ _ _ _ _ _ _ _ _).
Qed.

Lemma chunk_loop_contents (doc : Processor.document) (doc_idx : nat) :
  forall (rest : list string) (i : nat) (acc : list Processor.chunk)
         (counter : nat),
    map Processor.content
      (fst (Processor.chunk_loop extract_keywords now min_chunk_length doc
              doc_idx rest i acc counter))
    = (map Processor.content acc ++ List.filter long_enough rest)%list.
Proof.
  induction rest as [|t rest IH]; intros i acc counter;
    cbn [Processor.chunk_loop List.filter].
  - now rewrite app_nil_r.
  - change (min_chunk_length <=? Processor.len t)%Z with (long_enough t).
    destruct (long_enough t); [|apply IH].
    rewrite IH, map_app, <- app_assoc. reflexivity.
Qed.

Lemma document_loop_contents :
  forall (documents : list Processor.document) (doc_idx : nat)
         (acc : list Processor.chunk) (counter : nat) (s : Processor.stats),
    map Processor.content
      (fst (Processor.document_loop scrub split_text extract_keywords now
              min_chunk_length documents doc_idx acc counter s))
    = (map Processor.content acc
       ++ flat_map (fun doc => kept (fate_of doc)) documents)%list.
Proof.
  induction documents as [|doc rest IH]; intros doc_idx acc counter s.
  - cbn. now rewrite app_nil_r.
  - rewrite document_loop_cons. cbn [flat_map].
    destruct (fate_of doc) as [text_chunks| |]; rewrite IH; cbn [kept];
      [|reflexivity|reflexivity].
    rewrite chunk_loop_contents, <- app_assoc. reflexivity.
Qed.

(** X7. Nothing is lost, repeated or reordered: the contents of the chunks
    returned by [create_chunks] are, document after document, the
    candidates of at least the minimum length of every document that was
    split; a document without content, too short once cleaned, or on which
    the splitter raises, contributes nothing. *)
Theorem X7_chunks_are_the_kept_candidates
    (documents : list Processor.document) (s : Processor.stats) :
  map Processor.content
    (fst (Processor.create_chunks scrub split_text extract_keywords now
            min_chunk_length documents s))
  = flat_map (fun doc => kept (fate_of doc)) documents.
Proof.
  unfold Processor.create_chunks.
  pose proof (document_loop_contents documents 0 [] 0 s) as H.
  destruct (Processor.document_loop scrub split_text extract_keywords now
              min_chunk_length documents 0 [] 0 s).
  exact H.
Qed.

Definition count (p : fate -> bool) (documents : list Processor.document)
    : Z :=
  Z.of_nat (List.length (List.filter (fun doc => p (fate_of doc)) documents)).

Lemma document_loop_stats :
  forall (documents : list Processor.document) (doc_idx : nat)
         (acc : list Processor.chunk) (counter : nat) (s : Processor.stats),
    let s' :=
      snd (Processor.document_loop scrub split_text extract_keywords now
             min_chunk_length documents doc_idx acc counter s) in
    Processor.documents_processed s'
    = (Processor.documents_processed s + count is_split documents)%Z
    /\ Processor.processing_errors s'
       = (Processor.processing_errors s + count is_failed documents)%Z.
Proof.
  unfold count.
  induction documents as [|doc rest IH]; intros doc_idx acc counter s.
  - cbn. lia.
  - rewrite document_loop_cons. cbn [List.filter].
    destruct (fate_of doc) as [text_chunks| |]; cbn [is_split is_failed].
    + destruct (IH (S doc_idx)
                  (fst (Processor.chunk_loop extract_keywords now
                          min_chunk_length doc doc_idx text_chunks 0 acc
                          counter))
                  (snd (Processor.chunk_loop extract_keywords now
                          min_chunk_length doc doc_idx text_chunks 0 acc
                          counter))
                  (Processor.count_document s)) as [-> ->].
      cbn [Processor.count_document Processor.documents_processed
           Processor.processing_errors List.length]. lia.
    + apply IH.
    + destruct (IH (S doc_idx) acc counter (Processor.count_error s))
        as [-> ->].
      cbn [Processor.count_error Processor.documents_processed
           Processor.processing_errors List.length]. lia.
Qed.

Lemma fold_left_Zadd (xs : list Z) (acc : Z) :
  fold_left Z.add xs acc = (acc + fold_right Z.add 0 xs)%Z.
Proof.
  revert acc. induction xs as [|x xs IH]; intros acc; cbn; [lia|].
  rewrite IH. lia.
Qed.

(** X8. After [create_chunks] the counter of processed documents has grown
    by the number of documents that were split and the counter of errors by
    the number of documents without content or on which the splitter
    raised (a document too short once cleaned moves neither); the number of
    chunks and the total of characters are those of the chunks returned,
    whatever they were before. *)
Theorem X8_processing_stats_account_for_documents
    (documents : list Processor.document) (s : Processor.stats) :
  let out :=
    Processor.create_chunks scrub split_text extract_keywords now
      min_chunk_length documents s in
  Processor.documents_processed (snd out)
  = (Processor.documents_processed s + count is_split documents)%Z
  /\ Processor.processing_errors (snd out)
     = (Processor.processing_errors s + count is_failed documents)%Z
  /\ Processor.chunks_created (snd out) = Z.of_nat (List.length (fst out))
  /\ Processor.total_characters (snd out)
     = fold_right Z.add 0%Z
         (map (fun c => Processor.len (Processor.content c)) (fst out))
  /\ (count is_split documents + count is_failed documents
      <= Z.of_nat (List.length documents))%Z.
Proof.
  intros out. subst out. unfold Processor.create_chunks.
  pose proof (document_loop_stats documents 0 [] 0 s) as Hstats.
  pose proof (document_loop_Forall scrub split_text extract_keywords now
                min_chunk_length
                (fun c => Processor.content_length c
                          = Processor.len (Processor.content c))
                documents 0 [] 0 s (List.Forall_nil _)) as Hlen.
  destruct (Processor.document_loop scrub split_text extract_keywords now
              min_chunk_length documents 0 [] 0 s) as [all_chunks s'].
  cbn [fst snd] in *. destruct Hstats as [Hp He].
  cbn [Processor.documents_processed Processor.processing_errors
       Processor.chunks_created Processor.total_characters].
  split; [exact Hp|]. split; [exact He|]. split; [reflexivity|]. split.
  - rewrite fold_left_Zadd, Z.add_0_l. f_equal.
    apply map_ext_Forall. apply Hlen. reflexivity.
  - unfold count. clear.
    induction documents as [|doc rest IH]; cbn [List.filter List.length];
      [lia|].
    destruct (fate_of doc); cbn [is_split is_failed List.length]; lia.
Qed.

End Fates.

(** ** The vector store *)

Lemma slice_block {A : Type} (i size : nat) (xs : list A) :
  VectorStore.slice i (Nat.min (i + size) (List.length xs)) xs
  = firstn size (skipn i xs).
Proof.
  unfold VectorStore.slice.
  destruct (Nat.le_gt_cases (i + size) (List.length xs)) as [Hle | Hgt].
  - rewrite Nat.min_l by exact Hle. f_equal. lia.
  - rewrite Nat.min_r by lia.
    rewrite !firstn_all2; [reflexivity | |]; rewrite length_skipn; lia.
Qed.

Lemma firstn_block {A : Type} (k size : nat) (xs : list A) :
  (firstn size xs ++ firstn (k * size) (skipn size xs))%list
  = firstn (S k * size) xs.
Proof.
  replace (S k * size)%nat with (size + k * size)%nat by lia.
  apply take_take_drop.
Qed.

Lemma div_up_last (a size : nat) :
  (1 <= a)%nat -> (a <= size)%nat -> ((a + size - 1) / size = 1)%nat.
Proof.
  intros Ha Hs. symmetry. apply (Nat.div_unique _ _ 1 (a - 1)); lia.
Qed.

Lemma div_up_step (a size : nat) :
  (1 <= size)%nat -> (size < a)%nat ->
  ((a + size - 1) / size = S ((a - size + size - 1) / size))%nat.
Proof.
  intros Hs Ha.
  replace (a + size - 1)%nat with ((a - 1) + 1 * size)%nat by lia.
  rewrite Nat.div_add by lia.
  replace (a - size + size - 1)%nat with (a - 1)%nat by lia. lia.
Qed.

Section StoreProofs.

Variable vector : Type.
Variable where_t : Type.
Variable meta : Type.
Variable col_meta : Type.
Variable source_ottawa : meta.
Variable ottawa_description : col_meta.
Variable chroma :
  list (VectorStore.request vector where_t meta col_meta) ->
  VectorStore.request vector where_t meta col_meta -> VectorStore.reply.

Local Abbreviation store := (VectorStore.t vector where_t meta col_meta).
Local Abbreviation batch := (VectorStore.batch meta).
Local Abbreviation AddBatch :=
  (@VectorStore.AddBatch vector where_t meta col_meta).
Local Abbreviation b_ids := (@VectorStore.b_ids meta).
Local Abbreviation b_documents := (@VectorStore.b_documents meta).
Local Abbreviation b_embeddings := (@VectorStore.b_embeddings meta).
Local Abbreviation b_metadatas := (@VectorStore.b_metadatas meta).

(** A batch holds between one and [size] records, as many of each kind. *)
Definition batch_ok (size : nat) (b : batch) : Prop :=
  (1 <= List.length (VectorStore.b_ids b) <= size)%nat
  /\ List.length (VectorStore.b_documents b)
     = List.length (VectorStore.b_ids b)
  /\ List.length (VectorStore.b_embeddings b)
     = List.length (VectorStore.b_ids b)
  /\ List.length (VectorStore.b_metadatas b)
     = List.length (VectorStore.b_ids b).

(** The record block of [size] records from index [i] on. *)
Definition block (size i : nat) (ids documents : list string)
    (embeddings : Embeddings.matrix) (metadatas : list meta) : batch :=
  {| VectorStore.b_ids := firstn size (skipn i ids);
     VectorStore.b_documents := firstn size (skipn i documents);
     VectorStore.b_embeddings := firstn size (skipn i embeddings);
     VectorStore.b_metadatas := firstn size (skipn i metadatas) |}.

Lemma add_batches_done (fuel : nat) (name : string) (size i : nat)
    (ids documents : list string) (embeddings : Embeddings.matrix)
    (metadatas : list meta) (self : store) :
  (List.length documents <= i)%nat ->
  VectorStore.add_batches chroma fuel name size i ids documents embeddings
    metadatas self
  = (true, self).
Proof.
  intros Hdone. destruct fuel; cbn [VectorStore.add_batches]; [reflexivity|].
  now replace (List.length documents <=? i)%nat with true
    by (symmetry; now apply Nat.leb_le).
Qed.

Lemma add_batches_step (fuel : nat) (name : string) (size i : nat)
    (ids documents : list string) (embeddings : Embeddings.matrix)
    (metadatas : list meta) (self : store) :
  List.length ids = List.length documents ->
  List.length embeddings = List.length documents ->
  List.length metadatas = List.length documents ->
  (i < List.length documents)%nat ->
  VectorStore.add_batches chroma (S fuel) name size i ids documents
    embeddings metadatas self
  = let add :=
      AddBatch name (block size i ids documents embeddings metadatas) in
    if VectorStore.raised (chroma (VectorStore.requests self) add)
    then (false, VectorStore.send add self)
    else VectorStore.add_batches chroma fuel name size (i + size) ids
           documents embeddings metadatas (VectorStore.send add self).
Proof.
  intros Hids Hembs Hmetas Hi. cbn [VectorStore.add_batches].
  replace (List.length documents <=? i)%nat with false
    by (symmetry; now apply Nat.leb_gt).
  unfold block.
  rewrite <- (slice_block i size documents).
  rewrite <- (slice_block i size ids), Hids.
  rewrite <- (slice_block i size embeddings), Hembs.
  rewrite <- (slice_block i size metadatas), Hmetas.
  reflexivity.
Qed.

(** What the batch loop does, for any behaviour of ChromaDB: the batches
    sent are the successive blocks of [size] records; the loop stops at the
    first that raises and otherwise sends them all. *)
Lemma add_batches_blocks (name : string) (size : nat)
    (ids documents : list string) (embeddings : Embeddings.matrix)
    (metadatas : list meta) :
  (1 <= size)%nat ->
  List.length ids = List.length documents ->
  List.length embeddings = List.length documents ->
  List.length metadatas = List.length documents ->
  forall (fuel i : nat) (self : store),
    (List.length documents - i <= fuel)%nat ->
    exists batches : list batch,
      let out :=
        VectorStore.add_batches chroma fuel name size i ids documents
          embeddings metadatas self in
      let k := List.length batches in
      VectorStore.requests (snd out)
      = (VectorStore.requests self ++ map (AddBatch name) batches)%list
      /\ VectorStore.current_collection (snd out)
         = VectorStore.current_collection self
      /\ concat (map b_ids batches)
         = firstn (k * size) (skipn i ids)
      /\ concat (map b_documents batches)
         = firstn (k * size) (skipn i documents)
      /\ concat (map b_embeddings batches)
         = firstn (k * size) (skipn i embeddings)
      /\ concat (map b_metadatas batches)
         = firstn (k * size) (skipn i metadatas)
      /\ Forall (batch_ok size) batches
      /\ (fst out = true ->
          k = ((List.length documents - i + size - 1) / size)%nat
          /\ forall earlier b later,
               batches = (earlier ++ b :: later)%list ->
               VectorStore.raised
                 (chroma (VectorStore.requests self
                          ++ map (AddBatch name) earlier)%list
                    (AddBatch name b)) = false)
      /\ (fst out = false ->
          exists earlier b,
            batches = (earlier ++ [b])%list
            /\ VectorStore.raised
                 (chroma (VectorStore.requests self
                          ++ map (AddBatch name) earlier)%list
                    (AddBatch name b)) = true).
Proof.
  intros Hsize Hids Hembs Hmetas.
  induction fuel as [|fuel IH]; intros i self Hfuel.
  - rewrite add_batches_done by lia. exists []. cbn -[Nat.div].
    rewrite app_nil_r.
    replace (List.length documents - i + size - 1)%nat
      with (size - 1)%nat by lia.
    rewrite Nat.div_small by lia.
    split; [reflexivity|]. split; [reflexivity|]. do 4 (split; [reflexivity|]).
    split; [constructor|]. split; [|discriminate].
    intros _. split; [reflexivity|].
    intros earlier b later Heq. now destruct earlier.
  - destruct (Nat.le_gt_cases (List.length documents) i) as [Hdone | Hmore].
    + rewrite add_batches_done by lia. exists []. cbn -[Nat.div].
      rewrite app_nil_r.
      replace (List.length documents - i + size - 1)%nat
        with (size - 1)%nat by lia.
      rewrite Nat.div_small by lia.
      split; [reflexivity|]. split; [reflexivity|].
      do 4 (split; [reflexivity|]).
      split; [constructor|]. split; [|discriminate].
      intros _. split; [reflexivity|].
      intros earlier b later Heq. now destruct earlier.
    + rewrite add_batches_step by auto. cbv zeta.
      set (b := block size i ids documents embeddings metadatas).
      assert (Hb : batch_ok size b).
      { unfold batch_ok. subst b. cbn.
        rewrite !length_take, !length_drop. lia. }
      destruct (VectorStore.raised
                  (chroma (VectorStore.requests self) (AddBatch name b)))
        eqn:Hraise.
      * exists [b]. cbn [fst snd List.length map concat].
        rewrite !app_nil_r, Nat.mul_1_l.
        split; [reflexivity|]. split; [reflexivity|].
        do 4 (split; [reflexivity|]).
        split; [now constructor|]. split; [discriminate|].
        intros _. exists [], b. cbn. rewrite app_nil_r. auto.
      * destruct (IH (i + size)%nat (VectorStore.send (AddBatch name b) self))
          as (batches & Hreq & Hcol & Hi & Hd & He & Hm & Hok & Htrue & Hfalse);
          [lia|].
        exists (b :: batches). cbv zeta in *.
        cbn [List.length map concat].
        rewrite Hreq, Hcol, Hi, Hd, He, Hm.
        cbn [VectorStore.requests VectorStore.send
             VectorStore.current_collection].
        rewrite <- !app_assoc.
        replace (i + size)%nat with (size + i)%nat in * by lia.
        rewrite <- !skipn_skipn.
        subst b. cbn [block VectorStore.b_ids VectorStore.b_documents
                      VectorStore.b_embeddings VectorStore.b_metadatas].
        rewrite !firstn_block.
        split; [reflexivity|]. split; [reflexivity|].
        do 4 (split; [reflexivity|]).
        split; [now constructor|]. split.
        -- intros Ht. destruct (Htrue Ht) as [Hk Hnoraise]. split.
           ++ rewrite Hk.
              destruct (Nat.le_gt_cases (List.length documents - i) size).
              ** rewrite (div_up_last (List.length documents - i) size) by lia.
                 replace (List.length documents - (size + i) + size - 1)%nat
                   with (size - 1)%nat by lia.
                 rewrite Nat.div_small by lia. reflexivity.
              ** rewrite (div_up_step (List.length documents - i)) by lia.
                 do 3 f_equal. lia.
           ++ intros earlier b' later Heq.
              destruct earlier as [|b0 earlier]; cbn in Heq.
              ** injection Heq as <- _. cbn. now rewrite app_nil_r.
              ** injection Heq as <- ->. cbn [map].
                 specialize (Hnoraise earlier b' later eq_refl).
                 cbn [VectorStore.requests VectorStore.send] in Hnoraise.
                 now rewrite <- app_assoc in Hnoraise.
        -- intros Hf. destruct (Hfalse Hf) as (earlier & b' & -> & Hr).
           exists (block size i ids documents embeddings metadatas :: earlier),
             b'.
           split; [reflexivity|].
           cbn [VectorStore.requests VectorStore.send map] in Hr |- *.
           now rewrite <- app_assoc in Hr.
Qed.

(** What [add_documents] sends to a ChromaDB that accepts every batch. *)
Lemma add_documents_accepted (name : string)
    (ids documents : list string) (embeddings : Embeddings.matrix)
    (metadatas : list meta) (batch_size : Z) (self : store) :
  VectorStore.current_collection self = Some name ->
  List.length ids = List.length documents ->
  List.length embeddings = List.length documents ->
  List.length metadatas = List.length documents ->
  (1 <= batch_size)%Z ->
  (forall history b,
     VectorStore.raised (chroma history (AddBatch name b)) = false) ->
  let out :=
    VectorStore.add_documents source_ottawa chroma ids documents embeddings
      (Some metadatas) batch_size self in
  fst out = true
  /\ VectorStore.current_collection (snd out) = Some name
  /\ exists batches : list batch,
       VectorStore.requests (snd out)
       = (VectorStore.requests self ++ map (AddBatch name) batches)%list
       /\ concat (map b_ids batches) = ids
       /\ concat (map b_documents batches) = documents
       /\ concat (map b_embeddings batches) = embeddings
       /\ concat (map b_metadatas batches) = metadatas
       /\ Forall (batch_ok (Z.to_nat batch_size)) batches
       /\ List.length batches
          = ((List.length documents + Z.to_nat batch_size - 1)
             / Z.to_nat batch_size)%nat.
Proof.
  intros Hcol Hids Hembs Hmetas Hsize Hok out. subst out.
  unfold VectorStore.add_documents. rewrite Hcol.
  rewrite Hids, Hembs, Hmetas, !Nat.eqb_refl. cbn [andb negb].
  replace (batch_size =? 0)%Z with false by (symmetry; apply Z.eqb_neq; lia).
  replace (batch_size <? 0)%Z with false by (symmetry; apply Z.ltb_ge; lia).
  destruct (add_batches_blocks name (Z.to_nat batch_size) ids documents
              embeddings metadatas ltac:(lia) Hids Hembs Hmetas
              (List.length documents) 0 self ltac:(lia))
    as (batches & Hreq & Hsame & Hi & Hd & He & Hm & Hbatches & Htrue & Hfalse).
  cbv zeta in *.
  destruct (fst (VectorStore.add_batches chroma (List.length documents) name
                   (Z.to_nat batch_size) 0 ids documents embeddings
                   metadatas self)) eqn:Hres.
  - split; [reflexivity|]. split; [now rewrite Hsame|]. exists batches.
    destruct (Htrue eq_refl) as [Hk _].
    rewrite Nat.sub_0_r in Hk.
    assert (Hall : (List.length documents
                    <= List.length batches * Z.to_nat batch_size)%nat).
    { rewrite Hk.
      pose proof (Nat.div_mod_eq
                    (List.length documents + Z.to_nat batch_size - 1)
                    (Z.to_nat batch_size)) as Hdm.
      pose proof (Nat.mod_upper_bound
                    (List.length documents + Z.to_nat batch_size - 1)
                    (Z.to_nat batch_size) ltac:(lia)) as Hmod.
      nia. }
    rewrite skipn_O in Hi, Hd, He, Hm.
    rewrite firstn_all2 in Hi by lia. rewrite firstn_all2 in Hd by lia.
    rewrite firstn_all2 in He by lia. rewrite firstn_all2 in Hm by lia.
    auto 10.
  - destruct (Hfalse eq_refl) as (earlier & b & _ & Hr).
    now rewrite Hok in Hr.
Qed.

(** X9. With a collection selected, lists of equal length, a positive
    batch size and a ChromaDB that accepts every batch, [add_documents]
    returns [True] after sending every record exactly once, in order, in
    batches of at most [batch_size] records, as few as possible. *)
Theorem X9_add_documents_sends_every_record_once (name : string)
    (ids documents : list string) (embeddings : Embeddings.matrix)
    (metadatas : list meta) (batch_size : Z) (self : store) :
  VectorStore.current_collection self = Some name ->
  List.length ids = List.length documents ->
  List.length embeddings = List.length documents ->
  List.length metadatas = List.length documents ->
  (1 <= batch_size)%Z ->
  (forall history b,
     VectorStore.raised (chroma history (AddBatch name b)) = false) ->
  let out :=
    VectorStore.add_documents source_ottawa chroma ids documents embeddings
      (Some metadatas) batch_size self in
  fst out = true
  /\ exists batches : list batch,
       VectorStore.requests (snd out)
       = (VectorStore.requests self ++ map (AddBatch name) batches)%list
       /\ concat (map b_ids batches) = ids
       /\ concat (map b_documents batches) = documents
       /\ concat (map b_embeddings batches) = embeddings
       /\ concat (map b_metadatas batches) = metadatas
       /\ Forall (batch_ok (Z.to_nat batch_size)) batches
       /\ List.length batches
          = ((List.length documents + Z.to_nat batch_size - 1)
             / Z.to_nat batch_size)%nat.
Proof.
  intros Hcol Hids Hembs Hmetas Hsize Hok out.
  destruct (add_documents_accepted name ids documents embeddings metadatas
              batch_size self Hcol Hids Hembs Hmetas Hsize Hok)
    as (Htrue & _ & Hbatches).
  split; [exact Htrue | exact Hbatches].
Qed.

(** X10. There is no rollback and no skipping: with a collection selected,
    lists of equal length and a batch size of at least 1, whatever ChromaDB
    does, the records [add_documents] has sent when it returns are a prefix
    of the records given, cut at a multiple of the batch size. It returns
    [True] only when that prefix is everything and no batch raised, and
    [False] only when the last batch sent is one that raised. *)
Theorem X10_add_documents_stops_at_first_failure (name : string)
    (ids documents : list string) (embeddings : Embeddings.matrix)
    (metadatas : list meta) (batch_size : Z) (self : store) :
  VectorStore.current_collection self = Some name ->
  List.length ids = List.length documents ->
  List.length embeddings = List.length documents ->
  List.length metadatas = List.length documents ->
  (1 <= batch_size)%Z ->
  let out :=
    VectorStore.add_documents source_ottawa chroma ids documents embeddings
      (Some metadatas) batch_size self in
  exists batches : list batch,
    let sent := (List.length batches * Z.to_nat batch_size)%nat in
    VectorStore.requests (snd out)
    = (VectorStore.requests self ++ map (AddBatch name) batches)%list
    /\ concat (map b_ids batches) = firstn sent ids
    /\ concat (map b_documents batches) = firstn sent documents
    /\ concat (map b_embeddings batches) = firstn sent embeddings
    /\ concat (map b_metadatas batches) = firstn sent metadatas
    /\ (fst out = true ->
        (List.length documents <= sent)%nat
        /\ forall earlier b later,
             batches = (earlier ++ b :: later)%list ->
             VectorStore.raised
               (chroma (VectorStore.requests self
                        ++ map (AddBatch name) earlier)%list
                  (AddBatch name b)) = false)
    /\ (fst out = false ->
        exists earlier b,
          batches = (earlier ++ [b])%list
          /\ VectorStore.raised
               (chroma (VectorStore.requests self
                        ++ map (AddBatch name) earlier)%list
                  (AddBatch name b)) = true).
Proof.
  intros Hcol Hids Hembs Hmetas Hsize out. subst out.
  unfold VectorStore.add_documents. rewrite Hcol.
  rewrite Hids, Hembs, Hmetas, !Nat.eqb_refl. cbn [andb negb].
  replace (batch_size =? 0)%Z with false by (symmetry; apply Z.eqb_neq; lia).
  replace (batch_size <? 0)%Z with false by (symmetry; apply Z.ltb_ge; lia).
  destruct (add_batches_blocks name (Z.to_nat batch_size) ids documents
              embeddings metadatas ltac:(lia) Hids Hembs Hmetas
              (List.length documents) 0 self ltac:(lia))
    as (batches & Hreq & _ & Hi & Hd & He & Hm & Hbatches & Htrue & Hfalse).
  cbv zeta in *. rewrite skipn_O in Hi, Hd, He, Hm.
  exists batches. do 5 (split; [assumption|]). split; [|exact Hfalse].
  intros Ht. destruct (Htrue Ht) as [Hk Hnone]. split; [|exact Hnone].
  rewrite Hk, Nat.sub_0_r.
  pose proof (Nat.div_mod_eq
                (List.length documents + Z.to_nat batch_size - 1)
                (Z.to_nat batch_size)) as Hdm.
  pose proof (Nat.mod_upper_bound
                (List.length documents + Z.to_nat batch_size - 1)
                (Z.to_nat batch_size) ltac:(lia)) as Hmod.
  nia.
Qed.

(** X11. [add_documents] checks before it sends: with no collection
    selected, with lists of different lengths, or with a batch size of 0,
    it returns [False] and ChromaDB receives nothing, not even the records
    that pair up. With a negative batch size it returns [True] and ChromaDB
    receives nothing either. *)
Theorem X11_add_documents_sends_nothing_on_bad_input
    (ids documents : list string) (embeddings : Embeddings.matrix)
    (metadatas : list meta) (batch_size : Z) (self : store) :
  let out :=
    VectorStore.add_documents source_ottawa chroma ids documents embeddings
      (Some metadatas) batch_size self in
  (VectorStore.current_collection self = None
   \/ List.length ids <> List.length documents
   \/ List.length documents <> List.length embeddings
   \/ List.length embeddings <> List.length metadatas
   \/ batch_size = 0%Z ->
   out = (false, self))
  /\ ((batch_size < 0)%Z ->
      VectorStore.current_collection self <> None ->
      List.length ids = List.length documents ->
      List.length documents = List.length embeddings ->
      List.length embeddings = List.length metadatas ->
      out = (true, self)).
Proof.
  intros out. subst out. unfold VectorStore.add_documents.
  destruct (VectorStore.current_collection self) as [name|];
    [|split; [reflexivity | congruence]].
  destruct (Nat.eqb_spec (List.length ids) (List.length documents)) as [Hi|Hi];
    [|split; [reflexivity | congruence]].
  destruct (Nat.eqb_spec (List.length documents) (List.length embeddings))
    as [He|He]; [|split; [reflexivity | congruence]].
  destruct (Nat.eqb_spec (List.length embeddings) (List.length metadatas))
    as [Hm|Hm]; [|split; [reflexivity | congruence]].
  cbn [andb negb].
  destruct (Z.eqb_spec batch_size 0) as [Hz|Hz];
    [split; [reflexivity | lia]|].
  destruct (Z.ltb_spec batch_size 0) as [Hneg|Hpos].
  - split; [|reflexivity]. intros [H|[H|[H|[H|H]]]]; congruence.
  - split; [intros [H|[H|[H|[H|H]]]]; congruence | lia].
Qed.

End StoreProofs.

(** *** Search *)



Section SearchProofs.

Variable float_sub : Q -> Q -> Q.
Variable vector : Type.
Variable where_t : Type.
Variable meta : Type.
Variable col_meta : Type.
Variable chroma :
  list (VectorStore.request vector where_t meta col_meta) ->
  VectorStore.request vector where_t meta col_meta -> VectorStore.reply.

Local Abbreviation store := (VectorStore.t vector where_t meta col_meta).



(** X13. [search] never raises and never guesses: with no collection
    selected it returns no hit and sends nothing; when the query raises it
    returns no hit; and in every case at most the one query is sent. *)
Theorem X13_search_degrades_to_no_hit (query_embedding : vector)
    (top_k : Z) (where_filter : option where_t) (include_distances : bool)
    (self : store) :
  let out :=
    VectorStore.search float_sub chroma query_embedding top_k where_filter
      include_distances self in
  (VectorStore.current_collection self = None -> out = ([], self))
  /\ (forall name e,
        VectorStore.current_collection self = Some name ->
        chroma (VectorStore.requests self)
          (VectorStore.QueryCollection name query_embedding top_k
             where_filter include_distances)
        = VectorStore.Raised e ->
        fst out = [])
  /\ (snd out = self
      \/ exists name,
           VectorStore.current_collection self = Some name
           /\ snd out
              = VectorStore.send
                  (VectorStore.QueryCollection name query_embedding top_k
                     where_filter include_distances) self).
Proof.
  intros out. subst out. unfold VectorStore.search.
  destruct (VectorStore.current_collection self) as [name|].
  - split; [discriminate|]. split.
    + intros name' e [= <-] ->. reflexivity.
    + right. exists name. split; [reflexivity|].
      now destruct (chroma _ _).
  - split; [reflexivity|]. split; [discriminate | now left].
Qed.



End SearchProofs.

(** ** The collection the store holds *)

Section CollectionProofs.

Variable float_sub : Q -> Q -> Q.
Variable vector : Type.
Variable where_t : Type.
Variable meta : Type.
Variable col_meta : Type.
Variable source_ottawa : meta.
Variable ottawa_description : col_meta.
Variable chroma :
  list (VectorStore.request vector where_t meta col_meta) ->
  VectorStore.request vector where_t meta col_meta -> VectorStore.reply.

Local Abbreviation store := (VectorStore.t vector where_t meta col_meta).

(** The collection selected, if any, is the one the store names. *)
Definition coherent (self : store) : Prop :=
  forall name,
    VectorStore.current_collection self = Some name ->
    VectorStore.collection_name self = name.

Lemma add_batches_names (name : string) (size : nat)
    (ids documents : list string) (embeddings : Embeddings.matrix)
    (metadatas : list meta) :
  forall (fuel i : nat) (self : store),
    let out :=
      VectorStore.add_batches chroma fuel name size i ids documents
        embeddings metadatas self in
    VectorStore.current_collection (snd out)
    = VectorStore.current_collection self
    /\ VectorStore.collection_name (snd out)
       = VectorStore.collection_name self.
Proof.
  induction fuel as [|fuel IH]; intros i self; cbn [VectorStore.add_batches];
    [now split|].
  destruct (List.length documents <=? i)%nat; [now split|].
  cbv zeta. destruct (VectorStore.raised _); [now split|].
  now destruct (IH (i + size)%nat
                  (VectorStore.send
                     (VectorStore.AddBatch name
                        {| VectorStore.b_ids :=
                             VectorStore.slice i
                               (Nat.min (i + size) (List.length documents))
                               ids;
                           VectorStore.b_documents :=
                             VectorStore.slice i
                               (Nat.min (i + size) (List.length documents))
                               documents;
                           VectorStore.b_embeddings :=
                             VectorStore.slice i
                               (Nat.min (i + size) (List.length documents))
                               embeddings;
                           VectorStore.b_metadatas :=
                             VectorStore.slice i
                               (Nat.min (i + size) (List.length documents))
                               metadatas |}) self)).
Qed.

(** X28. The collection selected is always the one the store names: a
    store without a selection has the property and [create_collection],
    [delete_collection], [add_documents], [delete_documents] and [search]
    keep it. So a [delete_collection] that succeeds on the name of the
    selected collection (the default when no name is given) leaves no
    collection selected, after which [search] returns no hit and
    [add_documents] returns [False], both without a request to ChromaDB;
    a [delete_collection] on another name, or one that fails, leaves the
    selection as it was. [create_collection] with [overwrite=True] does not
    deselect: it sends the deletion of the collection it is about to
    create, and when ChromaDB then refuses both the creation and the
    lookup it returns [False] with the selection unchanged, so that the
    store is left holding the collection whose deletion it has sent. *)
Theorem X28_selected_collection_is_the_named_one :
  (forall self : store,
     VectorStore.current_collection self = None -> coherent self)
  /\ (forall (self : store) collection_name_arg metadata overwrite ids
             documents embeddings metadatas batch_size doc_ids
             query_embedding top_k where_filter include_distances,
        coherent self ->
        coherent
          (snd (VectorStore.create_collection ottawa_description chroma
                  collection_name_arg metadata overwrite self))
        /\ coherent
             (snd (VectorStore.delete_collection chroma collection_name_arg
                     self))
        /\ coherent
             (snd (VectorStore.add_documents source_ottawa chroma ids
                     documents embeddings metadatas batch_size self))
        /\ coherent (snd (VectorStore.delete_documents chroma doc_ids self))
        /\ coherent
             (snd (VectorStore.search float_sub chroma query_embedding top_k
                     where_filter include_distances self)))
  /\ (forall (self : store) (selected : string) collection_name_arg,
        coherent self ->
        VectorStore.current_collection self = Some selected ->
        let name :=
          VectorStore.name_or_default _ _ _ _ collection_name_arg self in
        let out :=
          VectorStore.delete_collection chroma collection_name_arg self in
        (fst out = true -> name = selected ->
         VectorStore.current_collection (snd out) = None
         /\ (forall query_embedding top_k where_filter include_distances,
               VectorStore.search float_sub chroma query_embedding top_k where_filter
                 include_distances (snd out)
               = ([], snd out))
         /\ (forall ids documents embeddings metadatas batch_size,
               VectorStore.add_documents source_ottawa chroma ids documents
                 embeddings metadatas batch_size (snd out)
               = (false, snd out)))
        /\ (fst out = false \/ name <> selected ->
            VectorStore.current_collection (snd out) = Some selected))
  /\ (forall (self : store) (selected : string) collection_name_arg
             metadata,
        VectorStore.current_collection self = Some selected ->
        VectorStore.name_or_default _ _ _ _ collection_name_arg self
        = selected ->
        let delete := VectorStore.DeleteCollection selected in
        let create :=
          VectorStore.CreateCollection selected
            match metadata with
            | Some m => m
            | None => ottawa_description
            end in
        let lookup := VectorStore.GetCollection selected in
        VectorStore.raised
          (chroma (VectorStore.requests self ++ [delete])%list create)
        = true ->
        VectorStore.raised
          (chroma (VectorStore.requests self ++ [delete; create])%list
             lookup)
        = true ->
        let out :=
          VectorStore.create_collection ottawa_description chroma
            collection_name_arg metadata true self in
        fst out = false
        /\ VectorStore.current_collection (snd out) = Some selected
        /\ VectorStore.requests (snd out)
           = (VectorStore.requests self ++ [delete; create; lookup])%list).
Proof.
  split; [intros self Hnone name; congruence|]. split; [|split].
  - intros self collection_name_arg metadata overwrite ids documents
      embeddings metadatas batch_size doc_ids query_embedding top_k
      where_filter include_distances Hco.
    split; [|split; [|split; [|split]]].
    + unfold VectorStore.create_collection. cbv zeta.
      destruct overwrite;
        repeat match goal with
               | |- context [if VectorStore.raised ?r then _ else _] =>
                   destruct (VectorStore.raised r)
               end;
        cbn [snd]; intros name; cbn; try congruence; apply Hco.
    + unfold VectorStore.delete_collection. cbv zeta.
      destruct (VectorStore.raised _); [exact Hco|].
      destruct (String.eqb _ _); cbn [snd]; intros name; cbn;
        [discriminate | apply Hco].
    + unfold VectorStore.add_documents.
      destruct (VectorStore.current_collection self) as [name|] eqn:Hcol;
        [|exact Hco].
      destruct (negb _); [exact Hco|].
      destruct (batch_size =? 0)%Z; [exact Hco|].
      destruct (batch_size <? 0)%Z; [exact Hco|].
      match goal with
      | |- coherent (snd (VectorStore.add_batches _ ?f ?n ?sz ?i ?a ?b ?c ?d
                            self)) =>
          destruct (add_batches_names n sz a b c d f i self) as [Hc Hn]
      end.
      intros name'. cbv zeta in *. rewrite Hc, Hn. apply Hco.
    + unfold VectorStore.delete_documents.
      destruct (VectorStore.current_collection self) eqn:Hcol;
        [|exact Hco].
      cbn [snd]. intros name. cbn. rewrite Hcol. intros [= <-].
      now apply Hco.
    + unfold VectorStore.search.
      destruct (VectorStore.current_collection self) eqn:Hcol;
        [|exact Hco].
      destruct (chroma _ _); cbn [snd]; intros name; cbn; rewrite Hcol;
        intros [= <-]; now apply Hco.
  - intros self selected collection_name_arg Hco Hcol name out.
    subst out name. unfold VectorStore.delete_collection. cbv zeta.
    pose proof (Hco selected Hcol) as Hname.
    destruct (VectorStore.raised _).
    { cbn [fst snd]. split; [discriminate|]. intros _. exact Hcol. }
    cbn [fst snd]. rewrite Hname.
    destruct (String.eqb_spec
                (VectorStore.name_or_default vector where_t meta col_meta
                   collection_name_arg self) selected) as [Heq|Hneq].
    + split.
      * intros _ _. split; [reflexivity|]. split; reflexivity.
      * intros [Hfalse|Hneq]; [discriminate | contradiction].
    + split; [intros _ Heq; contradiction|]. intros _. exact Hcol.
  - intros self selected collection_name_arg metadata Hcol Hname delete
      create lookup Hcreate Hlookup out.
    subst out. unfold VectorStore.create_collection. cbv zeta.
    rewrite Hname. fold delete. fold create. fold lookup.
    cbn [VectorStore.send VectorStore.requests].
    rewrite Hcreate.
    replace ((VectorStore.requests self ++ [delete]) ++ [create])%list
      with (VectorStore.requests self ++ [delete; create])%list
      by now rewrite <- app_assoc.
    rewrite Hlookup. cbn [fst snd VectorStore.current_collection
                          VectorStore.requests].
    split; [reflexivity|]. split; [exact Hcol|].
    cbn [VectorStore.send VectorStore.requests].
    now rewrite <- !app_assoc.
Qed.

End CollectionProofs.

(** ** Loading the corpus and building the index *)

(** A chunk record with the five keys the index is built from. *)
Definition complete (r : Orchestrator.chunk_record) : Prop :=
  Orchestrator.ck_content r <> None
  /\ Orchestrator.ck_id r <> None
  /\ Orchestrator.ck_url r <> None
  /\ Orchestrator.ck_source_file r <> None
  /\ Orchestrator.ck_chunk_index r <> None.

Lemma collect_total {A : Type} (field : Orchestrator.chunk_record -> option A)
    (records : list Orchestrator.chunk_record) :
  (exists xs, Orchestrator.collect field records = Some xs)
  <-> Forall (fun r => field r <> None) records.
Proof.
  induction records as [|r rest IH]; cbn [Orchestrator.collect].
  - split; [constructor | eauto].
  - split.
    + intros [xs Hxs]. destruct (field r) as [x|] eqn:Hr; [|discriminate].
      destruct (Orchestrator.collect field rest) as [xs'|]; [|discriminate].
      constructor; [congruence|]. apply IH. eauto.
    + intros H. inversion H as [|? ? Hr Hrest]; subst.
      apply IH in Hrest. destruct Hrest as [xs ->].
      destruct (field r); [eauto | congruence].
Qed.

Lemma collect_map {A : Type} (field : Orchestrator.chunk_record -> option A)
    (records : list Orchestrator.chunk_record) (xs : list A) :
  Orchestrator.collect field records = Some xs ->
  map field records = map Some xs.
Proof.
  revert xs. induction records as [|r rest IH]; intros xs;
    cbn [Orchestrator.collect].
  - now intros [= <-].
  - destruct (field r) as [x|] eqn:Hr; [|discriminate].
    destruct (Orchestrator.collect field rest) as [xs'|]; [|discriminate].
    intros [= <-]. cbn [map]. now rewrite Hr, (IH xs').
Qed.

Lemma metadata_of_total (r : Orchestrator.chunk_record) :
  Orchestrator.metadata_of r <> None
  <-> Orchestrator.ck_url r <> None
      /\ Orchestrator.ck_source_file r <> None
      /\ Orchestrator.ck_chunk_index r <> None.
Proof.
  unfold Orchestrator.metadata_of.
  destruct (Orchestrator.ck_url r), (Orchestrator.ck_source_file r),
    (Orchestrator.ck_chunk_index r); split; intros H;
    try (repeat split; congruence);
    try (destruct H as (? & ? & ?); congruence).
Qed.

Section BuildProofs.

Variable float_sub : Q -> Q -> Q.
Variable sha256_hexdigest : string -> string.
Variable encode : list string -> Embeddings.matrix + exn.
Variable chroma :
  list Orchestrator.request_t -> Orchestrator.request_t -> VectorStore.reply.

(** X15. [initialize_vector_database] returns [True] exactly when the
    chunks are a non-empty list of records that all have the keys content,
    id, url, source_file and chunk_index and the embedding call does not
    raise. What ChromaDB replies to the creation of the collection and to
    the insertions plays no part. On success the pipeline is marked
    initialised; otherwise the mark is left as it was. The corpus and the
    LLM interface are never changed. *)
Theorem X15_index_build_succeeds_whatever_the_store_replies
    (self : Orchestrator.t) :
  let out :=
    Orchestrator.initialize_vector_database sha256_hexdigest encode chroma
      self in
  (fst out = true <->
   exists records chunk_texts embeddings,
     Orchestrator.chunks self = Orchestrator.ChunkList records
     /\ records <> []
     /\ Forall complete records
     /\ Orchestrator.collect Orchestrator.ck_content records
        = Some chunk_texts
     /\ fst (Embeddings.generate_embeddings sha256_hexdigest encode
               chunk_texts true (Orchestrator.embedding_manager self))
        = inl embeddings)
  /\ Orchestrator.is_initialized (snd out)
     = (Orchestrator.is_initialized self || fst out)
  /\ Orchestrator.documents (snd out) = Orchestrator.documents self
  /\ Orchestrator.chunks (snd out) = Orchestrator.chunks self
  /\ Orchestrator.llm_interface (snd out) = Orchestrator.llm_interface self.
Proof.
  intros out. subst out. unfold Orchestrator.initialize_vector_database.
  destruct (Orchestrator.chunks self) as [[|r rest]|seen truthy] eqn:Hchunks.
  - cbn [fst snd]. rewrite orb_false_r. split; [|auto].
    split; [discriminate|]. intros (records & ? & ? & [= <-] & Hne & _).
    congruence.
  - set (records := r :: rest).
    destruct (Orchestrator.collect Orchestrator.ck_content records)
      as [chunk_texts|] eqn:Htexts.
    + destruct (Embeddings.generate_embeddings sha256_hexdigest encode
                  chunk_texts true (Orchestrator.embedding_manager self))
        as [[embeddings|e] em] eqn:Hembed.
      * destruct (Orchestrator.collect Orchestrator.ck_id records)
          as [chunk_ids|] eqn:Hids;
          [destruct (Orchestrator.collect Orchestrator.metadata_of records)
             as [metadatas|] eqn:Hmetas|].
        -- cbn [fst snd Orchestrator.with_components
                Orchestrator.is_initialized Orchestrator.documents
                Orchestrator.chunks Orchestrator.llm_interface].
           rewrite orb_true_r, Hchunks. split; [|auto].
           split; [|reflexivity]. intros _.
           exists records, chunk_texts, embeddings.
           split; [reflexivity|]. split; [discriminate|].
           split; [|split; [exact Htexts | now rewrite Hembed]].
           pose proof (proj1 (collect_total _ records)
                         (ex_intro _ _ Htexts)) as Hc.
           pose proof (proj1 (collect_total _ records)
                         (ex_intro _ _ Hids)) as Hi.
           pose proof (proj1 (collect_total _ records)
                         (ex_intro _ _ Hmetas)) as Hm.
           rewrite List.Forall_forall in *. intros rec Hrec.
           specialize (Hc rec Hrec). specialize (Hi rec Hrec).
           specialize (Hm rec Hrec). apply metadata_of_total in Hm.
           unfold complete. tauto.
        -- cbn [fst snd Orchestrator.with_components
                Orchestrator.is_initialized Orchestrator.documents
                Orchestrator.chunks Orchestrator.llm_interface].
           rewrite orb_false_r, Hchunks. split; [|auto].
           split; [discriminate|].
           intros (records' & ? & ? & [= <-] & _ & Hall & _).
           assert (Hm : Forall (fun x => Orchestrator.metadata_of x <> None)
                          records).
           { rewrite List.Forall_forall in *. intros rec Hrec.
             apply metadata_of_total. specialize (Hall rec Hrec).
             unfold complete in Hall. tauto. }
           apply collect_total in Hm. destruct Hm as [? Hm]. congruence.
        -- cbn [fst snd Orchestrator.with_components
                Orchestrator.is_initialized Orchestrator.documents
                Orchestrator.chunks Orchestrator.llm_interface].
           rewrite orb_false_r, Hchunks. split; [|auto].
           split; [discriminate|].
           intros (records' & ? & ? & [= <-] & _ & Hall & _).
           assert (Hi : Forall (fun x => Orchestrator.ck_id x <> None)
                          records).
           { rewrite List.Forall_forall in *. intros rec Hrec.
             specialize (Hall rec Hrec). unfold complete in Hall. tauto. }
           apply collect_total in Hi. destruct Hi as [? Hi]. congruence.
      * cbn [fst snd Orchestrator.with_components
             Orchestrator.is_initialized Orchestrator.documents
             Orchestrator.chunks Orchestrator.llm_interface].
        rewrite orb_false_r, Hchunks. split; [|auto].
        split; [discriminate|].
        intros (records' & texts' & m & [= <-] & _ & _ & Ht & Hm).
        assert (texts' = chunk_texts) as -> by congruence.
        rewrite Hembed in Hm. discriminate.
    + cbn [fst snd]. rewrite orb_false_r. split; [|auto].
      split; [discriminate|].
      intros (records' & texts' & m & [= <-] & _ & _ & Ht & _).
      congruence.
  - cbn [fst snd]. rewrite orb_false_r. split; [|auto].
    split; [discriminate|]. intros (records & ? & ? & [=] & _).
Qed.

(** X16. Building the index on a ChromaDB that accepts every request, from
    a non-empty list of chunks that have the five keys and an embedding
    call that returns one vector per chunk: the store receives the creation
    of the collection [ottawa_complete] and then the whole corpus, every
    chunk once and in order, each batch carrying the ids, texts, vectors
    and metadata of the same chunks and at most 1000 of them; the
    collection is left selected and the manager is the one the embedding
    call left. *)
Theorem X16_index_build_sends_the_corpus (self : Orchestrator.t)
    (records : list Orchestrator.chunk_record) (chunk_texts : list string)
    (embeddings : Embeddings.matrix) (em : Embeddings.t) :
  Orchestrator.chunks self = Orchestrator.ChunkList records ->
  records <> [] ->
  Forall complete records ->
  Orchestrator.collect Orchestrator.ck_content records = Some chunk_texts ->
  Embeddings.generate_embeddings sha256_hexdigest encode chunk_texts true
    (Orchestrator.embedding_manager self)
  = (inl embeddings, em) ->
  List.length embeddings = List.length records ->
  (forall history request,
     VectorStore.raised (chroma history request) = false) ->
  let out :=
    Orchestrator.initialize_vector_database sha256_hexdigest encode chroma
      self in
  let store := Orchestrator.vector_store (snd out) in
  fst out = true
  /\ Orchestrator.embedding_manager (snd out) = em
  /\ VectorStore.current_collection store = Some "ottawa_complete"
  /\ exists batches : list (VectorStore.batch Orchestrator.record_meta),
       VectorStore.requests store
       = (VectorStore.requests (Orchestrator.vector_store self)
          ++ VectorStore.CreateCollection "ottawa_complete"
               Orchestrator.OttawaDescription
          :: map (VectorStore.AddBatch "ottawa_complete") batches)%list
       /\ map Some (concat (map VectorStore.b_ids batches))
          = map Orchestrator.ck_id records
       /\ map Some (concat (map VectorStore.b_documents batches))
          = map Orchestrator.ck_content records
       /\ concat (map VectorStore.b_embeddings batches) = embeddings
       /\ map Some (concat (map VectorStore.b_metadatas batches))
          = map Orchestrator.metadata_of records
       /\ Forall (batch_ok Orchestrator.record_meta 1000) batches.
Proof.
  intros Hchunks Hne Hall Htexts Hembed Hlen Hok out store.
  subst store out. unfold Orchestrator.initialize_vector_database.
  rewrite Hchunks. destruct records as [|r rest]; [congruence|].
  set (records := r :: rest) in *.
  rewrite Htexts, Hembed.
  assert (Hids : exists chunk_ids,
            Orchestrator.collect Orchestrator.ck_id records = Some chunk_ids).
  { apply collect_total. rewrite List.Forall_forall in *. intros rec Hrec.
    specialize (Hall rec Hrec). unfold complete in Hall. tauto. }
  assert (Hmetas : exists metadatas,
            Orchestrator.collect Orchestrator.metadata_of records
            = Some metadatas).
  { apply collect_total. rewrite List.Forall_forall in *. intros rec Hrec.
    apply metadata_of_total. specialize (Hall rec Hrec).
    unfold complete in Hall. tauto. }
  destruct Hids as [chunk_ids Hids]. destruct Hmetas as [metadatas Hmetas].
  rewrite Hids, Hmetas.
  pose proof (collect_map _ _ _ Htexts) as Mtexts.
  pose proof (collect_map _ _ _ Hids) as Mids.
  pose proof (collect_map _ _ _ Hmetas) as Mmetas.
  assert (Ltexts : List.length chunk_texts = List.length records)
    by (apply (f_equal (@List.length _)) in Mtexts;
        now rewrite !length_map in Mtexts).
  assert (Lids : List.length chunk_ids = List.length records)
    by (apply (f_equal (@List.length _)) in Mids;
        now rewrite !length_map in Mids).
  assert (Lmetas : List.length metadatas = List.length records)
    by (apply (f_equal (@List.length _)) in Mmetas;
        now rewrite !length_map in Mmetas).
  unfold VectorStore.create_collection. cbv zeta. rewrite !Hok.
  cbn [snd fst].
  set (created := VectorStore.rename _ _ _ _ _ _).
  destruct (add_documents_accepted _ _ _ _ Orchestrator.SourceOttawa chroma
              "ottawa_complete" chunk_ids chunk_texts embeddings metadatas
              Orchestrator.add_batch_size created)
    as (_ & Hcol & batches & Hreq & Bids & Bdocs & Bembs & Bmetas & Bok & _);
    [reflexivity | congruence | congruence | congruence
     | unfold Orchestrator.add_batch_size; lia
     | intros; apply Hok |].
  cbv zeta in *.
  cbn [Orchestrator.with_components Orchestrator.embedding_manager
       Orchestrator.vector_store].
  split; [reflexivity|]. split; [reflexivity|]. split; [exact Hcol|].
  exists batches. rewrite Hreq, Bids, Bdocs, Bembs, Bmetas.
  split.
  { subst created. cbn. now rewrite <- app_assoc. }
  auto.
Qed.

(** X17. Building the index on a ChromaDB that refuses the collection
    [ottawa_complete], from a store with no collection selected: when the
    build returns [True] the pipeline is marked initialised, yet no record
    was sent (the store received the creation and the lookup of the
    collection and nothing else), no collection is selected, and every
    search of the store returns no hit without sending a query. *)
Theorem X17_index_build_reports_success_on_a_refusing_store
    (self : Orchestrator.t) :
  VectorStore.current_collection (Orchestrator.vector_store self) = None ->
  (forall history metadata,
     VectorStore.raised
       (chroma history
          (VectorStore.CreateCollection "ottawa_complete" metadata)) = true) ->
  (forall history,
     VectorStore.raised
       (chroma history (VectorStore.GetCollection "ottawa_complete"))
     = true) ->
  let out :=
    Orchestrator.initialize_vector_database sha256_hexdigest encode chroma
      self in
  let store := Orchestrator.vector_store (snd out) in
  fst out = true ->
  Orchestrator.is_initialized (snd out) = true
  /\ VectorStore.current_collection store = None
  /\ VectorStore.requests store
     = (VectorStore.requests (Orchestrator.vector_store self)
        ++ [VectorStore.CreateCollection "ottawa_complete"
              Orchestrator.OttawaDescription;
            VectorStore.GetCollection "ottawa_complete"])%list
  /\ forall query_embedding top_k where_filter include_distances,
       VectorStore.search float_sub chroma query_embedding top_k where_filter
         include_distances store
       = ([], store).
Proof.
  intros Hnone Hcreate Hget out store. subst store out.
  unfold Orchestrator.initialize_vector_database.
  destruct (Orchestrator.chunks self) as [[|r rest]|seen truthy];
    [discriminate| |discriminate].
  destruct (Orchestrator.collect Orchestrator.ck_content (r :: rest))
    as [chunk_texts|]; [|discriminate].
  destruct (Embeddings.generate_embeddings sha256_hexdigest encode
              chunk_texts true (Orchestrator.embedding_manager self))
    as [[embeddings|e] em]; [|discriminate].
  unfold VectorStore.create_collection. cbv zeta.
  cbn [VectorStore.name_or_default Orchestrator.collection].
  rewrite Hcreate, Hget. cbn [snd].
  set (created := VectorStore.send _ (VectorStore.send _ _)).
  assert (Hcol : VectorStore.current_collection created = None)
    by (subst created; exact Hnone).
  destruct (Orchestrator.collect Orchestrator.ck_id (r :: rest))
    as [chunk_ids|]; [|discriminate].
  destruct (Orchestrator.collect Orchestrator.metadata_of (r :: rest))
    as [metadatas|]; [|discriminate].
  intros _. unfold VectorStore.add_documents. rewrite Hcol.
  cbn [snd fst Orchestrator.with_components Orchestrator.is_initialized
       Orchestrator.vector_store].
  split; [reflexivity|]. split; [exact Hcol|]. split.
  { subst created. cbn. now rewrite <- app_assoc. }
  intros. unfold VectorStore.search. now rewrite Hcol.
Qed.

End BuildProofs.

(** X18. [load_full_dataset] replaces the corpus and nothing else: the
    initialised mark, the embedding manager, the vector store and the LLM
    interface are the ones from before, so an index built earlier goes on
    serving after a reload. It returns [True] exactly when the file holds
    an object whose ['documents'] and ['chunks'] values (an empty list for
    a missing key) have a length. A file that cannot be read or holds no
    object changes nothing; an object replaces both attributes even when
    the call returns [False]. *)
Theorem X18_load_replaces_the_corpus_only (file : Orchestrator.corpus_file)
    (self : Orchestrator.t) :
  let out := Orchestrator.load_full_dataset file self in
  let or_empty_list (value : option Pipeline.corpus_t) :=
    match value with Some d => d | None => Pipeline.Sized 0 end in
  let or_no_chunks (value : option Orchestrator.chunks_value) :=
    match value with Some c => c | None => Orchestrator.ChunkList [] end in
  (Orchestrator.is_initialized (snd out) = Orchestrator.is_initialized self
   /\ Orchestrator.embedding_manager (snd out)
      = Orchestrator.embedding_manager self
   /\ Orchestrator.vector_store (snd out) = Orchestrator.vector_store self
   /\ Orchestrator.llm_interface (snd out) = Orchestrator.llm_interface self)
  /\ (fst out = true <->
      exists file_documents file_chunks n_documents n_chunks,
        file = Orchestrator.Object file_documents file_chunks
        /\ Pipeline.py_len (or_empty_list file_documents) = inl n_documents
        /\ Pipeline.py_len
             (Orchestrator.seen_chunks (or_no_chunks file_chunks))
           = inl n_chunks)
  /\ (forall file_documents file_chunks,
        file = Orchestrator.Object file_documents file_chunks ->
        Orchestrator.documents (snd out) = or_empty_list file_documents
        /\ Orchestrator.chunks (snd out) = or_no_chunks file_chunks)
  /\ ((forall file_documents file_chunks,
         file <> Orchestrator.Object file_documents file_chunks) ->
      out = (false, self)).
Proof.
  intros out or_empty_list or_no_chunks. subst out.
  unfold Orchestrator.load_full_dataset.
  destruct file as [e| |file_documents file_chunks].
  - cbn [fst snd]. split; [auto|]. split.
    + split; [discriminate|]. intros (? & ? & ? & ? & [=] & _).
    + split; [discriminate | reflexivity].
  - cbn [fst snd]. split; [auto|]. split.
    + split; [discriminate|]. intros (? & ? & ? & ? & [=] & _).
    + split; [discriminate | reflexivity].
  - cbn [Orchestrator.documents Orchestrator.chunks].
    fold (or_empty_list file_documents). fold (or_no_chunks file_chunks).
    destruct (Pipeline.py_len (or_empty_list file_documents))
      as [n_documents|e1] eqn:Hd;
      [destruct (Pipeline.py_len
                   (Orchestrator.seen_chunks (or_no_chunks file_chunks)))
         as [n_chunks|e2] eqn:Hc|];
      cbn [fst snd Orchestrator.is_initialized
           Orchestrator.embedding_manager Orchestrator.vector_store
           Orchestrator.llm_interface Orchestrator.documents
           Orchestrator.chunks].
    + split; [auto|]. split.
      * split; [|reflexivity]. intros _.
        exists file_documents, file_chunks, n_documents, n_chunks. auto.
      * split; [now intros ? ? [= <- <-]|].
        intros Hno. now destruct (Hno file_documents file_chunks).
    + split; [auto|]. split.
      * split; [discriminate|].
        intros (? & ? & ? & ? & [= <- <-] & _ & Hc'). congruence.
      * split; [now intros ? ? [= <- <-]|].
        intros Hno. now destruct (Hno file_documents file_chunks).
    + split; [auto|]. split.
      * split; [discriminate|].
        intros (? & ? & ? & ? & [= <- <-] & Hd' & _). congruence.
      * split; [now intros ? ? [= <- <-]|].
        intros Hno. now destruct (Hno file_documents file_chunks).
Qed.

(** ** The retry loop against an arbitrary backend, and the status probe *)

Lemma backoff_total (n : nat) (attempt : Z) :
  (0 <= attempt)%Z ->
  fold_right Z.add 0%Z (backoff attempt n)
  = (2 ^ attempt * (2 ^ Z.of_nat n - 1))%Z.
Proof.
  revert attempt. induction n as [|n IH]; intros attempt Hpos.
  - cbn. lia.
  - cbn [backoff fold_right]. rewrite IH by lia.
    rewrite Nat2Z.inj_succ, Z.pow_succ_r by lia.
    replace (attempt + 1)%Z with (Z.succ attempt) by lia.
    rewrite Z.pow_succ_r by lia. lia.
Qed.

(** One iteration of the retry loop. *)
Lemma attempts_step (c : LLM.client_t) (query prompt : string)
    (max_retries : Z) (k : nat) (attempt : Z) (self : LLM.t) :
  LLM.attempts c query prompt max_retries (S k) attempt self
  = let failed (s : LLM.t) :=
      if (attempt =? max_retries - 1)%Z
      then (Some (LLM._get_fallback_response query), s)
      else LLM.attempts c query prompt max_retries k (attempt + 1)
             (LLM.sleep (2 ^ attempt) s) in
    match c (List.length (LLM.backend_calls self)) prompt with
    | LLM.Raises _ => failed (LLM.record_call prompt self)
    | LLM.Completion content total_tokens =>
        match content with
        | Some response =>
            (Some (Str.strip response),
             LLM._update_statistics total_tokens
               (LLM.record_call prompt self))
        | None =>
            failed (LLM._update_statistics total_tokens
                      (LLM.record_call prompt self))
        end
    end.
Proof. reflexivity. Qed.

(** Whatever the backend does, the retry loop ends after at most the
    remaining attempts with a text. *)
Lemma attempts_bounded (c : LLM.client_t) (query prompt : string)
    (max_retries : Z) (remaining : nat) :
  forall (attempt : Z) (self : LLM.t),
    (attempt + Z.of_nat (S remaining) = max_retries)%Z ->
    exists (n : nat) (text : string),
      let out :=
        LLM.attempts c query prompt max_retries (S remaining) attempt self in
      (1 <= n <= S remaining)%nat
      /\ fst out = Some text
      /\ (text = LLM._get_fallback_response query /\ n = S remaining
          \/ exists response tokens,
               c (List.length (LLM.backend_calls self) + (n - 1))%nat prompt
               = LLM.Completion (Some response) tokens
               /\ text = Str.strip response)
      /\ LLM.backend_calls (snd out)
         = (LLM.backend_calls self ++ repeat prompt n)%list
      /\ LLM.sleeps (snd out)
         = (LLM.sleeps self ++ backoff attempt (n - 1))%list
      /\ (LLM.total_requests self <= LLM.total_requests (snd out)
          <= LLM.total_requests self + Z.of_nat n)%Z
      /\ LLM.client (snd out) = LLM.client self.
Proof.
  induction remaining as [|k IH]; intros attempt self Hsum;
    rewrite attempts_step;
    destruct (c (List.length (LLM.backend_calls self)) prompt)
      as [e | [response|] tokens] eqn:Hc; cbv beta iota zeta.
  - replace (attempt =? max_retries - 1)%Z with true
      by (symmetry; apply Z.eqb_eq; lia).
    exists 1%nat, (LLM._get_fallback_response query). cbn.
    rewrite app_nil_r. repeat split; auto; lia.
  - exists 1%nat, (Str.strip response). cbn. rewrite app_nil_r.
    split; [lia|]. split; [reflexivity|]. split.
    { right. exists response, tokens. now rewrite Nat.add_0_r. }
    repeat split; auto; lia.
  - replace (attempt =? max_retries - 1)%Z with true
      by (symmetry; apply Z.eqb_eq; lia).
    exists 1%nat, (LLM._get_fallback_response query). cbn.
    rewrite app_nil_r. repeat split; auto; lia.
  - replace (attempt =? max_retries - 1)%Z with false
      by (symmetry; apply Z.eqb_neq; lia).
    destruct (IH (attempt + 1)%Z
                (LLM.sleep (2 ^ attempt) (LLM.record_call prompt self))
                ltac:(lia))
      as (n & text & Hn & Hout & Hwhich & Hcalls & Hsleeps & Hreq & Hcl).
    cbv zeta in *. exists (S n), text.
    split; [lia|]. split; [exact Hout|]. split.
    { destruct Hwhich as [[-> ->]|(response & tokens & Hresp & ->)];
        [left; split; reflexivity|].
      right. exists response, tokens. split; [|reflexivity].
      cbn [LLM.sleep LLM.record_call LLM.backend_calls] in Hresp.
      rewrite length_app in Hresp. cbn [List.length] in Hresp.
      rewrite <- Hresp. f_equal. lia. }
    rewrite Hcalls, Hsleeps, Hcl.
    cbn [LLM.sleep LLM.record_call LLM.backend_calls LLM.sleeps
         LLM.total_requests LLM.client] in *.
    rewrite <- !app_assoc. cbn [app repeat].
    replace (S n - 1)%nat with (S (n - 1)) by lia. cbn [backoff].
    repeat split; auto; lia.
  - exists 1%nat, (Str.strip response). cbn. rewrite app_nil_r.
    split; [lia|]. split; [reflexivity|]. split.
    { right. exists response, tokens. now rewrite Nat.add_0_r. }
    repeat split; auto; lia.
  - replace (attempt =? max_retries - 1)%Z with false
      by (symmetry; apply Z.eqb_neq; lia).
    destruct (IH (attempt + 1)%Z
                (LLM.sleep (2 ^ attempt)
                   (LLM._update_statistics tokens
                      (LLM.record_call prompt self)))
                ltac:(lia))
      as (n & text & Hn & Hout & Hwhich & Hcalls & Hsleeps & Hreq & Hcl).
    cbv zeta in *. exists (S n), text.
    split; [lia|]. split; [exact Hout|]. split.
    { destruct Hwhich as [[-> ->]|(response & tokens' & Hresp & ->)];
        [left; split; reflexivity|].
      right. exists response, tokens'. split; [|reflexivity].
      cbn [LLM.sleep LLM._update_statistics LLM.record_call
           LLM.backend_calls] in Hresp.
      rewrite length_app in Hresp. cbn [List.length] in Hresp.
      rewrite <- Hresp. f_equal. lia. }
    rewrite Hcalls, Hsleeps, Hcl.
    cbn [LLM.sleep LLM._update_statistics LLM.record_call LLM.backend_calls
         LLM.sleeps LLM.total_requests LLM.client] in *.
    rewrite <- !app_assoc. cbn [app repeat].
    replace (S n - 1)%nat with (S (n - 1)) by lia. cbn [backoff].
    repeat split; auto; lia.
Qed.

(** X19. Whatever the backend does (raise, return a text, return no
    content, in any pattern), [generate_response] with a client, a prompt
    that builds and a retry bound of at least 1 returns a text after
    [n] backend calls with the same prompt, 1 <= n <= [max_retries]; the
    text is the stripped content of the last call or, after [max_retries]
    calls, the fallback; it slept 2**0, .., 2**(n-2) seconds, 2**(n-1) - 1
    in all, and counted at most [n] requests. *)
Theorem X19_generate_response_is_bounded
    (str_format : string -> string -> string -> string + exn)
    (c : LLM.client_t) (query context prompt : string)
    (use_ottawa_prompt : bool) (custom_prompt : option string)
    (max_retries : Z) (self : LLM.t) :
  LLM.client self = Some c ->
  LLM.build_prompt str_format query context use_ottawa_prompt custom_prompt
  = inl prompt ->
  (1 <= max_retries)%Z ->
  let out :=
    LLM.generate_response str_format query context use_ottawa_prompt
      custom_prompt max_retries self in
  exists (n : nat) (text : string),
    (1 <= Z.of_nat n <= max_retries)%Z
    /\ fst out = Some text
    /\ (text = LLM._get_fallback_response query /\ Z.of_nat n = max_retries
        \/ exists response tokens,
             c (List.length (LLM.backend_calls self) + (n - 1))%nat prompt
             = LLM.Completion (Some response) tokens
             /\ text = Str.strip response)
    /\ LLM.backend_calls (snd out)
       = (LLM.backend_calls self ++ repeat prompt n)%list
    /\ LLM.sleeps (snd out)
       = (LLM.sleeps self
          ++ map (fun k => (2 ^ Z.of_nat k)%Z) (seq 0 (n - 1)))%list
    /\ fold_right Z.add 0%Z
         (map (fun k => (2 ^ Z.of_nat k)%Z) (seq 0 (n - 1)))
       = (2 ^ Z.of_nat (n - 1) - 1)%Z
    /\ (LLM.total_requests self <= LLM.total_requests (snd out)
        <= LLM.total_requests self + Z.of_nat n)%Z.
Proof.
  intros Hclient Hprompt Hretries out. subst out.
  unfold LLM.generate_response. rewrite Hclient, Hprompt.
  destruct (Z.to_nat max_retries) as [|remaining] eqn:Hnat; [lia|].
  destruct (attempts_bounded c query prompt max_retries remaining 0 self
              ltac:(lia))
    as (n & text & Hn & Hout & Hwhich & Hcalls & Hsleeps & Hreq & _).
  cbv zeta in *. exists n, text.
  assert (Hpow : backoff 0 (n - 1)
                 = map (fun k => (2 ^ Z.of_nat k)%Z) (seq 0 (n - 1))).
  { rewrite backoff_powers. apply map_ext. intros k. f_equal. }
  split; [lia|]. split; [exact Hout|]. split.
  { destruct Hwhich as [[-> ->]|Hresp]; [left; split; [reflexivity | lia]|].
    now right. }
  split; [exact Hcalls|]. split; [now rewrite Hsleeps, Hpow|].
  split; [|exact Hreq].
  rewrite <- Hpow, backoff_total by lia. lia.
Qed.

(** What the availability probe does to the interface. *)
Lemma is_available_effect (self : LLM.t) :
  let out := LLMStatus.is_available self in
  LLM.backend_calls (snd out)
  = (LLM.backend_calls self
     ++ match LLM.client self with
        | Some _ => [LLMStatus.probe]
        | None => []
        end)%list
  /\ LLM.total_requests (snd out) = LLM.total_requests self
  /\ LLM.total_tokens_used (snd out) = LLM.total_tokens_used self
  /\ LLM.sleeps (snd out) = LLM.sleeps self
  /\ LLM.client (snd out) = LLM.client self
  /\ LLM.api_key (snd out) = LLM.api_key self
  /\ (fst out = true <->
      exists c a s tokens,
        LLM.client self = Some c
        /\ c (List.length (LLM.backend_calls self)) LLMStatus.probe
           = LLM.Completion (Some (String a s)) tokens).
Proof.
  unfold LLMStatus.is_available.
  destruct (LLM.client self) as [c|] eqn:Hclient.
  - destruct (c (List.length (LLM.backend_calls self)) LLMStatus.probe)
      as [e|[[|a s]|] tokens] eqn:Hc; cbn; rewrite ?Hclient;
      (do 6 (split; [reflexivity|])); split;
      try discriminate;
      try (intros (c' & a' & s' & tokens' & [= <-] & Hc'); congruence).
    intros _. exists c, a, s, tokens. auto.
  - cbn. rewrite app_nil_r, Hclient. do 6 (split; [reflexivity|]).
    split; [discriminate|]. intros (c' & a' & s' & tokens' & [=] & _).
Qed.

(** X20. Asking for the system statistics costs a backend request: with a
    client present, [get_system_stats] either raises before anything is
    sent (a corpus value without a length) or sends exactly one request,
    the prompt [Test], which the request and token counters do not count
    and after which it does not sleep; [llm_available] is [True] exactly
    when that request returned a non-empty content, and the two counts are
    the lengths of the corpus values. *)
Theorem X20_system_stats_cost_one_uncounted_request (self : Orchestrator.t)
    (c : LLM.client_t) :
  LLM.client (Orchestrator.llm_interface self) = Some c ->
  let out := Orchestrator.get_system_stats self in
  let llm := Orchestrator.llm_interface self in
  let llm' := Orchestrator.llm_interface (snd out) in
  (forall e, fst out = inr e -> snd out = self)
  /\ (forall stats, fst out = inl stats ->
        LLM.backend_calls llm' = (LLM.backend_calls llm ++ ["Test"])%list
        /\ LLM.total_requests llm' = LLM.total_requests llm
        /\ LLM.total_tokens_used llm' = LLM.total_tokens_used llm
        /\ LLM.sleeps llm' = LLM.sleeps llm
        /\ Pipeline.py_len (Orchestrator.documents self)
           = inl (Orchestrator.documents_loaded stats)
        /\ Pipeline.py_len
             (Orchestrator.seen_chunks (Orchestrator.chunks self))
           = inl (Orchestrator.chunks_available stats)
        /\ Orchestrator.vector_db_initialized stats
           = Orchestrator.is_initialized self
        /\ (Orchestrator.llm_available stats = true <->
            exists a s tokens,
              c (List.length (LLM.backend_calls llm)) "Test"
              = LLM.Completion (Some (String a s)) tokens)).
Proof.
  intros Hclient out llm llm'. subst out llm llm'.
  unfold Orchestrator.get_system_stats.
  destruct (Pipeline.py_len (Orchestrator.documents self))
    as [n_documents|e1]; [|split; [reflexivity | discriminate]].
  destruct (Pipeline.py_len
              (Orchestrator.seen_chunks (Orchestrator.chunks self)))
    as [n_chunks|e2]; [|split; [reflexivity | discriminate]].
  pose proof (is_available_effect (Orchestrator.llm_interface self)) as Heff.
  cbv zeta in Heff.
  destruct (LLMStatus.is_available (Orchestrator.llm_interface self))
    as [available llm'] eqn:Hprobe.
  cbn [fst snd] in *. rewrite Hclient in Heff.
  destruct Heff as (Hcalls & Hreq & Htok & Hsleep & _ & _ & Havail).
  split; [discriminate|]. intros stats [= <-].
  cbn [Orchestrator.llm_interface Orchestrator.documents_loaded
       Orchestrator.chunks_available Orchestrator.vector_db_initialized
       Orchestrator.llm_available].
  do 7 (split; [assumption || reflexivity|]).
  rewrite Havail. split.
  - intros (c' & a & s & tokens & [= <-] & Hc). eauto.
  - intros (a & s & tokens & Hc). exists c, a, s, tokens. auto.
Qed.

(** ** The batches sent to the embedding model, and the cache writes *)

(** The batches the model was asked to encode, oldest first. *)
Definition encoded (events : list Embeddings.event) : list (list string) :=
  flat_map
    (fun e => match e with Embeddings.Encode batch => [batch] | _ => [] end)
    events.

Lemma encoded_app (a b : list Embeddings.event) :
  encoded (a ++ b) = (encoded a ++ encoded b)%list.
Proof. apply flat_map_app. Qed.

Lemma encoded_batches (blocks : list (list string)) :
  encoded (map Embeddings.Encode blocks) = blocks.
Proof.
  induction blocks as [|b rest IH]; [reflexivity|].
  cbn. f_equal. exact IH.
Qed.

Section ManagerProofs.

Variable sha256_hexdigest : string -> string.
Variable encode : list string -> Embeddings.matrix + exn.

Lemma load_effect (texts : list string) (self : Embeddings.t) :
  let out := Embeddings._load_from_cache sha256_hexdigest texts self in
  same_store (snd out) self
  /\ Embeddings.batch_size (snd out) = Embeddings.batch_size self
  /\ encoded (Embeddings.events (snd out)) = encoded (Embeddings.events self).
Proof.
  unfold Embeddings._load_from_cache.
  destruct (Embeddings.cache_dir self) as [dir|];
    [|cbn; repeat split].
  destruct (Embeddings.disk self !! _) as [[|d]|];
    [| destruct (_ && _) |];
    cbn; rewrite ?encoded_app; cbn; rewrite ?app_nil_r; repeat split.
Qed.

(** What the batch loop asks of the model, for any model: the successive
    blocks of [size] texts, up to the first that fails. *)
Lemma encode_batches_blocks (size : nat) :
  (1 <= size)%nat ->
  forall (fuel : nat) (texts : list string) (acc : list Embeddings.matrix)
         (self : Embeddings.t),
    (List.length texts <= fuel)%nat ->
    exists blocks : list (list string),
      let out := Embeddings.encode_batches encode fuel size texts acc self in
      Embeddings.events (snd out)
      = (Embeddings.events self ++ map Embeddings.Encode blocks)%list
      /\ Forall (fun b => (1 <= List.length b <= size)%nat) blocks
      /\ (exists rest, texts = (concat blocks ++ rest)%list)
      /\ (forall results, fst out = inl results ->
            concat blocks = texts
            /\ exists rs, results = (acc ++ rs)%list
                          /\ map encode blocks = map inl rs)
      /\ (forall e, fst out = inr e ->
            exists earlier last,
              blocks = (earlier ++ [last])%list /\ encode last = inr e).
Proof.
  intros Hsize. induction fuel as [|fuel IH]; intros texts acc self Hfuel.
  - destruct texts as [|t ts]; [|cbn in Hfuel; lia].
    exists []. cbn. rewrite app_nil_r. split; [reflexivity|].
    split; [constructor|]. split; [now exists []|]. split.
    + intros results [= <-]. split; [reflexivity|]. exists [].
      now rewrite app_nil_r.
    + discriminate.
  - destruct texts as [|t ts].
    + exists []. cbn. rewrite app_nil_r. split; [reflexivity|].
      split; [constructor|]. split; [now exists []|]. split.
      * intros results [= <-]. split; [reflexivity|]. exists [].
        now rewrite app_nil_r.
      * discriminate.
    + cbn [Embeddings.encode_batches].
      set (texts := t :: ts) in *.
      assert (Hblock : (1 <= List.length (firstn size texts) <= size)%nat).
      { rewrite length_firstn. subst texts. cbn [List.length] in *. lia. }
      destruct (encode (firstn size texts)) as [r|e] eqn:Hr.
      * destruct (IH (skipn size texts) (acc ++ [r])%list
                    (Embeddings.log (Embeddings.Encode (firstn size texts))
                       self))
          as (blocks & Hev & Hall & [rest Hrest] & Hok & Hfail).
        { rewrite length_skipn. subst texts. cbn [List.length] in *. lia. }
        cbv zeta in *. exists (firstn size texts :: blocks).
        split.
        { rewrite Hev. cbn. now rewrite <- app_assoc. }
        split; [now constructor|]. split.
        { exists rest. cbn [concat]. rewrite <- app_assoc, <- Hrest.
          symmetry. apply firstn_skipn. }
        split.
        { intros results Hres. destruct (Hok results Hres)
            as (Hcat & rs & -> & Hrs).
          split; [cbn [concat]; rewrite Hcat; apply firstn_skipn|].
          exists (r :: rs). split; [now rewrite <- app_assoc|].
          cbn [map]. now rewrite Hr, Hrs. }
        intros e He. destruct (Hfail e He) as (earlier & last & -> & Hlast).
        exists (firstn size texts :: earlier), last. now split.
      * exists [firstn size texts]. cbn [fst snd].
        split; [reflexivity|]. split; [now repeat constructor|]. split.
        { exists (skipn size texts). cbn [concat]. rewrite app_nil_r.
          symmetry. apply firstn_skipn. }
        split; [discriminate|].
        intros e' [= <-]. exists [], (firstn size texts). now split.
Qed.

Lemma rowwise_results (embed : string -> list float) :
  (forall batch, encode batch = inl (map embed batch)) ->
  forall (blocks : list (list string)) (rs : list Embeddings.matrix),
    map encode blocks = map inl rs -> rs = map (map embed) blocks.
Proof.
  intros Hembed. induction blocks as [|b bs IH]; intros [|x xs]; cbn [map];
    try discriminate; [reflexivity|].
  rewrite Hembed. intros [= <- Hxs]. f_equal. now apply IH.
Qed.

(** The batches [generate_embeddings] asks the model to encode. *)
Lemma generate_embeddings_blocks (texts : list string)
    (use_cache : bool) (self : Embeddings.t) :
  (1 <= Embeddings.batch_size self)%Z ->
  let out :=
    Embeddings.generate_embeddings sha256_hexdigest encode texts use_cache
      self in
  exists blocks : list (list string),
    encoded (Embeddings.events (snd out))
    = (encoded (Embeddings.events self) ++ blocks)%list
    /\ Forall
         (fun b =>
            (1 <= Z.of_nat (List.length b) <= Embeddings.batch_size self)%Z)
         blocks
    /\ (exists rest, texts = (concat blocks ++ rest)%list)
    /\ (forall embeddings,
          fst out = inl embeddings -> blocks <> [] ->
          concat blocks = texts
          /\ (exists rs, map encode blocks = map inl rs
                         /\ embeddings = concat rs)
          /\ forall embed : string -> list float,
               (forall batch, encode batch = inl (map embed batch)) ->
               embeddings = map embed texts)
    /\ (forall e,
          fst out = inr e -> blocks <> [] ->
          exists earlier last e',
            blocks = (earlier ++ [last])%list /\ encode last = inr e').
Proof.
  intros Hsize out. subst out. unfold Embeddings.generate_embeddings.
  destruct texts as [|t ts].
  { exists []. cbn [fst snd]. rewrite app_nil_r.
    split; [reflexivity|]. split; [constructor|].
    split; [now exists []|]. split; intros; congruence. }
  set (texts := t :: ts).
  set (caching := use_cache && _).
  assert (Hload : exists cached self1,
            (if caching
             then Embeddings._load_from_cache sha256_hexdigest texts self
             else (None, self)) = (cached, self1)
            /\ Embeddings.batch_size self1 = Embeddings.batch_size self
            /\ encoded (Embeddings.events self1)
               = encoded (Embeddings.events self)).
  { destruct caching.
    - pose proof (load_effect texts self) as (_ & Hb & He).
      destruct (Embeddings._load_from_cache sha256_hexdigest texts self)
        as [cached self1]. exists cached, self1. auto.
    - exists None, self. auto. }
  destruct Hload as (cached & self1 & -> & Hbatch & Henc).
  cbv beta iota.
  destruct cached as [cached_embeddings|].
  { exists []. cbn [fst snd]. rewrite app_nil_r.
    split; [exact Henc|]. split; [constructor|].
    split; [now exists texts|]. split; intros; congruence. }
  replace (Embeddings.batch_size self =? 0)%Z with false
    by (symmetry; apply Z.eqb_neq; lia).
  replace (Embeddings.batch_size self <? 0)%Z with false
    by (symmetry; apply Z.ltb_ge; lia).
  destruct (encode_batches_blocks (Z.to_nat (Embeddings.batch_size self))
              ltac:(lia) (List.length texts) texts [] self1 ltac:(lia))
    as (blocks & Hev & Hall & Hprefix & Hok & Hfail).
  cbv zeta in *.
  destruct (Embeddings.encode_batches encode (List.length texts)
              (Z.to_nat (Embeddings.batch_size self)) texts [] self1)
    as [[all_embeddings|e] self2] eqn:Hloop; cbn [fst snd] in *.
  - destruct (Hok all_embeddings eq_refl) as (Hcat & rs & Hrs & Hmap).
    cbn [app] in Hrs. subst all_embeddings.
    exists blocks.
    assert (Hencoded : encoded (Embeddings.events self2)
                       = (encoded (Embeddings.events self) ++ blocks)%list)
      by (now rewrite Hev, encoded_app, encoded_batches, Henc).
    assert (Hbounds : Forall
              (fun b =>
                 (1 <= Z.of_nat (List.length b)
                  <= Embeddings.batch_size self)%Z) blocks).
    { eapply List.Forall_impl; [|exact Hall]. cbn beta. intros b Hb. lia. }
    destruct rs as [|r rs'].
    + cbn [Embeddings.vstack fst snd].
      destruct blocks; [|discriminate].
      split; [exact Hencoded|]. split; [constructor|].
      split; [exact Hprefix|]. split; intros; congruence.
    + cbn [Embeddings.vstack fst snd]. split.
      { destruct caching; [|exact Hencoded].
        unfold Embeddings._save_to_cache.
        destruct (Embeddings.cache_dir self2); [|exact Hencoded].
        destruct (Embeddings.disk_writable self2);
          cbn [Embeddings.write_file Embeddings.log Embeddings.events];
          rewrite encoded_app, Hencoded; cbn; now rewrite app_nil_r. }
      split; [exact Hbounds|]. split; [exact Hprefix|]. split.
      * intros embeddings [= <-] _. split; [exact Hcat|]. split; [eauto|].
        intros embed Hembed. rewrite <- Hcat.
        change (concat (r :: rs') = map embed (concat blocks)).
        rewrite (rowwise_results embed Hembed blocks (r :: rs') Hmap).
        symmetry. apply concat_map.
      * discriminate.
  - exists blocks.
    split; [now rewrite Hev, encoded_app, encoded_batches, Henc|].
    split.
    { eapply List.Forall_impl; [|exact Hall]. cbn beta. intros b Hb. lia. }
    split; [exact Hprefix|]. split; [discriminate|].
    intros e' [= <-] _. destruct (Hfail e eq_refl) as (earlier & last & H).
    exists earlier, last, e. exact H.
Qed.


(** X21. With a batch size of at least 1, [generate_embeddings] asks the
    model for the texts in order and never for a text twice: the batches
    it encodes are non-empty, hold at most [batch_size] texts and spell out
    a prefix of the texts. When it returns an array after encoding
    anything, the batches spell out all the texts and the array is the
    batch results stacked in order; so for a model that embeds each text
    on its own the array does not depend on the batch size. When it
    raises, the last batch encoded is one on which the model raised, or
    nothing was encoded. *)
Theorem X21_texts_are_encoded_once_in_order (texts : list string)
    (use_cache : bool) (self : Embeddings.t) :
  (1 <= Embeddings.batch_size self)%Z ->
  let out :=
    Embeddings.generate_embeddings sha256_hexdigest encode texts use_cache
      self in
  exists blocks : list (list string),
    encoded (Embeddings.events (snd out))
    = (encoded (Embeddings.events self) ++ blocks)%list
    /\ Forall
         (fun b =>
            (1 <= Z.of_nat (List.length b) <= Embeddings.batch_size self)%Z)
         blocks
    /\ (exists rest, texts = (concat blocks ++ rest)%list)
    /\ (forall embeddings,
          fst out = inl embeddings -> blocks <> [] ->
          concat blocks = texts
          /\ (exists rs, map encode blocks = map inl rs
                         /\ embeddings = concat rs)
          /\ forall embed : string -> list float,
               (forall batch, encode batch = inl (map embed batch)) ->
               embeddings = map embed texts)
    /\ (forall e,
          fst out = inr e -> blocks <> [] ->
          exists earlier last e',
            blocks = (earlier ++ [last])%list /\ encode last = inr e').
Proof.
  intros Hsize. exact (generate_embeddings_blocks texts use_cache self Hsize).
Qed.

(** With a batch size of 0 or below the model is never asked. *)
Lemma generate_embeddings_nonpositive (texts : list string)
    (use_cache : bool) (self : Embeddings.t) :
  (Embeddings.batch_size self <= 0)%Z ->
  encoded
    (Embeddings.events
       (snd (Embeddings.generate_embeddings sha256_hexdigest encode texts
               use_cache self)))
  = encoded (Embeddings.events self).
Proof.
  intros Hsize. unfold Embeddings.generate_embeddings.
  destruct texts as [|t ts]; [reflexivity|].
  set (texts := t :: ts).
  set (caching := use_cache && _).
  assert (Hload : exists cached self1,
            (if caching
             then Embeddings._load_from_cache sha256_hexdigest texts self
             else (None, self)) = (cached, self1)
            /\ encoded (Embeddings.events self1)
               = encoded (Embeddings.events self)).
  { destruct caching.
    - pose proof (load_effect texts self) as (_ & _ & He).
      destruct (Embeddings._load_from_cache sha256_hexdigest texts self)
        as [cached self1]. exists cached, self1. auto.
    - exists None, self. auto. }
  destruct Hload as (cached & self1 & -> & Henc). cbv beta iota.
  destruct cached as [cached_embeddings|]; [exact Henc|].
  destruct (Z.eqb_spec (Embeddings.batch_size self) 0) as [Hzero|Hnonzero];
    [exact Henc|].
  replace (Embeddings.batch_size self <? 0)%Z with true
    by (symmetry; apply Z.ltb_lt; lia).
  exact Henc.
Qed.

(** A batch of one text is encoded at most once, as the batch it is. *)
Lemma single_text_encoded (text : string) (use_cache : bool)
    (self : Embeddings.t) :
  exists blocks : list (list string),
    encoded
      (Embeddings.events
         (snd (Embeddings.generate_embeddings sha256_hexdigest encode [text]
                 use_cache self)))
    = (encoded (Embeddings.events self) ++ blocks)%list
    /\ (blocks = [] \/ blocks = [[text]]).
Proof.
  destruct (Z.le_gt_cases 1 (Embeddings.batch_size self)) as [Hpos|Hnonpos].
  - destruct (generate_embeddings_blocks [text] use_cache self Hpos)
      as (blocks & Henc & Hall & [rest Hrest] & _).
    exists blocks. split; [exact Henc|].
    destruct blocks as [|b bs]; [now left|]. right.
    inversion Hall as [|? ? Hb Hbs]; subst.
    destruct b as [|x [|y b']]; cbn in Hb, Hrest; [lia| |].
    + injection Hrest as <- Hnil.
      destruct bs as [|b2 bs']; [reflexivity|].
      inversion Hbs as [|? ? Hb2 _]; subst.
      destruct b2; cbn in Hb2, Hnil; [lia | discriminate].
    + discriminate.
  - exists []. rewrite app_nil_r. split; [|now left].
    apply generate_embeddings_nonpositive. lia.
Qed.

Lemma encode_batches_batch_size (size : nat) :
  forall (fuel : nat) (texts : list string) (acc : list Embeddings.matrix)
         (self : Embeddings.t),
    Embeddings.batch_size
      (snd (Embeddings.encode_batches encode fuel size texts acc self))
    = Embeddings.batch_size self.
Proof.
  induction fuel as [|fuel IH]; intros texts acc self;
    cbn [Embeddings.encode_batches].
  - now destruct texts.
  - destruct texts as [|t ts]; [reflexivity|].
    destruct (encode (firstn size (t :: ts))) as [batch|e];
      [|reflexivity].
    now rewrite IH.
Qed.

(** The entry [_save_to_cache] writes for a batch and its array. *)
Definition entry_for (texts : list string) (embeddings : Embeddings.matrix)
    (self : Embeddings.t) : Embeddings.cache_file :=
  Embeddings.Pickled
    {| Embeddings.cd_model_name := Some (Embeddings.model_name self);
       Embeddings.cd_text_count := Some (Z.of_nat (List.length texts));
       Embeddings.cd_embeddings := Some embeddings;
       Embeddings.cd_embedding_dimension :=
         Some (Embeddings.embedding_dimension self) |}.

(** The writes of [generate_embeddings]. *)
Lemma generate_embeddings_writes
    (texts : list string) (use_cache : bool) (self : Embeddings.t) :
  let out :=
    Embeddings.generate_embeddings sha256_hexdigest encode texts use_cache
      self in
  (same_store (snd out) self
   /\ Embeddings.batch_size (snd out) = Embeddings.batch_size self
   \/ exists dir embeddings,
        use_cache = true
        /\ Embeddings.cache_dir self = Some dir
        /\ Embeddings.disk_writable self = true
        /\ fst out = inl embeddings
        /\ Embeddings.disk (snd out)
           = <[Embeddings.cache_path sha256_hexdigest dir texts self
               := entry_for texts embeddings self]> (Embeddings.disk self)
        /\ Embeddings.model_name (snd out) = Embeddings.model_name self
        /\ Embeddings.batch_size (snd out) = Embeddings.batch_size self
        /\ Embeddings.cache_dir (snd out) = Embeddings.cache_dir self
        /\ Embeddings.embedding_dimension (snd out)
           = Embeddings.embedding_dimension self
        /\ Embeddings.disk_writable (snd out)
           = Embeddings.disk_writable self)
  /\ (use_cache = false ->
      exists blocks,
        Embeddings.events (snd out)
        = (Embeddings.events self ++ map Embeddings.Encode blocks)%list).
Proof.
  intros out. subst out. unfold Embeddings.generate_embeddings.
  destruct texts as [|t ts].
  { cbn [fst snd]. split; [left; split; [apply same_store_refl | reflexivity]|].
    intros _. exists []. cbn. now rewrite app_nil_r. }
  set (texts := t :: ts).
  set (caching := use_cache && _).
  assert (Hcdef : caching
                  = use_cache
                    && match Embeddings.cache_dir self with
                       | Some _ => true
                       | None => false
                       end) by reflexivity.
  clearbody caching.
  assert (Hload : exists cached self1,
            (if caching
             then Embeddings._load_from_cache sha256_hexdigest texts self
             else (None, self)) = (cached, self1)
            /\ same_store self1 self
            /\ Embeddings.batch_size self1 = Embeddings.batch_size self
            /\ (caching = false -> self1 = self)).
  { destruct caching.
    - pose proof (load_effect texts self) as (Hs & Hb & _).
      destruct (Embeddings._load_from_cache sha256_hexdigest texts self)
        as [cached self1]. exists cached, self1.
      split; [reflexivity|]. split; [exact Hs|]. split; [exact Hb|].
      discriminate.
    - exists None, self. split; [reflexivity|].
      split; [apply same_store_refl|]. split; reflexivity. }
  destruct Hload as (cached & self1 & -> & Hstore1 & Hbatch1 & Hsame1).
  cbv beta iota.
  assert (Hnocache : use_cache = false -> caching = false)
    by (intros ->; now rewrite Hcdef).
  destruct cached as [cached_embeddings|].
  { cbn [fst snd]. split; [left; split; assumption|].
    intros Hoff. rewrite (Hsame1 (Hnocache Hoff)). exists []. cbn.
    now rewrite app_nil_r. }
  destruct (Embeddings.batch_size self =? 0)%Z eqn:Hzero.
  { cbn [fst snd]. split; [left; split; assumption|].
    intros Hoff. rewrite (Hsame1 (Hnocache Hoff)). exists []. cbn.
    now rewrite app_nil_r. }
  assert (Hloop : exists batches self2 blocks,
            (if (Embeddings.batch_size self <? 0)%Z
             then (inl [], self1)
             else Embeddings.encode_batches encode (List.length texts)
                    (Z.to_nat (Embeddings.batch_size self)) texts [] self1)
            = (batches, self2)
            /\ same_store self2 self
            /\ Embeddings.batch_size self2 = Embeddings.batch_size self
            /\ Embeddings.events self2
               = (Embeddings.events self1
                  ++ map Embeddings.Encode blocks)%list).
  { destruct (Z.ltb_spec (Embeddings.batch_size self) 0) as [Hneg|Hpos].
    - exists (inl []), self1, []. cbn. rewrite app_nil_r. auto.
    - apply Z.eqb_neq in Hzero.
      destruct (encode_batches_blocks
                  (Z.to_nat (Embeddings.batch_size self)) ltac:(lia)
                  (List.length texts) texts [] self1 ltac:(lia))
        as (blocks & Hev & _).
      pose proof (encode_batches_same_store encode
                    (Z.to_nat (Embeddings.batch_size self))
                    (List.length texts) texts [] self1) as Hs.
      pose proof (encode_batches_batch_size
                    (Z.to_nat (Embeddings.batch_size self))
                    (List.length texts) texts [] self1) as Hb.
      cbv zeta in Hev.
      destruct (Embeddings.encode_batches encode (List.length texts)
                  (Z.to_nat (Embeddings.batch_size self)) texts [] self1)
        as [batches self2].
      cbn [snd] in *. exists batches, self2, blocks.
      split; [reflexivity|]. split; [|split; [congruence | exact Hev]].
      destruct Hs as (? & ? & ? & ? & ?), Hstore1 as (? & ? & ? & ? & ?).
      repeat split; congruence. }
  destruct Hloop as (batches & self2 & blocks & -> & Hstore2 & Hbatch2 & Hev).
  cbv beta iota.
  destruct batches as [all_embeddings|e].
  2:{ cbn [fst snd]. split; [left; split; assumption|].
      intros Hoff. rewrite Hev, (Hsame1 (Hnocache Hoff)). eauto. }
  destruct (Embeddings.vstack all_embeddings) as [embeddings|e].
  2:{ cbn [fst snd]. split; [left; split; assumption|].
      intros Hoff. rewrite Hev, (Hsame1 (Hnocache Hoff)). eauto. }
  cbn [fst snd].
  destruct caching.
  2:{ split; [left; split; assumption|].
      intros Hoff. rewrite Hev, (Hsame1 eq_refl). eauto. }
  split.
  2:{ intros Hoff. discriminate (Hnocache Hoff). }
 symmetry in Hcdef. apply andb_prop in Hcdef.
  destruct Hcdef as [-> Hdir].
  destruct Hstore2 as (Hname & Hcd & Hdisk & Hwr & Hdim).
  unfold Embeddings._save_to_cache. rewrite Hcd.
  destruct (Embeddings.cache_dir self) as [dir|] eqn:Hdirself;
    [|discriminate].
  rewrite Hwr.
  destruct (Embeddings.disk_writable self) eqn:Hwrself.
  - right. exists dir, embeddings.
    cbn [Embeddings.write_file Embeddings.log Embeddings.disk
         Embeddings.model_name Embeddings.batch_size Embeddings.cache_dir
         Embeddings.embedding_dimension Embeddings.disk_writable].
    rewrite (cache_path_same_model sha256_hexdigest dir texts self2 self Hname).
    unfold entry_for. rewrite Hname, Hdim, Hdisk.
    repeat split; auto.
  - left. split; [|exact Hbatch2]. unfold same_store.
    cbn [Embeddings.log Embeddings.model_name Embeddings.cache_dir
         Embeddings.disk Embeddings.disk_writable
         Embeddings.embedding_dimension].
    repeat split; congruence.
Qed.

(** X22. The only file [generate_embeddings] ever writes is the cache
    entry of the batch it was called on, holding the array it returns:
    a call that raises, a call with [use_cache=False] or without a cache
    directory leaves every file as it was. The manager's configuration is
    never changed, and with [use_cache=False] the cache is not even probed:
    the model calls are all the call does. A call answered from the cache
    (an entry under the key of the batch with the manager's model name and
    the size of the batch) returns the stored array after probing and
    loading that file, and writes nothing. *)
Theorem X22_cache_is_written_only_with_what_is_returned
    (texts : list string) (use_cache : bool) (self : Embeddings.t) :
  let out :=
    Embeddings.generate_embeddings sha256_hexdigest encode texts use_cache
      self in
  (same_store (snd out) self
   /\ Embeddings.batch_size (snd out) = Embeddings.batch_size self
   \/ exists dir embeddings,
        use_cache = true
        /\ Embeddings.cache_dir self = Some dir
        /\ Embeddings.disk_writable self = true
        /\ fst out = inl embeddings
        /\ Embeddings.disk (snd out)
           = <[Embeddings.cache_path sha256_hexdigest dir texts self
               := entry_for texts embeddings self]> (Embeddings.disk self)
        /\ Embeddings.model_name (snd out) = Embeddings.model_name self
        /\ Embeddings.batch_size (snd out) = Embeddings.batch_size self
        /\ Embeddings.cache_dir (snd out) = Embeddings.cache_dir self
        /\ Embeddings.embedding_dimension (snd out)
           = Embeddings.embedding_dimension self
        /\ Embeddings.disk_writable (snd out)
           = Embeddings.disk_writable self)
  /\ (use_cache = false ->
      exists blocks,
        Embeddings.events (snd out)
        = (Embeddings.events self ++ map Embeddings.Encode blocks)%list)
  /\ (forall dir d cached,
        texts <> [] ->
        use_cache = true ->
        Embeddings.cache_dir self = Some dir ->
        Embeddings.disk self
          !! Embeddings.cache_path sha256_hexdigest dir texts self
        = Some (Embeddings.Pickled d) ->
        Embeddings.cd_model_name d = Some (Embeddings.model_name self) ->
        Embeddings.cd_text_count d = Some (Z.of_nat (List.length texts)) ->
        Embeddings.cd_embeddings d = Some cached ->
        fst out = inl cached
        /\ Embeddings.disk (snd out) = Embeddings.disk self
        /\ Embeddings.events (snd out)
           = (Embeddings.events self
              ++ [Embeddings.Exists
                    (Embeddings.cache_path sha256_hexdigest dir texts self);
                  Embeddings.Load
                    (Embeddings.cache_path sha256_hexdigest dir texts
                       self)])%list).
Proof.
  intros out.
  destruct (generate_embeddings_writes texts use_cache self)
    as [Hwrites Hquiet].
  split; [exact Hwrites|]. split; [exact Hquiet|].
  intros dir d cached Hne -> Hdir Hfile Hname Hcount Hcached. subst out.
  rewrite (generate_embeddings_hit sha256_hexdigest encode texts self dir d
             cached Hne Hdir Hfile Hname Hcount Hcached).
  cbn [fst snd after_load Embeddings.log Embeddings.disk Embeddings.events].
  split; [reflexivity|]. split; [reflexivity|].
  now rewrite <- app_assoc.
Qed.

(** X23. A batch size of 0 or below never yields an array: unless the
    cache answers, [generate_embeddings] on a non-empty batch raises (from
    [range] for 0, from [np.vstack] of no arrays below 0) without asking
    the model for anything and without writing a file. *)
Theorem X23_nonpositive_batch_size_raises (texts : list string)
    (use_cache : bool) (self : Embeddings.t) :
  texts <> [] ->
  (Embeddings.batch_size self <= 0)%Z ->
  use_cache = false
  \/ Embeddings.cache_dir self = None
  \/ fst (Embeddings._load_from_cache sha256_hexdigest texts self) = None ->
  let out :=
    Embeddings.generate_embeddings sha256_hexdigest encode texts use_cache
      self in
  (exists e, fst out = inr e)
  /\ encoded (Embeddings.events (snd out)) = encoded (Embeddings.events self)
  /\ Embeddings.disk (snd out) = Embeddings.disk self.
Proof.
  intros Hne Hsize Hmiss out. subst out.
  unfold Embeddings.generate_embeddings.
  destruct texts as [|t ts]; [congruence|].
  set (texts := t :: ts) in *.
  set (caching := use_cache && _).
  assert (Hload : exists self1,
            (if caching
             then Embeddings._load_from_cache sha256_hexdigest texts self
             else (None, self)) = (None, self1)
            /\ same_store self1 self
            /\ encoded (Embeddings.events self1)
               = encoded (Embeddings.events self)).
  { destruct caching eqn:Hcaching.
    - subst caching. apply andb_prop in Hcaching.
      destruct Hcaching as [-> Hdir].
      destruct Hmiss as [Hoff|[Hnodir|Hnone]]; [discriminate| |].
      + rewrite Hnodir in Hdir. discriminate.
      + pose proof (load_effect texts self) as (Hs & _ & He).
        destruct (Embeddings._load_from_cache sha256_hexdigest texts self)
          as [cached self1]. cbn [fst snd] in *. subst cached.
        exists self1. auto.
    - exists self. split; [reflexivity|].
      split; [apply same_store_refl | reflexivity]. }
  destruct Hload as (self1 & -> & Hstore1 & Henc1). cbv beta iota.
  destruct (Z.eqb_spec (Embeddings.batch_size self) 0) as [Hzero|Hnonzero].
  - cbn [fst snd]. split; [eauto|]. split; [exact Henc1 | apply Hstore1].
  - replace (Embeddings.batch_size self <? 0)%Z with true
      by (symmetry; apply Z.ltb_lt; lia).
    cbn [Embeddings.vstack fst snd].
    split; [eauto|]. split; [exact Henc1 | apply Hstore1].
Qed.

End ManagerProofs.

(** ** The query path on the components of the pipeline *)

(** What the default call of the LLM interface costs, whatever the
    backend does. *)
Lemma generate_response_default_bounded (query context : string)
    (self : LLM.t) :
  let out := LLM.generate_response_default query context self in
  exists (n : nat) (naps : list Z),
    (n <= 3)%nat
    /\ LLM.backend_calls (snd out)
       = (LLM.backend_calls self
          ++ repeat (LLM._build_ottawa_prompt query context) n)%list
    /\ LLM.sleeps (snd out) = (LLM.sleeps self ++ naps)%list
    /\ (0 <= fold_right Z.add 0%Z naps <= 3)%Z
    /\ (LLM.total_requests self <= LLM.total_requests (snd out)
        <= LLM.total_requests self + Z.of_nat n)%Z
    /\ LLM.client (snd out) = LLM.client self
    /\ exists text, fst out = Some text.
Proof.
  unfold LLM.generate_response_default, LLM.generate_response.
  destruct (LLM.client self) as [c|] eqn:Hclient.
  - cbn [LLM.build_prompt LLM.truthy LLM.default_max_retries].
    change (Z.to_nat 3) with 3%nat.
    destruct (attempts_bounded c query
                (LLM._build_ottawa_prompt query context) 3 2 0 self
                ltac:(lia))
      as (n & text & Hn & Hout & _ & Hcalls & Hsleeps & Hreq & Hcl).
    cbv zeta in *. exists n, (backoff 0 (n - 1)).
    split; [lia|]. split; [exact Hcalls|]. split; [exact Hsleeps|].
    split.
    { rewrite backoff_total by lia.
      assert (Hcases : (n - 1 = 0 \/ n - 1 = 1 \/ n - 1 = 2)%nat) by lia.
      destruct Hcases as [-> | [-> | ->]]; cbn; lia. }
    split; [exact Hreq|].
    split; [first [exact Hcl | now rewrite Hclient in Hcl]|]. eauto.
  - cbn [fst snd]. exists 0%nat, []. cbn [repeat]. rewrite !app_nil_r.
    split; [lia|]. split; [reflexivity|]. split; [reflexivity|].
    split; [cbn; lia|]. split; [lia|]. split; [exact Hclient|]. eauto.
Qed.

(** What [generate_response] of the pipeline costs. *)
Lemma pipeline_generate_response_bounded (np_mean : list Q -> Q)
    (question : string) (context_chunks : list Pipeline.result)
    (llm : LLM.t) :
  let out :=
    Pipeline.generate_response np_mean question context_chunks llm in
  exists (n : nat) (prompt : string) (naps : list Z),
    (n <= 3)%nat
    /\ (context_chunks = [] -> n = 0%nat)
    /\ LLM.backend_calls (snd out)
       = (LLM.backend_calls llm ++ repeat prompt n)%list
    /\ LLM.sleeps (snd out) = (LLM.sleeps llm ++ naps)%list
    /\ (0 <= fold_right Z.add 0%Z naps <= 3)%Z
    /\ (LLM.total_requests llm <= LLM.total_requests (snd out)
        <= LLM.total_requests llm + Z.of_nat n)%Z
    /\ LLM.client (snd out) = LLM.client llm.
Proof.
  assert (Hnone : forall r : Pipeline.response,
            exists (n : nat) (prompt : string) (naps : list Z),
              (n <= 3)%nat
              /\ (context_chunks = [] -> n = 0%nat)
              /\ LLM.backend_calls (snd (r, llm))
                 = (LLM.backend_calls llm ++ repeat prompt n)%list
              /\ LLM.sleeps (snd (r, llm)) = (LLM.sleeps llm ++ naps)%list
              /\ (0 <= fold_right Z.add 0%Z naps <= 3)%Z
              /\ (LLM.total_requests llm <= LLM.total_requests (snd (r, llm))
                  <= LLM.total_requests llm + Z.of_nat 0)%Z
              /\ LLM.client (snd (r, llm)) = LLM.client llm).
  { intros r. exists 0%nat, EmptyString, []. cbn [snd repeat].
    rewrite !app_nil_r. cbn. repeat split; auto; lia. }
  unfold Pipeline.generate_response.
  destruct context_chunks as [|chunk rest].
  { destruct (Hnone (Pipeline.bare_response Pipeline.no_information))
      as (n & prompt & naps & H). exists 0%nat, prompt, naps.
    destruct H as (_ & Hz & H). rewrite (Hz eq_refl) in H.
    split; [lia|]. split; [reflexivity|]. exact H. }
  destruct (Pipeline.format_sources 0 (chunk :: rest)) as [lines|e].
  2:{ exists 0%nat, EmptyString, []. cbn [snd repeat]. rewrite !app_nil_r.
      cbn. repeat split; auto; try lia; discriminate. }
  set (context_text := Str.join _ lines).
  destruct (generate_response_default_bounded question context_text llm)
    as (n & naps & Hn & Hcalls & Hsleeps & Hsum & Hreq & Hcl & _).
  cbv zeta in *.
  destruct (LLM.generate_response_default question context_text llm)
    as [reply llm'].
  cbn [fst snd] in *.
  exists n, (LLM._build_ottawa_prompt question context_text), naps.
  destruct (Pipeline.extract_sources (chunk :: rest) []) as [srcs|e];
    cbn [snd]; repeat split; auto; try lia; discriminate.
Qed.

Section AnswerProofs.

Variable float_sub : Q -> Q -> Q.
Variable np_mean : list Q -> Q.
Variable sha256_hexdigest : string -> string.
Variable encode : list string -> Embeddings.matrix + exn.
Variable chroma :
  list Orchestrator.request_t -> Orchestrator.request_t -> VectorStore.reply.
Variable now : string.

(** A request for the [top_k] nearest records of the selected collection,
    with distances and without a filter. *)
Definition is_query (top_k : Z) (store : Orchestrator.store_t)
    (request : Orchestrator.request_t) : Prop :=
  exists name query_embedding,
    VectorStore.current_collection store = Some name
    /\ request
       = VectorStore.QueryCollection name query_embedding top_k None true.

(** What the retrieval step does to the pipeline. *)
Lemma search_relevant_context_effect (query : string) (top_k : Z)
    (similarity_threshold : Q) (self : Orchestrator.t) :
  let out :=
    Orchestrator.search_relevant_context float_sub
      sha256_hexdigest encode chroma
      query top_k similarity_threshold self in
  let store := Orchestrator.vector_store self in
  let store' := Orchestrator.vector_store (snd out) in
  (Orchestrator.is_initialized self = false -> out = ([], self))
  /\ Orchestrator.is_initialized (snd out) = Orchestrator.is_initialized self
  /\ Orchestrator.documents (snd out) = Orchestrator.documents self
  /\ Orchestrator.chunks (snd out) = Orchestrator.chunks self
  /\ Orchestrator.llm_interface (snd out) = Orchestrator.llm_interface self
  /\ VectorStore.current_collection store'
     = VectorStore.current_collection store
  /\ (exists queries,
        VectorStore.requests store'
        = (VectorStore.requests store ++ queries)%list
        /\ (queries = []
            \/ exists request,
                 queries = [request] /\ is_query top_k store request))
  /\ (exists blocks,
        encoded (Embeddings.events (Orchestrator.embedding_manager (snd out)))
        = (encoded (Embeddings.events (Orchestrator.embedding_manager self))
           ++ blocks)%list
        /\ (blocks = [] \/ blocks = [[query]])).
Proof.
  unfold Orchestrator.search_relevant_context.
  destruct (Orchestrator.is_initialized self) eqn:Hinit; cbn [negb].
  2:{ cbn [fst snd]. rewrite Hinit.
      split; [reflexivity|]. do 5 (split; [reflexivity|]). split.
      - exists []. rewrite app_nil_r. auto.
      - exists []. rewrite app_nil_r. auto. }
  destruct (single_text_encoded sha256_hexdigest encode query true
              (Orchestrator.embedding_manager self))
    as (blocks & Hblocks & Hshape).
  destruct (Embeddings.generate_embeddings sha256_hexdigest encode [query]
              true (Orchestrator.embedding_manager self))
    as [embedded em].
  cbn [snd] in Hblocks.
  assert (Hquiet :
    forall results : list Pipeline.result,
      let out :=
        (results,
         Orchestrator.with_components true em
           (Orchestrator.vector_store self) self) in
      (true = false -> out = ([], self))
      /\ Orchestrator.is_initialized (snd out) = true
      /\ Orchestrator.documents (snd out) = Orchestrator.documents self
      /\ Orchestrator.chunks (snd out) = Orchestrator.chunks self
      /\ Orchestrator.llm_interface (snd out)
         = Orchestrator.llm_interface self
      /\ VectorStore.current_collection
           (Orchestrator.vector_store (snd out))
         = VectorStore.current_collection (Orchestrator.vector_store self)
      /\ (exists queries,
            VectorStore.requests (Orchestrator.vector_store (snd out))
            = (VectorStore.requests (Orchestrator.vector_store self)
               ++ queries)%list
            /\ (queries = []
                \/ exists request,
                     queries = [request]
                     /\ is_query top_k (Orchestrator.vector_store self)
                          request))
      /\ (exists blocks,
            encoded
              (Embeddings.events (Orchestrator.embedding_manager (snd out)))
            = (encoded
                 (Embeddings.events (Orchestrator.embedding_manager self))
               ++ blocks)%list
            /\ (blocks = [] \/ blocks = [[query]]))).
  { intros results out. subst out. cbn [fst snd].
    cbn [Orchestrator.with_components Orchestrator.is_initialized
         Orchestrator.documents Orchestrator.chunks
         Orchestrator.llm_interface Orchestrator.vector_store
         Orchestrator.embedding_manager].
    split; [discriminate|]. do 5 (split; [reflexivity|]). split.
    - exists []. rewrite app_nil_r. auto.
    - exists blocks. auto. }
  destruct embedded as [[|query_embedding rows]|e];
    [apply Hquiet | | apply Hquiet].
  unfold VectorStore.search.
  destruct (VectorStore.current_collection (Orchestrator.vector_store self))
    as [name|] eqn:Hcol; [|apply Hquiet].
  set (request := VectorStore.QueryCollection name query_embedding top_k
                    None true).
  assert (Hsent :
    forall results : list Pipeline.result,
      let out :=
        (results,
         Orchestrator.with_components true em
           (VectorStore.send request (Orchestrator.vector_store self))
           self) in
      (true = false -> out = ([], self))
      /\ Orchestrator.is_initialized (snd out) = true
      /\ Orchestrator.documents (snd out) = Orchestrator.documents self
      /\ Orchestrator.chunks (snd out) = Orchestrator.chunks self
      /\ Orchestrator.llm_interface (snd out)
         = Orchestrator.llm_interface self
      /\ VectorStore.current_collection
           (Orchestrator.vector_store (snd out))
         = Some name
      /\ (exists queries,
            VectorStore.requests (Orchestrator.vector_store (snd out))
            = (VectorStore.requests (Orchestrator.vector_store self)
               ++ queries)%list
            /\ (queries = []
                \/ exists request,
                     queries = [request]
                     /\ is_query top_k (Orchestrator.vector_store self)
                          request))
      /\ (exists blocks,
            encoded
              (Embeddings.events (Orchestrator.embedding_manager (snd out)))
            = (encoded
                 (Embeddings.events (Orchestrator.embedding_manager self))
               ++ blocks)%list
            /\ (blocks = [] \/ blocks = [[query]]))).
  { intros results out. subst out. cbn [fst snd].
    cbn [Orchestrator.with_components Orchestrator.is_initialized
         Orchestrator.documents Orchestrator.chunks
         Orchestrator.llm_interface Orchestrator.vector_store
         Orchestrator.embedding_manager VectorStore.send
         VectorStore.current_collection VectorStore.requests].
    split; [discriminate|]. do 4 (split; [reflexivity|]).
    split; [exact Hcol|]. split.
    - exists [request]. split; [reflexivity|]. right. exists request.
      split; [reflexivity|]. exists name, query_embedding. auto.
    - exists blocks. auto. }
  destruct (chroma (VectorStore.requests (Orchestrator.vector_store self))
              request) as [|results|e]; apply Hsent.
Qed.

(** What answering one question does to the pipeline. *)
Lemma answer_question_effect (question : string) (self : Orchestrator.t) :
  let out :=
    Orchestrator.answer_question float_sub np_mean
      sha256_hexdigest encode chroma now question
      self in
  let store := Orchestrator.vector_store self in
  let store' := Orchestrator.vector_store (snd out) in
  let manager := Orchestrator.embedding_manager self in
  let manager' := Orchestrator.embedding_manager (snd out) in
  let llm := Orchestrator.llm_interface self in
  let llm' := Orchestrator.llm_interface (snd out) in
  (Orchestrator.is_initialized (snd out) = Orchestrator.is_initialized self
   /\ Orchestrator.documents (snd out) = Orchestrator.documents self
   /\ Orchestrator.chunks (snd out) = Orchestrator.chunks self
   /\ VectorStore.current_collection store'
      = VectorStore.current_collection store)
  /\ (exists queries,
        VectorStore.requests store'
        = (VectorStore.requests store ++ queries)%list
        /\ (queries = []
            \/ exists request,
                 queries = [request]
                 /\ is_query Pipeline.default_top_k store request))
  /\ (exists blocks,
        encoded (Embeddings.events manager')
        = (encoded (Embeddings.events manager) ++ blocks)%list
        /\ (blocks = [] \/ blocks = [[question]]))
  /\ (exists (n : nat) (prompt : string) (naps : list Z),
        (n <= 3)%nat
        /\ LLM.backend_calls llm'
           = (LLM.backend_calls llm ++ repeat prompt n)%list
        /\ LLM.sleeps llm' = (LLM.sleeps llm ++ naps)%list
        /\ (0 <= fold_right Z.add 0%Z naps <= 3)%Z
        /\ (LLM.total_requests llm <= LLM.total_requests llm'
            <= LLM.total_requests llm + Z.of_nat n)%Z
        /\ LLM.client llm' = LLM.client llm)
  /\ (Orchestrator.is_initialized self = false ->
      manager' = manager /\ store' = store /\ llm' = llm).
Proof.
  unfold Orchestrator.answer_question.
  pose proof (search_relevant_context_effect question Pipeline.default_top_k
                Pipeline.default_similarity_threshold self) as Hsearch.
  cbv zeta in Hsearch.
  destruct (Orchestrator.search_relevant_context float_sub
              sha256_hexdigest encode
              chroma question Pipeline.default_top_k
              Pipeline.default_similarity_threshold self)
    as [relevant_chunks searched].
  cbn [fst snd] in Hsearch.
  destruct Hsearch
    as (Hoff & Hinit & Hdocs & Hchunks & Hllm & Hcol & Hqueries & Hblocks).
  pose proof (pipeline_generate_response_bounded np_mean question relevant_chunks
                (Orchestrator.llm_interface searched)) as Hgen.
  cbv zeta in Hgen.
  destruct (Pipeline.generate_response np_mean question relevant_chunks
              (Orchestrator.llm_interface searched)) as [r llm1]
    eqn:Hgenerate.
  cbn [fst snd] in Hgen.
  destruct Hgen
    as (n & prompt & naps & Hn & Hempty & Hcalls & Hsleeps & Hsum & Hreq
        & Hcl).
  assert (Hanswered :
    forall r' : Pipeline.response,
      let out := (r', Orchestrator.set_llm llm1 searched) in
      (Orchestrator.is_initialized (snd out)
       = Orchestrator.is_initialized self
       /\ Orchestrator.documents (snd out) = Orchestrator.documents self
       /\ Orchestrator.chunks (snd out) = Orchestrator.chunks self
       /\ VectorStore.current_collection
            (Orchestrator.vector_store (snd out))
          = VectorStore.current_collection (Orchestrator.vector_store self))
      /\ (exists queries,
            VectorStore.requests (Orchestrator.vector_store (snd out))
            = (VectorStore.requests (Orchestrator.vector_store self)
               ++ queries)%list
            /\ (queries = []
                \/ exists request,
                     queries = [request]
                     /\ is_query Pipeline.default_top_k
                          (Orchestrator.vector_store self) request))
      /\ (exists blocks,
            encoded
              (Embeddings.events (Orchestrator.embedding_manager (snd out)))
            = (encoded
                 (Embeddings.events (Orchestrator.embedding_manager self))
               ++ blocks)%list
            /\ (blocks = [] \/ blocks = [[question]]))
      /\ (exists (n : nat) (prompt : string) (naps : list Z),
            (n <= 3)%nat
            /\ LLM.backend_calls (Orchestrator.llm_interface (snd out))
               = (LLM.backend_calls (Orchestrator.llm_interface self)
                  ++ repeat prompt n)%list
            /\ LLM.sleeps (Orchestrator.llm_interface (snd out))
               = (LLM.sleeps (Orchestrator.llm_interface self) ++ naps)%list
            /\ (0 <= fold_right Z.add 0%Z naps <= 3)%Z
            /\ (LLM.total_requests (Orchestrator.llm_interface self)
                <= LLM.total_requests (Orchestrator.llm_interface (snd out))
                <= LLM.total_requests (Orchestrator.llm_interface self)
                   + Z.of_nat n)%Z
            /\ LLM.client (Orchestrator.llm_interface (snd out))
               = LLM.client (Orchestrator.llm_interface self))
      /\ (Orchestrator.is_initialized self = false ->
          Orchestrator.embedding_manager (snd out)
          = Orchestrator.embedding_manager self
          /\ Orchestrator.vector_store (snd out)
             = Orchestrator.vector_store self
          /\ Orchestrator.llm_interface (snd out)
             = Orchestrator.llm_interface self)).
  { intros r' out. subst out.
    cbn [fst snd Orchestrator.set_llm Orchestrator.is_initialized
         Orchestrator.documents Orchestrator.chunks
         Orchestrator.vector_store Orchestrator.embedding_manager
         Orchestrator.llm_interface].
    split; [auto|]. split; [exact Hqueries|]. split; [exact Hblocks|].
    split.
    { exists n, prompt, naps. rewrite <- Hllm. auto 10. }
    intros Hfalse. injection (Hoff Hfalse) as Hnil Hsame.
    subst searched relevant_chunks.
    split; [reflexivity|]. split; [reflexivity|].
    cbn [Pipeline.generate_response] in Hgenerate.
    now injection Hgenerate as _ <-. }
  destruct (Pipeline.add_metadata now question
              (Orchestrator.serving (Orchestrator.set_llm llm1 searched)) r)
    as [r'|e]; apply Hanswered.
Qed.

(** X24. Whatever the embedding model, ChromaDB and the generation
    backend do, answering one question asks the model for at most one
    batch, the question itself; sends ChromaDB at most one request, a query
    for the 5 nearest records of the selected collection with distances
    and without a filter; calls the backend at most 3 times, each time
    with the same prompt, and sleeps at most 3 seconds in all; and leaves
    the corpus, the initialised mark and the selected collection as they
    were. On a pipeline that is not initialised none of the three
    components is touched. *)
Theorem X24_a_question_costs_one_query_and_three_calls_at_most
    (question : string) (self : Orchestrator.t) :
  let out :=
    Orchestrator.answer_question float_sub np_mean
      sha256_hexdigest encode chroma now question
      self in
  let store := Orchestrator.vector_store self in
  let store' := Orchestrator.vector_store (snd out) in
  let manager := Orchestrator.embedding_manager self in
  let manager' := Orchestrator.embedding_manager (snd out) in
  let llm := Orchestrator.llm_interface self in
  let llm' := Orchestrator.llm_interface (snd out) in
  (Orchestrator.is_initialized (snd out) = Orchestrator.is_initialized self
   /\ Orchestrator.documents (snd out) = Orchestrator.documents self
   /\ Orchestrator.chunks (snd out) = Orchestrator.chunks self
   /\ VectorStore.current_collection store'
      = VectorStore.current_collection store)
  /\ (exists queries,
        VectorStore.requests store'
        = (VectorStore.requests store ++ queries)%list
        /\ (queries = []
            \/ exists request,
                 queries = [request]
                 /\ is_query Pipeline.default_top_k store request))
  /\ (exists blocks,
        encoded (Embeddings.events manager')
        = (encoded (Embeddings.events manager) ++ blocks)%list
        /\ (blocks = [] \/ blocks = [[question]]))
  /\ (exists (n : nat) (prompt : string) (naps : list Z),
        (n <= 3)%nat
        /\ LLM.backend_calls llm'
           = (LLM.backend_calls llm ++ repeat prompt n)%list
        /\ LLM.sleeps llm' = (LLM.sleeps llm ++ naps)%list
        /\ (0 <= fold_right Z.add 0%Z naps <= 3)%Z
        /\ (LLM.total_requests llm <= LLM.total_requests llm'
            <= LLM.total_requests llm + Z.of_nat n)%Z
        /\ LLM.client llm' = LLM.client llm)
  /\ (Orchestrator.is_initialized self = false ->
      manager' = manager /\ store' = store /\ llm' = llm).
Proof. exact (answer_question_effect question self). Qed.

End AnswerProofs.

(** ** The question handler of the chatbot *)

(** The corpus of a pipeline has a length. *)
Definition sized (p : Orchestrator.t) : Prop :=
  exists n_documents n_chunks,
    Pipeline.py_len (Orchestrator.documents p) = inl n_documents
    /\ Pipeline.py_len (Orchestrator.seen_chunks (Orchestrator.chunks p))
       = inl n_chunks.

(** A chatbot that says it is ready has a pipeline whose corpus has a
    length. *)
Definition serviceable (self : Chatbot.t) : Prop :=
  Chatbot.pipeline_initialized self = true ->
  exists p, Chatbot.pipeline self = Some p /\ sized p.

(** The counters, flags and session history of two states agree. *)
Definition same_books (a b : Chatbot.t) : Prop :=
  Chatbot.pipeline_initialized a = Chatbot.pipeline_initialized b
  /\ Chatbot.enable_analytics a = Chatbot.enable_analytics b
  /\ Chatbot.session_history a = Chatbot.session_history b
  /\ Chatbot.total_questions a = Chatbot.total_questions b
  /\ Chatbot.successful_responses a = Chatbot.successful_responses b.

Lemma same_books_refl (a : Chatbot.t) : same_books a a.
Proof. repeat split. Qed.

Lemma same_books_trans (a b c : Chatbot.t) :
  same_books a b -> same_books b c -> same_books a c.
Proof.
  intros (? & ? & ? & ? & ?) (? & ? & ? & ? & ?).
  repeat split; congruence.
Qed.

Lemma get_system_stats_effect (p : Orchestrator.t) :
  let out := Orchestrator.get_system_stats p in
  Orchestrator.documents (snd out) = Orchestrator.documents p
  /\ Orchestrator.chunks (snd out) = Orchestrator.chunks p
  /\ Orchestrator.is_initialized (snd out) = Orchestrator.is_initialized p
  /\ Orchestrator.embedding_manager (snd out)
     = Orchestrator.embedding_manager p
  /\ Orchestrator.vector_store (snd out) = Orchestrator.vector_store p
  /\ (sized p ->
      (exists stats, fst out = inl stats)
      /\ Orchestrator.llm_interface (snd out)
         = snd (LLMStatus.is_available (Orchestrator.llm_interface p)))
  /\ ((exists e, fst out = inr e) -> snd out = p).
Proof.
  unfold Orchestrator.get_system_stats, sized.
  destruct (Pipeline.py_len (Orchestrator.documents p)) as [n_documents|e1].
  2:{ cbn [fst snd]. do 5 (split; [reflexivity|]). split; [|reflexivity].
      intros (? & ? & [=] & _). }
  destruct (Pipeline.py_len
              (Orchestrator.seen_chunks (Orchestrator.chunks p)))
    as [n_chunks|e2].
  2:{ cbn [fst snd]. do 5 (split; [reflexivity|]). split; [|reflexivity].
      intros (? & ? & _ & [=]). }
  destruct (LLMStatus.is_available (Orchestrator.llm_interface p))
    as [available llm'].
  cbn [fst snd Orchestrator.documents Orchestrator.chunks
       Orchestrator.is_initialized Orchestrator.embedding_manager
       Orchestrator.vector_store Orchestrator.llm_interface].
  do 5 (split; [reflexivity|]). split.
  - intros _. split; [eauto | reflexivity].
  - intros [e [=]].
Qed.

(** What asking for the status panel does. *)
Lemma status_effect (self : Chatbot.t) :
  let out := Chatbot._get_status_html self in
  same_books (snd out) self
  /\ (serviceable self ->
      serviceable (snd out) /\ exists shown, fst out = inl shown)
  /\ (Chatbot.pipeline_initialized self = false -> snd out = self)
  /\ (Chatbot.pipeline self = None -> snd out = self)
  /\ (forall p,
        Chatbot.pipeline self = Some p ->
        Chatbot.pipeline_initialized self = true ->
        Chatbot.pipeline (snd out)
        = Some (snd (Orchestrator.get_system_stats p)))
  /\ (forall p,
        Chatbot.pipeline self = Some p ->
        exists p',
          Chatbot.pipeline (snd out) = Some p'
          /\ Orchestrator.documents p' = Orchestrator.documents p
          /\ Orchestrator.chunks p' = Orchestrator.chunks p).
Proof.
  unfold Chatbot._get_status_html.
  destruct (Chatbot.pipeline_initialized self) eqn:Hinit; cbn [negb].
  2:{ cbn [fst snd]. split; [apply same_books_refl|].
      split; [eauto|]. split; [reflexivity|]. split; [reflexivity|].
      split; [discriminate|]. intros p Hp. exists p. auto. }
  destruct (Chatbot.pipeline self) as [p|] eqn:Hp.
  2:{ cbn [fst snd]. split; [apply same_books_refl|]. split.
      { intros Hs. destruct (Hs Hinit) as (p & Hsome & _). congruence. }
      split; [discriminate|]. split; [reflexivity|].
      split; discriminate. }
  pose proof (get_system_stats_effect p) as Heff. cbv zeta in Heff.
  destruct (Orchestrator.get_system_stats p) as [stats p'] eqn:Hstats.
  cbn [fst snd] in *.
  destruct Heff as (Hdocs & Hchunks & _ & _ & _ & Hsized & _).
  split.
  { unfold same_books. cbn. rewrite Hinit. repeat split. }
  split.
  { intros Hs. destruct (Hs Hinit) as (p0 & Hp0 & Hsz).
    rewrite Hp in Hp0. injection Hp0 as <-.
    destruct (Hsized Hsz) as [[s ->] _]. split; [|eauto].
    intros _. exists p'. split; [reflexivity|].
    destruct Hsz as (n & m & Hn & Hm). exists n, m.
    now rewrite Hdocs, Hchunks. }
  split; [discriminate|]. split; [discriminate|]. split.
  - intros p0 [= <-] _. now rewrite Hstats.
  - intros p0 [= <-]. exists p'. auto.
Qed.

Section HandlerProofs.

Variable float_sub : Q -> Q -> Q.
Variable np_mean : list Q -> Q.
Variable sha256_hexdigest : string -> string.
Variable encode : list string -> Embeddings.matrix + exn.
Variable chroma :
  list Orchestrator.request_t -> Orchestrator.request_t -> VectorStore.reply.
Variable now : string.
Variable clock : string.

Lemma finish_effect (confidence : option (Chatbot.confidence_class * Q))
    (sources : option Chatbot.sources_panel)
    (history : list (string * string)) (self : Chatbot.t) :
  let out := Chatbot.finish confidence sources history self in
  snd (fst out) = history
  /\ same_books (snd out) self
  /\ (serviceable self ->
      serviceable (snd out)
      /\ exists shown,
           fst (fst out)
           = inl {| Chatbot.confidence_html := confidence;
                    Chatbot.sources_html := sources;
                    Chatbot.status_html := shown |})
  /\ (forall p,
        Chatbot.pipeline self = Some p ->
        Chatbot.pipeline_initialized self = true ->
        Chatbot.pipeline (snd out)
        = Some (snd (Orchestrator.get_system_stats p))).
Proof.
  unfold Chatbot.finish.
  pose proof (status_effect self) as (Hbooks & Hserv & _ & _ & Hpipe & _).
  destruct (Chatbot._get_status_html self) as [shown self'].
  cbn [fst snd] in *. split; [reflexivity|]. split; [exact Hbooks|].
  split; [|exact Hpipe].
  intros Hs. destruct (Hserv Hs) as [Hs' [s ->]]. split; [exact Hs'|].
  eauto.
Qed.

(** [True] for a question that reaches the pipeline. *)
Definition asked (question : string) (self : Chatbot.t) : bool :=
  match Str.strip question with
  | EmptyString => false
  | String _ _ => Chatbot.pipeline_initialized self
  end.

Definition one_if (b : bool) : Z := if b then 1%Z else 0%Z.

(** The session history after a call: as before, or with one entry for
    the question appended and cut to its last 100 entries. *)
Definition tracked (question : string)
    (before after : list Chatbot.session_entry) : Prop :=
  after = before
  \/ exists entry,
       Chatbot.se_question entry = question
       /\ Chatbot.se_success entry = true
       /\ after = Chatbot.last_n 100 (before ++ [entry])%list.

(** The books of the chatbot after a call on [question]. *)
Definition booked (question : string) (self self' : Chatbot.t) : Prop :=
  Chatbot.pipeline_initialized self' = Chatbot.pipeline_initialized self
  /\ Chatbot.enable_analytics self' = Chatbot.enable_analytics self
  /\ Chatbot.total_questions self'
     = (Chatbot.total_questions self + one_if (asked question self))%Z
  /\ (Chatbot.successful_responses self
      <= Chatbot.successful_responses self'
      <= Chatbot.successful_responses self + one_if (asked question self))%Z
  /\ tracked question (Chatbot.session_history self)
       (Chatbot.session_history self').

Lemma booked_same_books (question : string) (self a b : Chatbot.t) :
  booked question self a -> same_books b a -> booked question self b.
Proof.
  intros (H1 & H2 & H3 & H4 & H5) (S1 & S2 & S3 & S4 & S5).
  unfold booked. rewrite S1, S2, S3, S4, S5. auto.
Qed.

Lemma last_n_length {A : Type} (n : nat) (xs : list A) :
  (List.length (Chatbot.last_n n xs) <= n)%nat.
Proof. unfold Chatbot.last_n. rewrite length_skipn. lia. Qed.

Lemma last_n_all {A : Type} (n : nat) (xs : list A) :
  (List.length xs <= n)%nat -> Chatbot.last_n n xs = xs.
Proof.
  intros H. unfold Chatbot.last_n.
  now replace (List.length xs - n)%nat with 0%nat by lia.
Qed.

(** What [_track_session] does after an answer. *)
Lemma track_effect (question : string) (response_data : Pipeline.response)
    (a : ascii) (rest : string) (self : Chatbot.t) :
  Pipeline.answer response_data = Some (String a rest) ->
  exists self',
    Chatbot._track_session clock question response_data self = inl self'
    /\ Chatbot.pipeline self' = Chatbot.pipeline self
    /\ Chatbot.pipeline_initialized self'
       = Chatbot.pipeline_initialized self
    /\ Chatbot.enable_analytics self' = Chatbot.enable_analytics self
    /\ Chatbot.total_questions self' = Chatbot.total_questions self
    /\ Chatbot.successful_responses self'
       = Chatbot.successful_responses self
    /\ tracked question (Chatbot.session_history self)
         (Chatbot.session_history self').
Proof.
  intros Hanswer. unfold Chatbot._track_session. rewrite Hanswer.
  destruct (Chatbot.enable_analytics self) eqn:Hon.
  2:{ exists self. rewrite Hon. repeat split; auto. now left. }
  cbv zeta.
  set (entry := Chatbot.mk_session_entry _ _ _ _ _ _).
  eexists. split; [reflexivity|].
  cbn [Chatbot.set_session_history Chatbot.pipeline
       Chatbot.pipeline_initialized Chatbot.enable_analytics
       Chatbot.total_questions Chatbot.successful_responses
       Chatbot.session_history].
  rewrite Hon. do 5 (split; [reflexivity|]).
  right. exists entry. split; [reflexivity|]. split; [reflexivity|].
  destruct (Nat.ltb_spec 100
              (List.length (Chatbot.session_history self ++ [entry])%list))
    as [Hlong|Hshort]; [reflexivity|].
  symmetry. apply last_n_all. exact Hshort.
Qed.

(** What the [try] block of the handler does. *)
Lemma attempt_effect (question : string) (history : list (string * string))
    (self : Chatbot.t) :
  let out :=
    Chatbot.attempt_question float_sub np_mean
      sha256_hexdigest encode chroma now clock
      question history self in
  booked question self (snd out)
  /\ (exists added,
        snd (fst out) = (history ++ added)%list
        /\ (List.length added <= 1)%nat
        /\ Forall (fun entry => fst entry = question) added)
  /\ (serviceable self ->
      serviceable (snd out)
      /\ (exists shown, fst (fst out) = inl shown)
      /\ exists added,
           snd (fst out) = (history ++ added)%list
           /\ List.length added
              = match Str.strip question with
                | EmptyString => 0%nat
                | String _ _ => 1%nat
                end)
  /\ (forall p,
        Chatbot.pipeline self = Some p ->
        Chatbot.pipeline_initialized self = true ->
        Chatbot.pipeline (snd out)
        = Some
            (snd (Orchestrator.get_system_stats
                    match Str.strip question with
                    | EmptyString => p
                    | String _ _ =>
                        snd (Orchestrator.answer_question float_sub np_mean
                               sha256_hexdigest
                               encode chroma now question p)
                    end))).
Proof.
  unfold Chatbot.attempt_question, booked, asked.
  destruct (Str.strip question) as [|c0 stripped] eqn:Hstrip.
  { pose proof (finish_effect None None history self)
      as (Hhist & Hbooks & Hserv & Hpipe).
    destruct (Chatbot.finish None None history self) as [[res h1] s1].
    cbn [fst snd] in *. subst h1.
    destruct Hbooks as (B1 & B2 & B3 & B4 & B5).
    rewrite B1, B2, B3, B4, B5. cbv beta iota. cbn [one_if].
    split; [repeat split; try reflexivity; try lia; now left|].
    split; [exists []; rewrite app_nil_r; repeat split; auto|].
    split; [|exact Hpipe].
    intros Hs. destruct (Hserv Hs) as (Hs' & shown & ->).
    split; [exact Hs'|]. split; [eauto|]. exists [].
    now rewrite app_nil_r. }
  destruct (Chatbot.pipeline_initialized self) eqn:Hinit; cbn [negb].
  2:{ pose proof (finish_effect None None
                    (history ++ [(question, Chatbot.not_ready)])%list self)
        as (Hhist & Hbooks & Hserv & _).
      destruct (Chatbot.finish None None
                  (history ++ [(question, Chatbot.not_ready)])%list self)
        as [[res h1] s1].
      cbn [fst snd] in *. subst h1.
      destruct Hbooks as (B1 & B2 & B3 & B4 & B5).
      rewrite B1, B2, B3, B4, B5, ?Hinit. cbv beta iota. cbn [one_if].
      split; [repeat split; try reflexivity; try lia; now left|].
      split; [exists [(question, Chatbot.not_ready)];
              repeat split; auto; repeat constructor|].
      split; [|discriminate].
      intros Hs. destruct (Hserv Hs) as (Hs' & shown & ->).
      split; [exact Hs'|]. split; [eauto|].
      exists [(question, Chatbot.not_ready)]. auto. }
  cbn [Chatbot.count_question Chatbot.pipeline].
  destruct (Chatbot.pipeline self) as [p|] eqn:Hp.
  2:{ cbn [fst snd Chatbot.count_question Chatbot.pipeline_initialized
           Chatbot.enable_analytics Chatbot.total_questions
           Chatbot.successful_responses Chatbot.session_history].
      rewrite ?Hinit. cbv beta iota. cbn [one_if].
      split; [repeat split; try reflexivity; try lia; now left|].
      split; [exists []; rewrite app_nil_r; repeat split; auto|].
      split; [|discriminate].
      intros Hs. destruct (Hs Hinit) as (p & Hsome & _). congruence. }
  pose proof (answer_question_effect float_sub np_mean
                sha256_hexdigest encode chroma now
                question p) as Hanswer.
  cbv zeta in Hanswer.
  destruct (Orchestrator.answer_question float_sub np_mean
              sha256_hexdigest encode chroma now
              question p) as [response_data p'] eqn:Hasked.
  cbn [fst snd] in Hanswer.
  destruct Hanswer as ((_ & Hdocs & Hchunks & _) & _).
  set (counted := Chatbot.count_question self).
  set (answered := Chatbot.set_pipeline (Some p') _).
  assert (Hserv_answered : serviceable self -> serviceable answered).
  { intros Hs _. destruct (Hs Hinit) as (p0 & Hp0 & Hsz).
    rewrite Hp in Hp0. injection Hp0 as <-.
    exists p'. split; [reflexivity|].
    destruct Hsz as (n & m & Hn & Hm). exists n, m.
    now rewrite Hdocs, Hchunks. }
  assert (Hpipe_answered :
            forall s1 : Chatbot.t,
              Chatbot.pipeline s1
              = Some (snd (Orchestrator.get_system_stats p')) ->
              forall p0, Some p = Some p0 -> true = true ->
                Chatbot.pipeline s1
                = Some
                    (snd (Orchestrator.get_system_stats
                            (snd (Orchestrator.answer_question
                                    float_sub np_mean
                                      sha256_hexdigest encode chroma now
                                    question p0))))).
  { intros s1 Hs1 p0 [= <-] _. now rewrite Hasked. }
  destruct (Pipeline.answer response_data) as [[|a rest]|] eqn:Hans.
  1, 3:
    pose proof (finish_effect None None
                  (history
                   ++ [(question, Chatbot.no_relevant_information)])%list
                  answered)
      as (Hhist & Hbooks & Hserv & Hpipe);
    destruct (Chatbot.finish None None
                (history
                 ++ [(question, Chatbot.no_relevant_information)])%list
                answered)
      as [[res h1] s1];
    cbn [fst snd] in *; subst h1;
    destruct Hbooks as (B1 & B2 & B3 & B4 & B5);
    rewrite B1, B2, B3, B4, B5;
    specialize (Hpipe p' eq_refl Hinit);
    subst answered counted;
    cbn [Chatbot.set_pipeline Chatbot.count_question
         Chatbot.pipeline_initialized Chatbot.enable_analytics
         Chatbot.total_questions Chatbot.successful_responses
         Chatbot.session_history one_if];
    rewrite ?Hinit; cbv beta iota; cbn [one_if];
    (split; [repeat split; try reflexivity; try lia; now left|]);
    (split; [exists [(question, Chatbot.no_relevant_information)];
             repeat split; auto; repeat constructor|]);
    (split; [|exact (Hpipe_answered s1 Hpipe)]);
    intros Hs; destruct (Hserv (Hserv_answered Hs)) as (Hs' & shown & ->);
    split; [exact Hs'|]; split; [eauto|];
    exists [(question, Chatbot.no_relevant_information)]; auto.
  set (succeeded := Chatbot.count_success answered).
  destruct (track_effect question response_data a rest succeeded Hans)
    as (tracked_self & -> & Tp & T1 & T2 & T3 & T4 & T5).
  assert (Hserv_tracked : serviceable self -> serviceable tracked_self).
  { intros Hs Hi. rewrite Tp. rewrite T1 in Hi.
    exact (Hserv_answered Hs Hi). }
  pose proof (finish_effect
                (Some (Chatbot._format_confidence
                         (Pipeline.confidence response_data)))
                (Some (Chatbot._format_sources
                         (Pipeline.sources response_data)))
                (history ++ [(question, String a rest)])%list tracked_self)
    as (Hhist & Hbooks & Hserv & Hpipe).
  destruct (Chatbot.finish _ _ _ tracked_self) as [[res h1] s1].
  cbn [fst snd] in *. subst h1.
  destruct Hbooks as (B1 & B2 & B3 & B4 & B5).
  rewrite B1, B2, B3, B4, B5, T1, T2, T3, T4.
  specialize (Hpipe p' Tp (eq_trans T1 Hinit)).
  subst succeeded answered counted.
  cbn [Chatbot.count_success Chatbot.set_pipeline
       Chatbot.count_question Chatbot.pipeline_initialized
       Chatbot.enable_analytics Chatbot.total_questions
       Chatbot.successful_responses Chatbot.session_history one_if] in *.
  rewrite ?Hinit. cbv beta iota. cbn [one_if].
  split; [repeat split; try reflexivity; try lia; exact T5|].
  split; [exists [(question, String a rest)];
          repeat split; auto; repeat constructor|].
  split; [|exact (Hpipe_answered s1 Hpipe)].
  intros Hs. destruct (Hserv (Hserv_tracked Hs)) as (Hs' & shown & ->).
  split; [exact Hs'|]. split; [eauto|].
  exists [(question, String a rest)]. auto.
Qed.

(** The handler after its [try] block: the outcome of the block, or the
    error reply and one more status panel. *)
Lemma process_question_effect (question : string)
    (history : list (string * string)) (self : Chatbot.t) :
  let attempt :=
    Chatbot.attempt_question float_sub np_mean
      sha256_hexdigest encode chroma now clock
      question history self in
  let out :=
    Chatbot.process_question float_sub np_mean
      sha256_hexdigest encode chroma now clock
      question history self in
  same_books (snd out) (snd attempt)
  /\ (snd (fst out) = snd (fst attempt)
      \/ snd (fst out)
         = (snd (fst attempt) ++ [(question, Chatbot.error_processing)])%list)
  /\ ((exists shown, fst (fst attempt) = inl shown) -> out = attempt).
Proof.
  unfold Chatbot.process_question.
  destruct (Chatbot.attempt_question float_sub np_mean
              sha256_hexdigest encode chroma now
              clock question history self) as [[[shown|e] h1] s1].
  - cbn [fst snd]. split; [apply same_books_refl|]. split; [now left|].
    reflexivity.
  - pose proof (finish_effect None None
                  (h1 ++ [(question, Chatbot.error_processing)])%list s1)
      as (Hhist & Hbooks & _).
    destruct (Chatbot.finish None None
                (h1 ++ [(question, Chatbot.error_processing)])%list s1)
      as [[res h2] s2].
    cbn [fst snd] in *. subst h2. split; [exact Hbooks|].
    split; [now right|]. intros [shown [=]].
Qed.

(** X25. The handler keeps its books, whatever the pipeline does and even
    when an exception escapes it: a question that is not blank on a
    chatbot that is ready adds 1 to [total_questions] and at most 1 to
    [successful_responses], any other question adds nothing to either, so
    [successful_responses <= total_questions] is kept; the session history
    is as before or has one entry for the question appended, cut to its
    last 100 entries, so it never grows beyond 100; and the chat history
    only grows, by at most two replies, each to this question. *)
Theorem X25_handler_keeps_its_books (question : string)
    (history : list (string * string)) (self : Chatbot.t) :
  let out :=
    Chatbot.process_question float_sub np_mean
      sha256_hexdigest encode chroma now clock
      question history self in
  let counted :=
    match Str.strip question with
    | EmptyString => 0%Z
    | String _ _ => if Chatbot.pipeline_initialized self then 1%Z else 0%Z
    end in
  Chatbot.pipeline_initialized (snd out) = Chatbot.pipeline_initialized self
  /\ Chatbot.enable_analytics (snd out) = Chatbot.enable_analytics self
  /\ Chatbot.total_questions (snd out)
     = (Chatbot.total_questions self + counted)%Z
  /\ (Chatbot.successful_responses self
      <= Chatbot.successful_responses (snd out)
      <= Chatbot.successful_responses self + counted)%Z
  /\ ((Chatbot.successful_responses self <= Chatbot.total_questions self)%Z ->
      (Chatbot.successful_responses (snd out)
       <= Chatbot.total_questions (snd out))%Z)
  /\ (Chatbot.session_history (snd out) = Chatbot.session_history self
      \/ exists entry,
           Chatbot.se_question entry = question
           /\ Chatbot.se_success entry = true
           /\ Chatbot.session_history (snd out)
              = Chatbot.last_n 100
                  (Chatbot.session_history self ++ [entry])%list)
  /\ ((List.length (Chatbot.session_history self) <= 100)%nat ->
      (List.length (Chatbot.session_history (snd out)) <= 100)%nat)
  /\ exists added,
       snd (fst out) = (history ++ added)%list
       /\ (List.length added <= 2)%nat
       /\ Forall (fun entry => fst entry = question) added.
Proof.
  intros out counted.
  pose proof (attempt_effect question history self)
    as (Hbooked & (added & Hadded & Hlen & Hall) & _).
  pose proof (process_question_effect question history self)
    as (Hsame & Hhistory & _).
  cbv zeta in *. fold out in Hsame, Hhistory.
  pose proof (booked_same_books question self _ _ Hbooked Hsame)
    as (B1 & B2 & B3 & B4 & B5).
  assert (Hcounted : one_if (asked question self) = counted).
  { unfold asked, counted. destruct (Str.strip question); [reflexivity|].
    now destruct (Chatbot.pipeline_initialized self). }
  rewrite Hcounted in B3, B4.
  split; [exact B1|]. split; [exact B2|]. split; [exact B3|].
  split; [exact B4|]. split; [lia|]. split; [exact B5|]. split.
  - intros Hshort. destruct B5 as [-> | (entry & _ & _ & ->)];
      [exact Hshort | apply last_n_length].
  - destruct Hhistory as [-> | ->].
    + exists added. split; [exact Hadded|]. split; [lia | exact Hall].
    + exists (added ++ [(question, Chatbot.error_processing)])%list.
      rewrite Hadded, <- app_assoc. split; [reflexivity|].
      rewrite length_app. cbn [List.length]. split; [lia|].
      apply Forall_app. split; [exact Hall|]. now repeat constructor.
Qed.

Lemma load_true_sized (file : Orchestrator.corpus_file)
    (p : Orchestrator.t) :
  fst (Orchestrator.load_full_dataset file p) = true ->
  sized (snd (Orchestrator.load_full_dataset file p)).
Proof.
  unfold Orchestrator.load_full_dataset, sized.
  destruct file as [e| |file_documents file_chunks]; try discriminate.
  cbn [Orchestrator.documents Orchestrator.chunks].
  destruct (Pipeline.py_len _) as [n|e1] eqn:Hn; [|discriminate].
  destruct (Pipeline.py_len (Orchestrator.seen_chunks _)) as [m|e2] eqn:Hm;
    [|discriminate].
  intros _. exists n, m. cbn [snd Orchestrator.documents Orchestrator.chunks].
  auto.
Qed.

Lemma initialize_keeps_corpus (p : Orchestrator.t) :
  let out :=
    Orchestrator.initialize_vector_database sha256_hexdigest encode chroma
      p in
  Orchestrator.documents (snd out) = Orchestrator.documents p
  /\ Orchestrator.chunks (snd out) = Orchestrator.chunks p.
Proof.
  unfold Orchestrator.initialize_vector_database.
  destruct (Orchestrator.chunks p) as [[|r rest]|seen truthy] eqn:Hchunks;
    [cbn; auto| |cbn; auto].
  destruct (Orchestrator.collect Orchestrator.ck_content (r :: rest));
    [|cbn; auto].
  destruct (Embeddings.generate_embeddings _ _ _ _ _) as [[m|e] em];
    [|cbn; auto].
  destruct (Orchestrator.collect Orchestrator.ck_id (r :: rest));
    [destruct (Orchestrator.collect Orchestrator.metadata_of (r :: rest))|];
    cbn; auto.
Qed.

(** X26. A chatbot that comes out of its constructor saying it is ready
    has a pipeline whose corpus has a length, whatever the constructor of
    the pipeline, the corpus file, the model and ChromaDB did; and on such
    a chatbot no exception escapes the handler: every question returns the
    panels, leaves the chatbot in such a state, and adds exactly one reply
    to the chat history, or none when the question is blank. *)
Theorem X26_a_ready_chatbot_always_answers :
  (forall (constructed : Orchestrator.t + exn)
          (file : Orchestrator.corpus_file) (enable_analytics : bool),
     serviceable
       (Chatbot.init sha256_hexdigest encode chroma constructed file
          enable_analytics))
  /\ (forall (question : string) (history : list (string * string))
             (self : Chatbot.t),
        serviceable self ->
        let out :=
          Chatbot.process_question float_sub np_mean
            sha256_hexdigest encode chroma now clock
            question history self in
        serviceable (snd out)
        /\ (exists shown, fst (fst out) = inl shown)
        /\ exists added,
             snd (fst out) = (history ++ added)%list
             /\ List.length added
                = match Str.strip question with
                  | EmptyString => 0%nat
                  | String _ _ => 1%nat
                  end).
Proof.
  split.
  - intros constructed file enable_analytics.
    unfold Chatbot.init, Chatbot._initialize_pipeline.
    destruct constructed as [p|e]; [|discriminate].
    pose proof (load_true_sized file p) as Hload.
    destruct (Orchestrator.load_full_dataset file p) as [[|] p1];
      [|discriminate].
    cbn [fst snd] in Hload. specialize (Hload eq_refl).
    pose proof (initialize_keeps_corpus p1) as [Hdocs Hchunks].
    destruct (Orchestrator.initialize_vector_database sha256_hexdigest
                encode chroma p1) as [[|] p2]; [|discriminate].
    cbn [snd] in *. intros _. exists p2. split; [reflexivity|].
    destruct Hload as (n & m & Hn & Hm). exists n, m.
    now rewrite Hdocs, Hchunks.
  - intros question history self Hs out.
    pose proof (attempt_effect question history self) as (_ & _ & Hserv & _).
    pose proof (process_question_effect question history self)
      as (_ & _ & Hsame).
    cbv zeta in *. destruct (Hserv Hs) as (Hs' & Hshown & Hadded).
    subst out. rewrite (Hsame Hshown). auto.
Qed.

(** X27. Every question costs a backend request of its own for the status
    panel: on a ready chatbot whose corpus has a length and whose LLM
    interface has a client, the handler sends, after whatever answering
    the question sent, one more request, the prompt [Test], that the
    request and token counters do not count. A blank question sends that
    request and nothing else. *)
Theorem X27_every_question_probes_the_backend (question : string)
    (history : list (string * string)) (self : Chatbot.t)
    (p : Orchestrator.t) (c : LLM.client_t) :
  Chatbot.pipeline_initialized self = true ->
  Chatbot.pipeline self = Some p ->
  sized p ->
  LLM.client (Orchestrator.llm_interface p) = Some c ->
  let out :=
    Chatbot.process_question float_sub np_mean
      sha256_hexdigest encode chroma now clock
      question history self in
  let answered :=
    match Str.strip question with
    | EmptyString => p
    | String _ _ =>
        snd (Orchestrator.answer_question float_sub np_mean
               sha256_hexdigest encode chroma now
               question p)
    end in
  exists p',
    Chatbot.pipeline (snd out) = Some p'
    /\ LLM.backend_calls (Orchestrator.llm_interface p')
       = (LLM.backend_calls (Orchestrator.llm_interface answered)
          ++ ["Test"])%list
    /\ LLM.total_requests (Orchestrator.llm_interface p')
       = LLM.total_requests (Orchestrator.llm_interface answered)
    /\ LLM.total_tokens_used (Orchestrator.llm_interface p')
       = LLM.total_tokens_used (Orchestrator.llm_interface answered)
    /\ LLM.sleeps (Orchestrator.llm_interface p')
       = LLM.sleeps (Orchestrator.llm_interface answered).
Proof.
  intros Hinit Hp Hsized Hclient out answered.
  assert (Hs : serviceable self) by (intros _; eauto).
  pose proof (attempt_effect question history self)
    as (_ & _ & Hserv & Hpipe).
  pose proof (process_question_effect question history self)
    as (_ & _ & Hsame).
  cbv zeta in *. destruct (Hserv Hs) as (_ & Hshown & _).
  subst out. rewrite (Hsame Hshown). rewrite (Hpipe p Hp Hinit).
  fold answered.
  assert (Hanswered : sized answered
                      /\ LLM.client (Orchestrator.llm_interface answered)
                         = LLM.client (Orchestrator.llm_interface p)).
  { subst answered. destruct (Str.strip question); [auto|].
    pose proof (answer_question_effect float_sub np_mean
                  sha256_hexdigest encode chroma now
                  question p)
      as ((_ & Hdocs & Hchunks & _) & _ & _
          & (n & prompt & naps & _ & _ & _ & _ & _ & Hcl) & _).
    cbv zeta in *. split; [|exact Hcl].
    destruct Hsized as (n' & m' & Hn & Hm). exists n', m'.
    now rewrite Hdocs, Hchunks. }
  destruct Hanswered as [Hsz Hcl].
  pose proof (get_system_stats_effect answered)
    as (_ & _ & _ & _ & _ & Hstats & _).
  cbv zeta in Hstats. destruct (Hstats Hsz) as [_ Hllm].
  eexists. split; [reflexivity|]. rewrite Hllm.
  pose proof (is_available_effect (Orchestrator.llm_interface answered))
    as (Hcalls & Hreq & Htok & Hsleeps & _).
  cbv zeta in *. rewrite Hcl, Hclient in Hcalls. auto.
Qed.

End HandlerProofs.

(** ** The sources panel *)

Lemma take_length (n : nat) (s : string) :
  (String.length (Str.take n s) <= n)%nat.
Proof.
  revert s. induction n as [|n IH]; intros [|c s]; cbn; try lia.
  specialize (IH s). lia.
Qed.

Lemma append_length (s t : string) :
  String.length (String.append s t) = (String.length s + String.length t)%nat.
Proof.
  induction s as [|c s IH]; [reflexivity|].
  rewrite append_cons. cbn [String.length]. now rewrite IH.
Qed.

Lemma display_length (url : string) :
  (String.length (Chatbot.display url) <= 50)%nat.
Proof.
  unfold Chatbot.display. cbv zeta.
  destruct (Nat.ltb_spec 50
              (String.length
                 (Chatbot.remove "https://"
                    (Chatbot.remove "https://ottawa.ca/" url))))
    as [Hlong|Hshort]; [|exact Hshort].
  rewrite append_length.
  pose proof (take_length 47
                (Chatbot.remove "https://"
                   (Chatbot.remove "https://ottawa.ca/" url))).
  cbn [String.length]. lia.
Qed.

(** The citations of the sources from position [i] on. *)
Lemma cite_sound (sources : list Pipeline.source) :
  forall i : nat,
    (List.length (Chatbot.cite i sources) <= List.length sources)%nat
    /\ Forall
         (fun c =>
            (i < Chatbot.ct_number c <= i + List.length sources)%nat
            /\ exists source,
                 nth_error sources (Chatbot.ct_number c - 1 - i)
                 = Some source
                 /\ Chatbot.ct_url c = Pipeline.src_url source
                 /\ Chatbot.ct_url c <> EmptyString
                 /\ Chatbot.ct_display_url c
                    = Chatbot.display (Pipeline.src_url source)
                 /\ Chatbot.ct_relevance c = Pipeline.src_similarity source)
         (Chatbot.cite i sources).
Proof.
  induction sources as [|source rest IH]; intros i; cbn [Chatbot.cite].
  - split; [cbn; lia | constructor].
  - destruct (IH (S i)) as [Hlen Hall].
    assert (Hrest :
      Forall
        (fun c =>
           (i < Chatbot.ct_number c <= i + List.length (source :: rest))%nat
           /\ exists source0,
                nth_error (source :: rest) (Chatbot.ct_number c - 1 - i)
                = Some source0
                /\ Chatbot.ct_url c = Pipeline.src_url source0
                /\ Chatbot.ct_url c <> EmptyString
                /\ Chatbot.ct_display_url c
                   = Chatbot.display (Pipeline.src_url source0)
                /\ Chatbot.ct_relevance c = Pipeline.src_similarity source0)
        (Chatbot.cite (S i) rest)).
    { eapply List.Forall_impl; [|exact Hall]. cbn beta.
      intros c (Hnum & source0 & Hnth & Hrest). cbn [List.length].
      split; [lia|]. exists source0. split; [|exact Hrest].
      replace (Chatbot.ct_number c - 1 - i)%nat
        with (S (Chatbot.ct_number c - 1 - S i)) by lia.
      exact Hnth. }
    destruct (Pipeline.src_url source) as [|a url] eqn:Hurl.
    + split; [cbn [List.length]; lia | exact Hrest].
    + split; [cbn [List.length]; lia|]. constructor; [|exact Hrest].
      cbn [Chatbot.ct_number Chatbot.ct_url Chatbot.ct_display_url
           Chatbot.ct_relevance List.length].
      split; [lia|]. exists source.
      replace (S i - 1 - i)%nat with 0%nat by lia.
      rewrite Hurl. repeat split; auto; discriminate.
Qed.

(** X29. The sources panel says that no sources are available exactly
    when there are none; otherwise it cites at most three sources, all
    among the first three: a citation carries the number of the position
    of its source (1, 2 or 3), that source's URL, which is not empty, and
    its similarity, and displays at most 50 characters of the URL. A
    source without a URL is not cited, and its number is not given to
    another. *)
Theorem X29_sources_panel_cites_the_first_three
    (sources : list Pipeline.source) :
  match Chatbot._format_sources sources with
  | Chatbot.NoSourcesAvailable => sources = []
  | Chatbot.Sources citations =>
      sources <> []
      /\ (List.length citations <= 3)%nat
      /\ Forall
           (fun c =>
              (1 <= Chatbot.ct_number c <= 3)%nat
              /\ (String.length (Chatbot.ct_display_url c) <= 50)%nat
              /\ Chatbot.ct_url c <> EmptyString
              /\ exists source,
                   nth_error sources (Chatbot.ct_number c - 1) = Some source
                   /\ Pipeline.src_url source = Chatbot.ct_url c
                   /\ Pipeline.src_similarity source
                      = Chatbot.ct_relevance c)
           citations
      /\ List.NoDup (map Chatbot.ct_number citations)
  end.
Proof.
  unfold Chatbot._format_sources.
  destruct sources as [|first rest]; [reflexivity|].
  set (sources := first :: rest).
  destruct (cite_sound (firstn 3 sources) 0) as [Hlen Hall].
  assert (Hthree : (List.length (firstn 3 sources) <= 3)%nat)
    by (rewrite length_firstn; lia).
  split; [discriminate|]. split; [lia|]. split.
  - eapply List.Forall_impl; [|exact Hall]. cbn beta.
    intros c (Hnum & source & Hnth & Hurl & Hnonempty & Hdisplay & Hrel).
    split; [lia|]. split; [rewrite Hdisplay; apply display_length|].
    split; [exact Hnonempty|]. exists source.
    rewrite Nat.sub_0_r in Hnth. split; [|auto].
    assert (Hlt : (Chatbot.ct_number c - 1 < 3)%nat) by lia.
    rewrite <- Hnth, nth_error_firstn.
    now replace (Chatbot.ct_number c - 1 <? 3)%nat with true
      by (symmetry; apply Nat.ltb_lt; exact Hlt).
  - clear. generalize (firstn 3 sources) as xs. intros xs.
    assert (Hgen : forall i,
              List.NoDup (map Chatbot.ct_number (Chatbot.cite i xs))
              /\ Forall (fun n => (i < n)%nat)
                   (map Chatbot.ct_number (Chatbot.cite i xs))).
    { induction xs as [|x xs IH]; intros i; cbn [Chatbot.cite map];
        [split; constructor|].
      destruct (IH (S i)) as [Hnd Hgt].
      assert (Hgt' : Forall (fun n => (i < n)%nat)
                       (map Chatbot.ct_number (Chatbot.cite (S i) xs))).
      { eapply List.Forall_impl; [|exact Hgt]. cbn beta. intros. lia. }
      destruct (Pipeline.src_url x); [split; assumption|].
      cbn [map Chatbot.ct_number]. split.
      - constructor; [|exact Hnd]. intros Hin.
        rewrite List.Forall_forall in Hgt. specialize (Hgt _ Hin). lia.
      - constructor; [lia | exact Hgt']. }
    apply Hgen.
Qed.

(** ** The store theorems at concrete inputs *)

(** A ChromaDB that accepts every request, one that refuses every request,
    and one that accepts the first request only. *)
Definition accepting (history : list Orchestrator.request_t)
    (request : Orchestrator.request_t) : VectorStore.reply :=
  VectorStore.Done.

Definition refusing (history : list Orchestrator.request_t)
    (request : Orchestrator.request_t) : VectorStore.reply :=
  VectorStore.Raised (RuntimeError "database is locked").

Definition accepting_once (history : list Orchestrator.request_t)
    (request : Orchestrator.request_t) : VectorStore.reply :=
  match history with
  | [] => VectorStore.Done
  | _ :: _ => VectorStore.Raised (ValueError "duplicate ids")
  end.

Definition selected_store : Orchestrator.store_t :=
  {| VectorStore.collection_name := "ottawa_complete";
     VectorStore.distance_metric := "cosine";
     VectorStore.current_collection := Some "ottawa_complete";
     VectorStore.requests := [] |}.

Definition three_ids : list string :=
  ["chunk_000000"; "chunk_000001"; "chunk_000002"].

Definition three_texts : list string :=
  ["Marriage licences are issued at City Hall.";
   "Green bins are collected weekly.";
   "On-street parking is limited to three hours."].

Definition three_vectors : Embeddings.matrix :=
  [[1%float; 0%float]; [0%float; 1%float]; [1%float; 1%float]].

Definition three_metadatas : list Orchestrator.record_meta :=
  [Orchestrator.ChunkMeta "https://ottawa.ca/marriage" "marriage.json" 0;
   Orchestrator.ChunkMeta "https://ottawa.ca/garbage" "garbage.json" 0;
   Orchestrator.ChunkMeta "https://ottawa.ca/parking" "parking.json" 1].

Lemma X9_add_documents_witness :
  let out :=
    VectorStore.add_documents Orchestrator.SourceOttawa accepting three_ids
      three_texts three_vectors (Some three_metadatas) 2 selected_store in
  fst out = true
  /\ List.length (VectorStore.requests (snd out)) = 2%nat.
Proof.
  intros out.
  destruct (X9_add_documents_sends_every_record_once _ _ _ _
              Orchestrator.SourceOttawa accepting "ottawa_complete"
              three_ids three_texts three_vectors three_metadatas 2
              selected_store eq_refl eq_refl eq_refl eq_refl
              ltac:(lia) ltac:(intros; reflexivity))
    as (Htrue & batches & Hrequests & _ & _ & _ & _ & _ & Hcount).
  split; [exact Htrue|].
  fold out in Hrequests. rewrite Hrequests.
  cbn [VectorStore.requests selected_store app].
  rewrite length_map. exact Hcount.
Defined.

Lemma X10_add_documents_witness :
  let out :=
    VectorStore.add_documents Orchestrator.SourceOttawa accepting_once
      three_ids three_texts three_vectors (Some three_metadatas) 1
      selected_store in
  exists batches : list (VectorStore.batch Orchestrator.record_meta),
    VectorStore.requests (snd out)
    = map (VectorStore.AddBatch "ottawa_complete") batches
    /\ concat (map VectorStore.b_ids batches)
       = firstn (List.length batches) three_ids.
Proof.
  intros out.
  destruct (X10_add_documents_stops_at_first_failure _ _ _ _
              Orchestrator.SourceOttawa accepting_once "ottawa_complete"
              three_ids three_texts three_vectors three_metadatas 1
              selected_store eq_refl eq_refl eq_refl eq_refl ltac:(lia))
    as (batches & Hrequests & Hids & _).
  exists batches. split; [exact Hrequests|].
  rewrite Hids. f_equal. change (Z.to_nat 1) with 1%nat. lia.
Defined.







(** ** The index build, the retry loop and the manager at concrete inputs *)

Definition two_records : list Orchestrator.chunk_record :=
  [ {| Orchestrator.ck_content :=
         Some "Marriage licences are issued at City Hall.";
       Orchestrator.ck_id := Some "chunk_000000";
       Orchestrator.ck_url := Some "https://ottawa.ca/marriage";
       Orchestrator.ck_source_file := Some "marriage.json";
       Orchestrator.ck_chunk_index := Some 0%Z |};
    {| Orchestrator.ck_content := Some "Green bins are collected weekly.";
       Orchestrator.ck_id := Some "chunk_000001";
       Orchestrator.ck_url := Some "https://ottawa.ca/garbage";
       Orchestrator.ck_source_file := Some "garbage.json";
       Orchestrator.ck_chunk_index := Some 0%Z |} ].

(** A pipeline just constructed, with the corpus loaded. *)
Definition loaded_pipeline : Orchestrator.t :=
  snd (Orchestrator.load_full_dataset
         (Orchestrator.Object (Some (Pipeline.Sized 2))
            (Some (Orchestrator.ChunkList two_records)))
         (Orchestrator.init fresh_manager llm_backend_down)).

Lemma two_records_complete : Forall complete two_records.
Proof. repeat constructor; discriminate. Defined.

Lemma X16_index_build_witness :
  let out :=
    Orchestrator.initialize_vector_database sha_stub encode_stub accepting
      loaded_pipeline in
  fst out = true
  /\ VectorStore.current_collection (Orchestrator.vector_store (snd out))
     = Some "ottawa_complete".
Proof.
  intros out.
  destruct (X16_index_build_sends_the_corpus sha_stub encode_stub accepting
              loaded_pipeline two_records
              ["Marriage licences are issued at City Hall.";
               "Green bins are collected weekly."]
              [[1%float; 0%float]; [1%float; 0%float]]
              (snd (Embeddings.generate_embeddings sha_stub encode_stub
                      ["Marriage licences are issued at City Hall.";
                       "Green bins are collected weekly."] true
                      fresh_manager))
              eq_refl ltac:(discriminate) two_records_complete eq_refl
              eq_refl eq_refl ltac:(intros; reflexivity))
    as (Htrue & _ & Hselected & _).
  split; [exact Htrue | exact Hselected].
Defined.

Lemma X17_index_build_witness :
  let out :=
    Orchestrator.initialize_vector_database sha_stub encode_stub refusing
      loaded_pipeline in
  fst out = true
  /\ Orchestrator.is_initialized (snd out) = true
  /\ VectorStore.current_collection (Orchestrator.vector_store (snd out))
     = None.
Proof.
  intros out.
  destruct (X17_index_build_reports_success_on_a_refusing_store Qminus
              sha_stub encode_stub refusing loaded_pipeline eq_refl
              ltac:(intros; reflexivity) ltac:(intros; reflexivity)
              eq_refl)
    as (Hmark & Hnone & _).
  split; [reflexivity|]. split; [exact Hmark | exact Hnone].
Defined.

Lemma X19_bounded_witness :
  let out :=
    LLM.generate_response no_format "How much is a marriage license?"
      "Source 1: Marriage license fee is $145." true None 3
      (LLM.init (fun _ => inl backend_flaky) (Some "gsk-key") None) in
  exists (n : nat) (text : string),
    (1 <= Z.of_nat n <= 3)%Z
    /\ fst out = Some text
    /\ LLM.backend_calls (snd out)
       = repeat
           (LLM._build_ottawa_prompt "How much is a marriage license?"
              "Source 1: Marriage license fee is $145.") n.
Proof.
  intros out.
  destruct (X19_generate_response_is_bounded no_format backend_flaky
              "How much is a marriage license?"
              "Source 1: Marriage license fee is $145."
              (LLM._build_ottawa_prompt "How much is a marriage license?"
                 "Source 1: Marriage license fee is $145.")
              true None 3
              (LLM.init (fun _ => inl backend_flaky) (Some "gsk-key") None)
              eq_refl eq_refl ltac:(lia))
    as (n & text & Hn & Htext & _ & Hcalls & _).
  exists n, text. split; [exact Hn|]. split; [exact Htext | exact Hcalls].
Defined.

Definition flaky_pipeline : Orchestrator.t :=
  Orchestrator.init fresh_manager
    (LLM.init (fun _ => inl backend_flaky) (Some "gsk-key") None).

Lemma X20_system_stats_witness :
  let out := Orchestrator.get_system_stats flaky_pipeline in
  LLM.backend_calls (Orchestrator.llm_interface (snd out)) = ["Test"]
  /\ LLM.total_requests (Orchestrator.llm_interface (snd out)) = 0%Z.
Proof.
  intros out.
  destruct (X20_system_stats_cost_one_uncounted_request flaky_pipeline
              backend_flaky eq_refl) as [_ Hstats].
  destruct (Hstats _ eq_refl) as (Hcalls & Hrequests & _).
  split; [exact Hcalls | exact Hrequests].
Defined.

Lemma X21_encoded_once_witness :
  let out :=
    Embeddings.generate_embeddings sha_stub encode_stub three_texts false
      fresh_manager in
  exists blocks : list (list string),
    encoded (Embeddings.events (snd out)) = blocks
    /\ exists rest, three_texts = (concat blocks ++ rest)%list.
Proof.
  intros out.
  destruct (X21_texts_are_encoded_once_in_order sha_stub encode_stub
              three_texts false fresh_manager ltac:(cbn; lia))
    as (blocks & Hencoded & _ & Hprefix & _).
  exists blocks. split; [exact Hencoded | exact Hprefix].
Defined.

(** A manager configured with a batch size of 0. *)
Definition manager_batch_0 : Embeddings.t :=
  {| Embeddings.model_name := "all-MiniLM-L6-v2";
     Embeddings.batch_size := 0;
     Embeddings.cache_dir := None;
     Embeddings.embedding_dimension := 2;
     Embeddings.disk := ∅;
     Embeddings.disk_writable := true;
     Embeddings.events := [] |}.

Lemma X23_nonpositive_batch_witness :
  let out :=
    Embeddings.generate_embeddings sha_stub encode_stub three_texts true
      manager_batch_0 in
  (exists e, fst out = inr e)
  /\ encoded (Embeddings.events (snd out)) = []
  /\ Embeddings.disk (snd out) = ∅.
Proof.
  intros out.
  exact (X23_nonpositive_batch_size_raises sha_stub encode_stub three_texts
           true manager_batch_0 ltac:(discriminate) ltac:(cbn; lia)
           (or_intror (or_introl eq_refl))).
Defined.

(** ** The handler at a concrete input *)

(** A chatbot built on a pipeline whose backend fails once, from a corpus
    file of two chunks, with a ChromaDB that accepts every request. *)
Definition two_chunk_file : Orchestrator.corpus_file :=
  Orchestrator.Object (Some (Pipeline.Sized 2))
    (Some (Orchestrator.ChunkList two_records)).

Definition ready_chatbot : Chatbot.t :=
  Chatbot.init sha_stub encode_stub accepting (inl flaky_pipeline)
    two_chunk_file true.

Definition indexed_pipeline : Orchestrator.t :=
  snd (Orchestrator.initialize_vector_database sha_stub encode_stub
         accepting
         (snd (Orchestrator.load_full_dataset two_chunk_file
                 flaky_pipeline))).

Lemma indexed_pipeline_sized : sized indexed_pipeline.
Proof. exists 2%Z, 2%Z. split; reflexivity. Defined.

Lemma X27_probe_witness :
  let out :=
    Chatbot.process_question Qminus exact_mean sha_stub encode_stub
      accepting
      "2026-01-05T10:00:00" "2026-01-05T10:00:01"
      "How do I get a marriage licence?" [] ready_chatbot in
  exists p',
    Chatbot.pipeline (snd out) = Some p'
    /\ LLM.backend_calls (Orchestrator.llm_interface p') = ["Test"]
    /\ LLM.total_requests (Orchestrator.llm_interface p') = 0%Z.
Proof.
  intros out.
  destruct (X27_every_question_probes_the_backend Qminus exact_mean
              sha_stub encode_stub accepting "2026-01-05T10:00:00" "2026-01-05T10:00:01"
              "How do I get a marriage licence?" [] ready_chatbot
              indexed_pipeline backend_flaky eq_refl eq_refl
              indexed_pipeline_sized eq_refl)
    as (p' & Hp' & Hcalls & Hrequests & _).
  exists p'. split; [exact Hp'|]. split; [exact Hcalls | exact Hrequests].
Defined.
